(** * go-mcp-server-example: dispatcher and transports

    A shallow embedding of the MCP coffee server: the envelope types of
    [pkg/mcp], the coffee handlers of [pkg/handlers], the dispatcher of
    [internal/server] and the stdio and HTTP/SSE transports of
    [pkg/transport], followed by the properties proved about them.

    Conventions.
    - A Go [error] is the text of its [Error()] method; [None] is [nil].
    - A Go function returning [(T, error)] returns [result T].
    - A method with a pointer receiver that mutates it takes the receiver's
      state and returns the new one next to its Go result.
    - Go's [int] is the 64-bit two's complement integer of the platforms the
      Dockerfile builds for; its wrap-around is written out ([int_wrap]).
    - Mutexes are not modelled: every method body below runs atomically,
      which is what the locks of the source guarantee. *)

From Stdlib Require Import ZArith Ascii String SpecFloat.
From stdpp Require Import gmap strings list pretty.

#[local] Set Warnings "-register-all".
#[local] Open Scope Z_scope.

(** ** Go runtime notions shared by every package *)

(** [error]: [None] is [nil], [Some msg] an error whose [Error()] is [msg]. *)
Definition error : Type := option string.

Inductive result (T : Type) : Type :=
| Ok (v : T)
| Err (e : string).
Arguments Ok {T} v.
Arguments Err {T} e.

Definition is_Err {T} (r : result T) : bool :=
  match r with Ok _ => false | Err _ => true end.

(** Two's complement wrap-around of Go's 64-bit [int]. *)
Definition MaxInt : Z := 2 ^ 63 - 1.
Definition MinInt : Z := - 2 ^ 63.
Definition int_wrap (z : Z) : Z := (z + 2 ^ 63) mod 2 ^ 64 - 2 ^ 63.

(** The snapshot of a [context.Context] a callee can observe: [ctx.Err()],
    which is non-nil exactly when [ctx.Done()] is closed. *)
Record Context : Type := { ctx_Err : error }.

Definition Background : Context := {| ctx_Err := None |}.
Definition Canceled : Context := {| ctx_Err := Some "context canceled" |}.
Definition DeadlineExceeded : Context :=
  {| ctx_Err := Some "context deadline exceeded" |}.

Definition ctx_Done (ctx : Context) : bool :=
  match ctx_Err ctx with Some _ => true | None => false end.

(** Characters written by name, and a string between double quotes. *)
Definition dquote : string := String "034"%char EmptyString.
Definition newline : string := String "010"%char EmptyString.
Definition quoted (s : string) : string := dquote +:+ s +:+ dquote.

(** ** Package mcp: protocol types and interfaces *)

Module mcp.

Definition ProtocolVersion : string := "2025-03-26".
Definition JSONRPCVersion : string := "2.0".

Definition ErrorCodeParseError : Z := -32700.
Definition ErrorCodeInvalidRequest : Z := -32600.
Definition ErrorCodeMethodNotFound : Z := -32601.
Definition ErrorCodeInvalidParams : Z := -32602.
Definition ErrorCodeInternalError : Z := -32603.

(** Go's [any], for the dynamic types [encoding/json] decodes into it
    ([nil], [bool], [float64], [string], [[]any], [map[string]any]) and the
    [int] that [sendParseError] stores in an id. *)
Inductive any : Type :=
| Nil
| OfBool (b : bool)
| OfInt (n : Z)
| OfFloat64 (f : spec_float)
| OfString (s : string)
| OfSlice (l : list any)
| OfMap (m : gmap string any).

Definition is_nil (v : any) : bool :=
  match v with Nil => true | _ => false end.

(** The type assertions [v.(string)] and [v.(map[string]any)]. *)
Definition as_string (v : any) : option string :=
  match v with OfString s => Some s | _ => None end.

Definition as_map (v : any) : option (gmap string any) :=
  match v with OfMap m => Some m | _ => None end.

(** [m[k].(string)]: a missing key reads as the nil interface, whose
    assertion fails like that of any non-string. *)
Definition index_string (m : gmap string any) (k : string) : option string :=
  as_string (default Nil (m !! k)).

Record ServerInfo : Type := {
  ServerInfo_Name : string;
  ServerInfo_Version : string
}.

Record InitializeResponse : Type := {
  InitializeResponse_ProtocolVersion : string;
  InitializeResponse_Capabilities : gmap string any;
  InitializeResponse_ServerInfo : ServerInfo
}.

(** Tool-related types *)
Record InputSchema : Type := {
  InputSchema_Type : string;
  InputSchema_Properties : gmap string any;
  InputSchema_Required : list string
}.

Record Tool : Type := {
  Tool_Name : string;
  Tool_Description : string;
  Tool_InputSchema : InputSchema
}.

Record ToolCallParams : Type := {
  ToolCallParams_Name : string;
  ToolCallParams_Arguments : gmap string any
}.

Record ContentItem : Type := {
  ContentItem_Type : string;
  ContentItem_Text : string
}.

Record ToolResponse : Type := { ToolResponse_Content : list ContentItem }.

(** Resource-related types *)
Record Resource : Type := { Resource_URI : string; Resource_Name : string }.

Record ResourceContent : Type := {
  ResourceContent_URI : string;
  ResourceContent_Text : string
}.

Record ResourceResponse : Type := {
  ResourceResponse_Contents : list ResourceContent
}.

Record ResourceParams : Type := { ResourceParams_URI : string }.

(** Prompt-related types *)
Record PromptArgument : Type := {
  PromptArgument_Name : string;
  PromptArgument_Description : string;
  PromptArgument_Required : bool
}.

Record Prompt : Type := {
  Prompt_Name : string;
  Prompt_Description : string;
  Prompt_Arguments : list PromptArgument
}.

Record PromptParams : Type := {
  PromptParams_Name : string;
  PromptParams_Arguments : gmap string any
}.

Record MessageContent : Type := {
  MessageContent_Type : string;
  MessageContent_Text : string
}.

Record PromptMessage : Type := {
  PromptMessage_Role : string;
  PromptMessage_Content : MessageContent
}.

Record PromptResponse : Type := { PromptResponse_Messages : list PromptMessage }.

(** JSON-RPC 2.0 message types *)
Record Request : Type := {
  Request_JSONRPC : string;
  Request_Method : string;
  Request_ID : any;
  Request_Params : any
}.

Record ErrorResponse : Type := {
  ErrorResponse_Code : Z;
  ErrorResponse_Message : string;
  ErrorResponse_Data : any
}.

(** What the dispatcher stores in [Response.Result], a Go [any]: the nil
    interface, or a value of one of the types the handlers return. *)
Inductive Payload : Type :=
| NoPayload
| OfInitializeResponse (r : InitializeResponse)
| OfTools (tools : list Tool)
| OfToolResponse (r : ToolResponse)
| OfResources (resources : list Resource)
| OfResourceResponse (r : ResourceResponse)
| OfPrompts (prompts : list Prompt)
| OfPromptResponse (r : PromptResponse)
| OfObject (m : gmap string any).

Record Response : Type := {
  Response_JSONRPC : string;
  Response_ID : any;
  Response_Result : Payload;
  Response_Error : option ErrorResponse
}.

(** Core interfaces *)
Class ToolHandler (H : Type) : Type := {
  ListTools : H -> Context -> result (list Tool);
  CallTool : H -> Context -> ToolCallParams -> result ToolResponse
}.

Class ResourceHandler (H : Type) : Type := {
  ListResources : H -> Context -> result (list Resource);
  ReadResource : H -> Context -> ResourceParams -> result ResourceResponse
}.

Class PromptHandler (H : Type) : Type := {
  ListPrompts : H -> Context -> result (list Prompt);
  GetPrompt : H -> Context -> PromptParams -> result PromptResponse
}.

(** [ResponseSender]: a sender is a handle of type [H] (the value a transport
    stores in the request context); what its methods write to is the state
    [W], which each method takes and returns next to its Go [error]. *)
Class ResponseSender (H W : Type) : Type := {
  SendResponse : H -> Response -> W -> W * error;
  SendError : H -> any -> Z -> string -> any -> W -> W * error
}.

End mcp.

(** ** The JSON document encoding/json writes for each envelope type

    [json.Marshal] turns a struct into a JSON object whose members are fixed
    by the struct tags; the functions below give that object as a document
    tree (member order, which JSON does not observe, is not kept).  A field
    tagged [omitempty] is left out when it is a nil interface, a nil
    pointer, [false], or an empty map or slice. *)

Module wire.
Import mcp.

Definition member (k : string) (v : any) (o : gmap string any) : gmap string any :=
  <[k := v]> o.

Definition member_omitempty (k : string) (v : option any) (o : gmap string any)
  : gmap string any :=
  match v with Some x => <[k := x]> o | None => o end.

Definition map_is_empty (m : gmap string any) : bool :=
  match map_to_list m with [] => true | _ => false end.

Definition strings (l : list string) : any := OfSlice (OfString <$> l).

Definition ServerInfo_json (s : ServerInfo) : any :=
  OfMap (member "name" (OfString (ServerInfo_Name s))
        (member "version" (OfString (ServerInfo_Version s)) ∅)).

Definition InitializeResponse_json (r : InitializeResponse) : any :=
  OfMap (member "protocolVersion" (OfString (InitializeResponse_ProtocolVersion r))
        (member "capabilities" (OfMap (InitializeResponse_Capabilities r))
        (member "serverInfo" (ServerInfo_json (InitializeResponse_ServerInfo r)) ∅))).

Definition InputSchema_json (i : InputSchema) : any :=
  OfMap (member "type" (OfString (InputSchema_Type i))
        (member_omitempty "properties"
           (if map_is_empty (InputSchema_Properties i) then None
            else Some (OfMap (InputSchema_Properties i)))
        (member_omitempty "required"
           (match InputSchema_Required i with
            | [] => None
            | l => Some (strings l)
            end) ∅))).

Definition Tool_json (t : Tool) : any :=
  OfMap (member "name" (OfString (Tool_Name t))
        (member "description" (OfString (Tool_Description t))
        (member "inputSchema" (InputSchema_json (Tool_InputSchema t)) ∅))).

Definition ContentItem_json (c : ContentItem) : any :=
  OfMap (member "type" (OfString (ContentItem_Type c))
        (member "text" (OfString (ContentItem_Text c)) ∅)).

Definition ToolResponse_json (r : ToolResponse) : any :=
  OfMap (member "content" (OfSlice (ContentItem_json <$> ToolResponse_Content r)) ∅).

Definition Resource_json (r : Resource) : any :=
  OfMap (member "uri" (OfString (Resource_URI r))
        (member "name" (OfString (Resource_Name r)) ∅)).

Definition ResourceContent_json (c : ResourceContent) : any :=
  OfMap (member "uri" (OfString (ResourceContent_URI c))
        (member "text" (OfString (ResourceContent_Text c)) ∅)).

Definition ResourceResponse_json (r : ResourceResponse) : any :=
  OfMap (member "contents"
           (OfSlice (ResourceContent_json <$> ResourceResponse_Contents r)) ∅).

Definition PromptArgument_json (a : PromptArgument) : any :=
  OfMap (member "name" (OfString (PromptArgument_Name a))
        (member "description" (OfString (PromptArgument_Description a))
        (member_omitempty "required"
           (if PromptArgument_Required a then Some (OfBool true) else None) ∅))).

Definition Prompt_json (p : Prompt) : any :=
  OfMap (member "name" (OfString (Prompt_Name p))
        (member "description" (OfString (Prompt_Description p))
        (member_omitempty "arguments"
           (match Prompt_Arguments p with
            | [] => None
            | l => Some (OfSlice (PromptArgument_json <$> l))
            end) ∅))).

Definition MessageContent_json (c : MessageContent) : any :=
  OfMap (member "type" (OfString (MessageContent_Type c))
        (member "text" (OfString (MessageContent_Text c)) ∅)).

Definition PromptMessage_json (m : PromptMessage) : any :=
  OfMap (member "role" (OfString (PromptMessage_Role m))
        (member "content" (MessageContent_json (PromptMessage_Content m)) ∅)).

Definition PromptResponse_json (r : PromptResponse) : any :=
  OfMap (member "messages"
           (OfSlice (PromptMessage_json <$> PromptResponse_Messages r)) ∅).

Definition ErrorResponse_json (e : ErrorResponse) : any :=
  OfMap (member "code" (OfInt (ErrorResponse_Code e))
        (member "message" (OfString (ErrorResponse_Message e))
        (member_omitempty "data"
           (if is_nil (ErrorResponse_Data e) then None
            else Some (ErrorResponse_Data e)) ∅))).

(** The [result] member: [Result any `json:"result,omitempty"`].  For an
    interface field [omitempty] drops the nil interface only, so a non-nil
    interface holding an empty map is written, as [{}]. *)
Definition Payload_json (p : Payload) : option any :=
  match p with
  | NoPayload => None
  | OfInitializeResponse r => Some (InitializeResponse_json r)
  | OfTools tools => Some (OfMap {[ "tools" := OfSlice (Tool_json <$> tools) ]})
  | OfToolResponse r => Some (ToolResponse_json r)
  | OfResources rs => Some (OfMap {[ "resources" := OfSlice (Resource_json <$> rs) ]})
  | OfResourceResponse r => Some (ResourceResponse_json r)
  | OfPrompts ps => Some (OfMap {[ "prompts" := OfSlice (Prompt_json <$> ps) ]})
  | OfPromptResponse r => Some (PromptResponse_json r)
  | OfObject m => Some (OfMap m)
  end.

Definition Response_json (r : Response) : gmap string any :=
  member "jsonrpc" (OfString (Response_JSONRPC r))
  (member "id" (Response_ID r)
  (member_omitempty "result" (Payload_json (Response_Result r))
  (member_omitempty "error" (ErrorResponse_json <$> Response_Error r) ∅))).

End wire.

(** ** Package handlers: the coffee shop domain *)

Module handlers.
Import mcp.

Record Drink : Type := {
  Drink_Name : string;
  Drink_Price : Z;
  Drink_Description : string
}.

Record Coffee : Type := { drinks : list Drink }.

Definition NewCoffee : Coffee :=
  {| drinks :=
       [ {| Drink_Name := "Latte"; Drink_Price := 5;
            Drink_Description :=
              "A latte is a coffee drink made with espresso and steamed milk." |};
         {| Drink_Name := "Mocha"; Drink_Price := 6;
            Drink_Description :=
              "A mocha is a coffee drink made with espresso and chocolate." |};
         {| Drink_Name := "Flat White"; Drink_Price := 7;
            Drink_Description :=
              "A flat white is a coffee drink made with espresso and steamed milk." |} ] |}.

(** The calls into Go's standard library whose results the handlers pass on
    as text: [json.Marshal] at the three types it is used at, and the [%v]
    verb of [fmt.Sprintf] on an [any]. *)
Class TextEncoding : Type := {
  json_Marshal_names : list string -> result string;
  json_Marshal_Drink : Drink -> result string;
  json_Marshal_Drinks : list Drink -> result string;
  fmt_v : any -> string
}.

Section Coffee.
Context `{!TextEncoding}.

(** Tool handler implementation *)

Definition Coffee_ListTools (c : Coffee) (ctx : Context) : result (list Tool) :=
  Ok [ {| Tool_Name := "getDrinkNames";
          Tool_Description := "Get the names of the drinks in the shop";
          Tool_InputSchema :=
            {| InputSchema_Type := "object";
               InputSchema_Properties := ∅;
               InputSchema_Required := [] |} |};
       {| Tool_Name := "getDrinkInfo";
          Tool_Description := "Get more info about the drink";
          Tool_InputSchema :=
            {| InputSchema_Type := "object";
               InputSchema_Properties :=
                 {[ "name" := OfMap {[ "type" := OfString "string" ]} ]};
               InputSchema_Required := ["name"] |} |} ].

Definition text_content (text : string) : ToolResponse :=
  {| ToolResponse_Content :=
       [ {| ContentItem_Type := "text"; ContentItem_Text := text |} ] |}.

Definition getDrinkNames (c : Coffee) (ctx : Context) : ToolResponse :=
  if ctx_Done ctx then
    text_content ("{" +:+ quoted "error" +:+ ": " +:+ quoted "Request cancelled" +:+ "}")
  else
    let names := Drink_Name <$> drinks c in
    match json_Marshal_names names with
    | Err e =>
        text_content ("{" +:+ quoted "error" +:+ ": "
                      +:+ quoted ("Failed to marshal drink names: " +:+ e) +:+ "}")
    | Ok namesJSON => text_content namesJSON
    end.

(** The [for _, drink := range c.drinks] loop of [getDrinkInfo]. *)
Fixpoint getDrinkInfo_range (ds : list Drink) (name : string) : result ToolResponse :=
  match ds with
  | [] => Err ("drink not found: " +:+ name)
  | drink :: rest =>
      if String.eqb (Drink_Name drink) name then
        match json_Marshal_Drink drink with
        | Err e => Err ("failed to marshal drink info: " +:+ e)
        | Ok drinkJSON => Ok (text_content drinkJSON)
        end
      else getDrinkInfo_range rest name
  end.

Definition getDrinkInfo (c : Coffee) (ctx : Context) (args : gmap string any)
  : result ToolResponse :=
  match ctx_Err ctx with
  | Some e => Err e
  | None =>
      match index_string args "name" with
      | None => Err "invalid name parameter: expected string"
      | Some name => getDrinkInfo_range (drinks c) name
      end
  end.

Definition Coffee_CallTool (c : Coffee) (ctx : Context) (params : ToolCallParams)
  : result ToolResponse :=
  if String.eqb (ToolCallParams_Name params) "getDrinkNames" then
    Ok (getDrinkNames c ctx)
  else if String.eqb (ToolCallParams_Name params) "getDrinkInfo" then
    getDrinkInfo c ctx (ToolCallParams_Arguments params)
  else Err ("tool " +:+ ToolCallParams_Name params +:+ " not found").

(** Resource handler implementation *)

Definition Coffee_ListResources (c : Coffee) (ctx : Context) : result (list Resource) :=
  Ok [ {| Resource_URI := "menu://app"; Resource_Name := "menu" |} ].

Definition getMenuResource (c : Coffee) : result ResourceResponse :=
  match json_Marshal_Drinks (drinks c) with
  | Err e => Err ("failed to marshal menu: " +:+ e)
  | Ok drinksJSON =>
      Ok {| ResourceResponse_Contents :=
              [ {| ResourceContent_URI := "menu://app";
                   ResourceContent_Text := drinksJSON |} ] |}
  end.

Definition Coffee_ReadResource (c : Coffee) (ctx : Context) (params : ResourceParams)
  : result ResourceResponse :=
  if String.eqb (ResourceParams_URI params) "menu://app" then getMenuResource c
  else Err ("resource not found: " +:+ ResourceParams_URI params).

(** Prompt handler implementation *)

Definition Coffee_ListPrompts (c : Coffee) (ctx : Context) : result (list Prompt) :=
  Ok [ {| Prompt_Name := "drinkRecommendation";
          Prompt_Description :=
            "Get personalized drink recommendations based on budget and preferences";
          Prompt_Arguments :=
            [ {| PromptArgument_Name := "budget";
                 PromptArgument_Description := "Customer's budget in dollars";
                 PromptArgument_Required := false |};
              {| PromptArgument_Name := "preference";
                 PromptArgument_Description :=
                   "Customer's taste preference (e.g., 'sweet', 'strong', 'mild')";
                 PromptArgument_Required := false |} ] |};
       {| Prompt_Name := "drinkDescription";
          Prompt_Description :=
            "Get a detailed description and information about a specific coffee drink";
          Prompt_Arguments :=
            [ {| PromptArgument_Name := "drink_name";
                 PromptArgument_Description := "The name of the drink to describe";
                 PromptArgument_Required := true |} ] |} ].

Definition user_text (promptText : string) : PromptResponse :=
  {| PromptResponse_Messages :=
       [ {| PromptMessage_Role := "user";
            PromptMessage_Content :=
              {| MessageContent_Type := "text";
                 MessageContent_Text := promptText |} |} ] |}.

Definition createDrinkRecommendationPrompt (c : Coffee) (args : gmap string any)
  : PromptResponse :=
  let budgetText :=
    match args !! "budget" with
    | Some budget => " with a budget of $" +:+ fmt_v budget
    | None => EmptyString
    end in
  let preferenceText :=
    match args !! "preference" with
    | Some preference => " who prefers " +:+ fmt_v preference +:+ " drinks"
    | None => EmptyString
    end in
  user_text
    ("You are a coffee expert at a specialty coffee shop. A customer"
     +:+ preferenceText +:+ budgetText
     +:+ " is asking for drink recommendations." +:+ newline
     +:+ newline
     +:+ "Available drinks:" +:+ newline
     +:+ "- Latte ($5): A latte is a coffee drink made with espresso and steamed milk."
     +:+ newline
     +:+ "- Mocha ($6): A mocha is a coffee drink made with espresso and chocolate."
     +:+ newline
     +:+ "- Flat White ($7): A flat white is a coffee drink made with espresso and steamed milk."
     +:+ newline
     +:+ newline
     +:+ "Please recommend the best drink(s) for this customer and explain why.").

(** The template of [createDrinkDescriptionPrompt] around its [%s]. *)
Definition drinkDescription_text (drinkName : string) : string :=
  "You are a coffee expert. Please provide a detailed description of a "
  +:+ drinkName +:+ ", including:" +:+ newline
  +:+ newline
  +:+ "1. The ingredients and preparation method" +:+ newline
  +:+ "2. The flavor profile and tasting notes" +:+ newline
  +:+ "3. The history or origin of this drink" +:+ newline
  +:+ "4. Tips for enjoying it" +:+ newline
  +:+ newline
  +:+ "Be engaging and informative in your response.".

Definition createDrinkDescriptionPrompt (c : Coffee) (args : gmap string any)
  : PromptResponse :=
  let drinkName :=
    match index_string args "drink_name" with
    | Some s => s
    | None => "coffee"
    end in
  user_text (drinkDescription_text drinkName).

Definition Coffee_GetPrompt (c : Coffee) (ctx : Context) (params : PromptParams)
  : result PromptResponse :=
  if String.eqb (PromptParams_Name params) "drinkRecommendation" then
    Ok (createDrinkRecommendationPrompt c (PromptParams_Arguments params))
  else if String.eqb (PromptParams_Name params) "drinkDescription" then
    Ok (createDrinkDescriptionPrompt c (PromptParams_Arguments params))
  else Err ("prompt " +:+ PromptParams_Name params +:+ " not found").

#[export] Instance Coffee_ToolHandler : ToolHandler Coffee :=
  {| ListTools := Coffee_ListTools; CallTool := Coffee_CallTool |}.

#[export] Instance Coffee_ResourceHandler : ResourceHandler Coffee :=
  {| ListResources := Coffee_ListResources; ReadResource := Coffee_ReadResource |}.

#[export] Instance Coffee_PromptHandler : PromptHandler Coffee :=
  {| ListPrompts := Coffee_ListPrompts; GetPrompt := Coffee_GetPrompt |}.

End Coffee.

End handlers.

(** ** Package config *)

Module config.

(** Durations are in nanoseconds, as in [time.Duration]. *)
Definition Second : Z := 1000000000.

Record Config : Type := {
  TransportType : string;
  HTTPPort : Z;
  ServerName : string;
  ServerVersion : string;
  RequestTimeout : Z;
  ShutdownTimeout : Z;
  ReadTimeout : Z;
  WriteTimeout : Z;
  IdleTimeout : Z
}.

Definition New : Config :=
  {| TransportType := "stdio";
     HTTPPort := 8080;
     ServerName := "Coffee Shop Server";
     ServerVersion := "1.0.0";
     RequestTimeout := 30 * Second;
     ShutdownTimeout := 5 * Second;
     ReadTimeout := 30 * Second;
     WriteTimeout := 30 * Second;
     IdleTimeout := 120 * Second |}.

Section Validation.
(** [time.Duration.String], which the [%v] of [Validate]'s message prints. *)
Variable Duration_String : Z -> string.

(** [Validate] validates the configuration. *)
Definition Validate (c : Config) : error :=
  if (HTTPPort c <? 1) || (65535 <? HTTPPort c) then
    Some ("invalid port: " +:+ pretty (HTTPPort c) +:+ " (must be 1-65535)")
  else if RequestTimeout c <=? 0 then
    Some ("invalid request timeout: " +:+ Duration_String (RequestTimeout c)
          +:+ " (must be positive)")
  else None.

(** [ParseFlags], from the values the three flags hold after [flag.Parse]
    (the defaults of [New] for a flag that was not given).  The
    configuration is returned next to the error, as in the source. *)
Definition ParseFlags (transportType : string) (port : Z) (requestTimeout : Z)
  : Config * error :=
  let cfg := New in
  let cfg :=
    {| TransportType := transportType;
       HTTPPort := port;
       ServerName := ServerName cfg;
       ServerVersion := ServerVersion cfg;
       RequestTimeout := requestTimeout;
       ShutdownTimeout := ShutdownTimeout cfg;
       ReadTimeout := ReadTimeout cfg;
       WriteTimeout := WriteTimeout cfg;
       IdleTimeout := IdleTimeout cfg |} in
  (cfg, Validate cfg).

End Validation.

End config.

(** ** Package server: the dispatcher

    The [ResponseSender] a transport stores in the request context under
    [mcp.ResponseSenderKey] is passed next to the context, as [sender]:
    [None] is a context without that value.  The state [W] the sender writes
    to is threaded through every function that may send. *)

Module server.
Import mcp.

Section Server.
Context {TH RH PH : Type}.
Context `{!ToolHandler TH, !ResourceHandler RH, !PromptHandler PH}.

Record Server : Type := {
  toolHandler : TH;
  resourceHandler : RH;
  promptHandler : PH;
  serverInfo : ServerInfo
}.

(** [New]: a nil config or handler is [None]. *)
Definition New (cfg : option config.Config)
    (toolHandler : option TH) (resourceHandler : option RH)
    (promptHandler : option PH) : result Server :=
  match cfg with
  | None => Err "config cannot be nil"
  | Some cfg =>
    match toolHandler with
    | None => Err "toolHandler cannot be nil"
    | Some th =>
      match resourceHandler with
      | None => Err "resourceHandler cannot be nil"
      | Some rh =>
        match promptHandler with
        | None => Err "promptHandler cannot be nil"
        | Some ph =>
            Ok {| toolHandler := th;
                  resourceHandler := rh;
                  promptHandler := ph;
                  serverInfo :=
                    {| ServerInfo_Name := config.ServerName cfg;
                       ServerInfo_Version := config.ServerVersion cfg |} |}
        end
      end
    end
  end.

Definition listChanged : any := OfMap {[ "listChanged" := OfBool true ]}.

Definition Initialize (s : Server) (ctx : Context) : result InitializeResponse :=
  Ok {| InitializeResponse_ProtocolVersion := ProtocolVersion;
        InitializeResponse_Capabilities :=
          {[ "tools" := listChanged;
             "resources" := listChanged;
             "prompts" := listChanged ]};
        InitializeResponse_ServerInfo := serverInfo s |}.

(** Parameter parsing helpers *)

Definition arguments_of (paramsMap : gmap string any) : gmap string any :=
  match paramsMap !! "arguments" with
  | Some arguments =>
      match as_map arguments with
      | Some argsMap => argsMap
      | None => ∅
      end
  | None => ∅
  end.

Definition parseToolCallParams (s : Server) (params : any) : result ToolCallParams :=
  match params with
  | Nil => Err "params cannot be nil"
  | OfMap paramsMap =>
      match index_string paramsMap "name" with
      | None => Err "name parameter is required and must be a string"
      | Some name =>
          Ok {| ToolCallParams_Name := name;
                ToolCallParams_Arguments := arguments_of paramsMap |}
      end
  | _ => Err "params must be an object"
  end.

Definition parseResourceParams (s : Server) (params : any) : result ResourceParams :=
  match params with
  | Nil => Err "params cannot be nil"
  | OfMap paramsMap =>
      match index_string paramsMap "uri" with
      | None => Err "uri parameter is required and must be a string"
      | Some uri => Ok {| ResourceParams_URI := uri |}
      end
  | _ => Err "params must be an object"
  end.

Definition parsePromptParams (s : Server) (params : any) : result PromptParams :=
  match params with
  | Nil => Err "params cannot be nil"
  | OfMap paramsMap =>
      match index_string paramsMap "name" with
      | None => Err "name parameter is required and must be a string"
      | Some name =>
          Ok {| PromptParams_Name := name;
                PromptParams_Arguments := arguments_of paramsMap |}
      end
  | _ => Err "params must be an object"
  end.

Section Dispatch.
Context {H W : Type} `{!ResponseSender H W}.

(** Helper methods for sending responses *)

Definition sendResponseDirect (s : Server) (sender : option H)
    (response : Response) (w : W) : W * error :=
  match sender with
  | Some rs => SendResponse rs response w
  | None => (w, Some "no response sender in context")
  end.

Definition sendResponse (s : Server) (sender : option H) (id : any)
    (result : Payload) (w : W) : W * error :=
  sendResponseDirect s sender
    {| Response_JSONRPC := JSONRPCVersion;
       Response_ID := id;
       Response_Result := result;
       Response_Error := None |} w.

Definition sendError (s : Server) (sender : option H) (id : any) (code : Z)
    (message : string) (data : any) (w : W) : W * error :=
  match sender with
  | Some rs => SendError rs id code message data w
  | None => (w, Some "no response sender in context")
  end.

(** Request handlers *)

Definition handleInitialize (s : Server) (ctx : Context) (sender : option H)
    (id : any) (w : W) : W * error :=
  match Initialize s ctx with
  | Err e => sendError s sender id ErrorCodeInternalError "Failed to initialize" (OfString e) w
  | Ok result => sendResponse s sender id (OfInitializeResponse result) w
  end.

Definition handleToolsList (s : Server) (ctx : Context) (sender : option H)
    (id : any) (w : W) : W * error :=
  match ListTools (toolHandler s) ctx with
  | Err e => sendError s sender id ErrorCodeInternalError "Failed to list tools" (OfString e) w
  | Ok tools => sendResponse s sender id (OfTools tools) w
  end.

Definition handleToolsCall (s : Server) (ctx : Context) (sender : option H)
    (id : any) (req : Request) (w : W) : W * error :=
  match parseToolCallParams s (Request_Params req) with
  | Err e =>
      sendError s sender id ErrorCodeInvalidParams "Invalid tool call parameters" (OfString e) w
  | Ok params =>
      match CallTool (toolHandler s) ctx params with
      | Err e =>
          sendError s sender id ErrorCodeInvalidParams ("Tool call failed: " +:+ e) Nil w
      | Ok response => sendResponse s sender id (OfToolResponse response) w
      end
  end.

Definition handleResourcesList (s : Server) (ctx : Context) (sender : option H)
    (id : any) (w : W) : W * error :=
  match ListResources (resourceHandler s) ctx with
  | Err e =>
      sendError s sender id ErrorCodeInternalError "Failed to list resources" (OfString e) w
  | Ok resources => sendResponse s sender id (OfResources resources) w
  end.

Definition handleResourcesRead (s : Server) (ctx : Context) (sender : option H)
    (id : any) (req : Request) (w : W) : W * error :=
  match parseResourceParams s (Request_Params req) with
  | Err e =>
      sendError s sender id ErrorCodeInvalidParams "Invalid resource read parameters"
        (OfString e) w
  | Ok params =>
      match ReadResource (resourceHandler s) ctx params with
      | Err e =>
          sendError s sender id ErrorCodeInvalidParams ("Resource read failed: " +:+ e) Nil w
      | Ok response => sendResponse s sender id (OfResourceResponse response) w
      end
  end.

Definition handlePromptsList (s : Server) (ctx : Context) (sender : option H)
    (id : any) (w : W) : W * error :=
  match ListPrompts (promptHandler s) ctx with
  | Err e =>
      sendError s sender id ErrorCodeInternalError "Failed to list prompts" (OfString e) w
  | Ok prompts => sendResponse s sender id (OfPrompts prompts) w
  end.

Definition handlePromptsGet (s : Server) (ctx : Context) (sender : option H)
    (id : any) (req : Request) (w : W) : W * error :=
  match parsePromptParams s (Request_Params req) with
  | Err e =>
      sendError s sender id ErrorCodeInvalidParams "Invalid prompt parameters" (OfString e) w
  | Ok params =>
      match GetPrompt (promptHandler s) ctx params with
      | Err e =>
          sendError s sender id ErrorCodeInvalidParams ("Prompt call failed: " +:+ e) Nil w
      | Ok response => sendResponse s sender id (OfPromptResponse response) w
      end
  end.

Definition handlePing (s : Server) (ctx : Context) (sender : option H)
    (id : any) (w : W) : W * error :=
  sendResponse s sender id (OfObject ∅) w.

(** [HandleRequest] processes a JSON-RPC request. *)
Definition HandleRequest (s : Server) (ctx : Context) (sender : option H)
    (req : Request) (w : W) : W * error :=
  let method := Request_Method req in
  let id := Request_ID req in
  if String.eqb method "initialize" then handleInitialize s ctx sender id w
  else if String.eqb method "tools/list" then handleToolsList s ctx sender id w
  else if String.eqb method "tools/call" then handleToolsCall s ctx sender id req w
  else if String.eqb method "resources/list" then handleResourcesList s ctx sender id w
  else if String.eqb method "resources/read" then handleResourcesRead s ctx sender id req w
  else if String.eqb method "prompts/list" then handlePromptsList s ctx sender id w
  else if String.eqb method "prompts/get" then handlePromptsGet s ctx sender id req w
  else if String.eqb method "ping" then handlePing s ctx sender id w
  else
    sendError s sender id ErrorCodeMethodNotFound
      ("Method " +:+ method +:+ " not found") Nil w.

End Dispatch.
End Server.

Arguments Server TH RH PH : clear implicits.

End server.

(** ** Package transport

    The transports call the dispatcher of package server directly (in the
    source through the interface [mcp.Server], which it alone implements).
    A request context derived with a timeout is the context it derives
    from: what a callee can observe of either is [ctx_Err].  Left outside:
    the listener, the matching of request paths by [http.ServeMux],
    logging, failures of the reads and writes of the operating system
    themselves, and a transport being stopped while it handles a
    request. *)

Module transport.
Import mcp.

(** *** The standard library calls the transports make *)

(** [encoding/json] decoding into this program's types:
    [json.Unmarshal([]byte(line), &req)] with [req] a [mcp.Request],
    [json.Unmarshal([]byte(line), &partialReq)] with [partialReq] a
    [map[string]any], and [json.NewDecoder(r.Body).Decode(&req)]. *)
Class JSONDecoding : Type := {
  json_Unmarshal_Request : string -> result Request;
  json_Unmarshal_object : string -> result (gmap string any);
  json_Decode_Request : string -> result Request
}.

(** [strconv.Atoi]: an optional sign, then one or more decimal digits, and a
    value that fits Go's [int].  The error is the [Err] of the [*NumError]. *)
Definition digit (c : ascii) : option Z :=
  let n := Z.of_N (N_of_ascii c) in
  if (48 <=? n) && (n <=? 57) then Some (n - 48) else None.

Fixpoint digits (s : string) (acc : Z) : option Z :=
  match s with
  | EmptyString => Some acc
  | String c rest =>
      match digit c with
      | Some d => digits rest (10 * acc + d)
      | None => None
      end
  end.

Definition Atoi (s : string) : result Z :=
  let '(neg, body) :=
    match s with
    | String "+" rest => (false, rest)
    | String "-" rest => (true, rest)
    | _ => (false, s)
    end in
  match body with
  | EmptyString => Err "invalid syntax"
  | _ =>
      match digits body 0 with
      | None => Err "invalid syntax"
      | Some n =>
          let v := if neg then - n else n in
          if (MinInt <=? v) && (v <=? MaxInt) then Ok v
          else Err "value out of range"
      end
  end.

(** [strings.Contains]. *)
Fixpoint Contains (s substr : string) : bool :=
  String.prefix substr s ||
  match s with
  | EmptyString => false
  | String _ rest => Contains rest substr
  end.

(** [bufio.Scanner], as [Start] uses it: the split function
    [bufio.ScanLines] and the default buffer, on a reader that reports the
    end of the input after its last byte, as [os.Stdin] does. *)

(** [bufio.MaxScanTokenSize]: the size the buffer grows to. *)
Definition MaxScanTokenSize : Z := 64 * 1024.

(** [bufio.ErrTooLong]. *)
Definition ErrTooLong : string := "bufio.Scanner: token too long".

(** The lines of the input, in order: the bytes up to each newline,
    without it, and the bytes after the last newline when there are any.
    [scanner.Scan] finds a line when it fits the buffer together with its
    newline, or alone when the input ends with it, that is, when it has
    fewer than [MaxScanTokenSize] bytes; at a longer one it fails with
    [ErrTooLong] ([Start_loop] below). *)
Fixpoint ScanLines (data : string) : list string :=
  match data with
  | EmptyString => []
  | String c rest =>
      if Ascii.eqb c "010" then EmptyString :: ScanLines rest
      else
        match ScanLines rest with
        | line :: lines => String c line :: lines
        | [] => [String c EmptyString]
        end
  end.

(** [dropCR] drops a terminal [\r] from the data. *)
Fixpoint dropCR (data : string) : string :=
  match data with
  | EmptyString => EmptyString
  | String c rest =>
      if Ascii.eqb c "013" && String.eqb rest EmptyString then EmptyString
      else String c (dropCR rest)
  end.

(** *** Stdio transport *)

(** Standard output: the lines printed so far, oldest first.  Every line
    the transport prints is [json.Marshal] of a [Response], kept here as
    that [Response] ([wire.Response_json] gives its members); the envelope
    holds nothing [json.Marshal] refuses, so marshalling does not fail. *)
Abbreviation Stdout := (list Response) (only parsing).

(** [StdoutSender] implements [ResponseSender] for the stdio transport. *)
Inductive StdoutSender : Type := Build_StdoutSender.

Definition StdoutSender_SendResponse (s : StdoutSender) (response : Response)
    (out : Stdout) : Stdout * error :=
  (out ++ [response], None).

Definition StdoutSender_SendError (s : StdoutSender) (id : any) (code : Z)
    (message : string) (data : any) (out : Stdout) : Stdout * error :=
  let errorResp :=
    {| ErrorResponse_Code := code;
       ErrorResponse_Message := message;
       ErrorResponse_Data := data |} in
  let response :=
    {| Response_JSONRPC := JSONRPCVersion;
       Response_ID := id;
       Response_Result := NoPayload;
       Response_Error := Some errorResp |} in
  StdoutSender_SendResponse s response out.

#[export] Instance StdoutSender_ResponseSender : ResponseSender StdoutSender Stdout :=
  {| SendResponse := StdoutSender_SendResponse;
     SendError := StdoutSender_SendError |}.

Section Stdio.
Context `{!JSONDecoding}.
Context {TH RH PH : Type}.
Context `{!ToolHandler TH, !ResourceHandler RH, !PromptHandler PH}.

Definition sendParseError (line : string) (err : string) (out : Stdout)
  : Stdout * error :=
  (* Try to extract ID from malformed JSON *)
  let errorID :=
    match json_Unmarshal_object line with
    | Ok partialReq =>
        match partialReq !! "id" with
        | Some id => if is_nil id then OfInt (-1) else id
        | None => OfInt (-1)
        end
    | Err _ => OfInt (-1)
    end in
  let errorResp :=
    {| Response_JSONRPC := JSONRPCVersion;
       Response_ID := errorID;
       Response_Result := NoPayload;
       Response_Error :=
         Some {| ErrorResponse_Code := ErrorCodeParseError;
                 ErrorResponse_Message := "Parse error";
                 ErrorResponse_Data := OfString err |} |} in
  (out ++ [errorResp], None).

Definition handleMessage (server : server.Server TH RH PH) (ctx : Context)
    (line : string) (out : Stdout) : Stdout * error :=
  match json_Unmarshal_Request line with
  | Err err => sendParseError line err out
  | Ok req =>
      (* Validate JSON-RPC *)
      if negb (String.eqb (Request_JSONRPC req) JSONRPCVersion) then (out, None)
      (* Handle notifications (no response expected) *)
      else if is_nil (Request_ID req) then (out, None)
      (* Add stdout sender to context *)
      else server.HandleRequest server ctx (Some Build_StdoutSender) req out
  end.

(** The message processing loop of [Start] together with the reader
    goroutine that feeds it, over the lines of standard input.  The two
    channels are unbuffered: a line is handled before the next one is
    scanned.  For a line that does not fit the scanner's buffer
    [scanner.Scan] fails, the reader hands [scanner.Err()] over on
    [errChan], and [Start] returns it; when the input ends the channels
    are closed and [Start] returns [nil].  An error of [handleMessage] is
    logged only.  [ctx] is what the requests observe of their contexts,
    the loop itself running until the input is used up. *)
Fixpoint Start_loop (server : server.Server TH RH PH) (ctx : Context)
    (lines : list string) (out : Stdout) : Stdout * error :=
  match lines with
  | [] => (out, None)
  | data :: rest =>
      if MaxScanTokenSize <=? Z.of_nat (String.length data) then
        (out, Some ErrTooLong)
      else
        let line := dropCR data in
        if String.eqb line EmptyString then Start_loop server ctx rest out
        else
          let '(out', _) := handleMessage server ctx line out in
          Start_loop server ctx rest out'
  end.

(** [Start], on the bytes standard input holds up to its end. *)
Definition Start (server : server.Server TH RH PH) (ctx : Context)
    (input : string) : Stdout * error :=
  Start_loop server ctx (ScanLines input) [].

End Stdio.

(** *** HTTP transport with SSE *)

(** What [sendEvent] is given as [data]: a JSON-RPC envelope, or the
    [map[string]string] of the handshake event. *)
Inductive EventData : Type :=
| DataResponse (r : Response)
| DataConnected (sessionId timestamp : string).

(** One SSE frame: the [id:] line, the [event:] line (written only when
    [event_type] is not empty), the [data:] lines holding [json.Marshal] of
    [event_data], and the closing blank line. *)
Record SSEEvent : Type := {
  event_id : Z;
  event_type : string;
  event_data : EventData
}.

(** What a handler writes to the body of an HTTP response. *)
Inductive Written : Type :=
| WriteJSON (r : Response)
| WriteText (s : string)
| WriteEvent (e : SSEEvent).

(** An [http.ResponseWriter]: header map, status line once written, body,
    and whether the value also implements [http.Flusher]. *)
Record ResponseWriter : Type := {
  rw_Header : gmap string string;
  rw_status : option Z;
  rw_body : list Written;
  rw_Flusher : bool
}.

Definition Header_Set (k v : string) (w : ResponseWriter) : ResponseWriter :=
  {| rw_Header := <[k := v]> (rw_Header w);
     rw_status := rw_status w;
     rw_body := rw_body w;
     rw_Flusher := rw_Flusher w |}.

(** [WriteHeader]: the first status written stays. *)
Definition WriteHeader (code : Z) (w : ResponseWriter) : ResponseWriter :=
  {| rw_Header := rw_Header w;
     rw_status := match rw_status w with Some c => Some c | None => Some code end;
     rw_body := rw_body w;
     rw_Flusher := rw_Flusher w |}.

(** [Write]: a body written before any status sends [200] first. *)
Definition Write (x : Written) (w : ResponseWriter) : ResponseWriter :=
  {| rw_Header := rw_Header w;
     rw_status := match rw_status w with Some c => Some c | None => Some 200 end;
     rw_body := rw_body w ++ [x];
     rw_Flusher := rw_Flusher w |}.

(** [http.Error]. *)
Definition http_Error (msg : string) (code : Z) (w : ResponseWriter) : ResponseWriter :=
  Write (WriteText (msg +:+ newline))
    (WriteHeader code
      (Header_Set "X-Content-Type-Options" "nosniff"
        (Header_Set "Content-Type" "text/plain; charset=utf-8" w))).

(** The JSON-RPC responses a body holds, in the order written. *)
Definition response_of (x : Written) : option Response :=
  match x with
  | WriteJSON r => Some r
  | WriteEvent {| event_data := DataResponse r |} => Some r
  | _ => None
  end.

Definition responses (w : ResponseWriter) : list Response :=
  omap response_of (rw_body w).

(** An incoming [*http.Request]: its headers and its body text.  A header
    that is absent reads as the empty string, like one sent empty. *)
Record HTTPRequest : Type := {
  req_Header : gmap string string;
  req_Body : string
}.

Definition Header_Get (h : gmap string string) (k : string) : string :=
  default EmptyString (h !! k).

(** The two readings of [time.Now()] in [startSSEStream]. *)
Record Clock : Type := {
  now_UnixNano : Z;
  now_RFC3339 : string
}.

(** [HTTPResponseSender] implements [ResponseSender] for HTTP responses. *)
Record HTTPResponseSender : Type := {
  HTTPResponseSender_writer : ResponseWriter;
  HTTPResponseSender_sent : bool
}.

(** The pointer [handleJSONRequest] stores in the request context. *)
Inductive HTTPResponseSender_ptr : Type := ptr_httpSender.

(** [SendResponse]: the error of [Encode], a failed network write, is left
    out: a first send returns no error. *)
Definition HTTPResponseSender_SendResponse (p : HTTPResponseSender_ptr)
    (response : Response) (h : HTTPResponseSender) : HTTPResponseSender * error :=
  if HTTPResponseSender_sent h then (h, Some "response already sent")
  else
    ({| HTTPResponseSender_writer :=
          Write (WriteJSON response)
            (WriteHeader 200
              (Header_Set "Content-Type" "application/json; charset=utf-8"
                (HTTPResponseSender_writer h)));
        HTTPResponseSender_sent := true |}, None).

Definition HTTPResponseSender_SendError (p : HTTPResponseSender_ptr) (id : any)
    (code : Z) (message : string) (data : any) (h : HTTPResponseSender)
  : HTTPResponseSender * error :=
  let errorResp :=
    {| ErrorResponse_Code := code;
       ErrorResponse_Message := message;
       ErrorResponse_Data := data |} in
  let response :=
    {| Response_JSONRPC := JSONRPCVersion;
       Response_ID := id;
       Response_Result := NoPayload;
       Response_Error := Some errorResp |} in
  HTTPResponseSender_SendResponse p response h.

#[export] Instance HTTPResponseSender_ResponseSender
  : ResponseSender HTTPResponseSender_ptr HTTPResponseSender :=
  {| SendResponse := HTTPResponseSender_SendResponse;
     SendError := HTTPResponseSender_SendError |}.

(** [SSESession].  [flusher] is the [writer] itself, seen as an
    [http.Flusher]; the writer is held by the session from its creation on,
    nothing else writing to the connection afterwards. *)
Record SSESession : Type := {
  SSESession_ID : string;
  SSESession_writer : ResponseWriter;
  SSESession_eventID : Z;
  SSESession_closed : bool
}.

(** [sendEvent]: refused on a closed session; otherwise one frame is
    written with the current event id and flushed, and the counter moves
    on.  [json.Marshal] accepts both kinds of [data], so its error branch
    is never taken. *)
Definition SSESession_sendEvent (eventType : string) (data : EventData)
    (s : SSESession) : SSESession * error :=
  if SSESession_closed s then (s, Some "session closed")
  else
    ({| SSESession_ID := SSESession_ID s;
        SSESession_writer :=
          Write (WriteEvent {| event_id := SSESession_eventID s;
                               event_type := eventType;
                               event_data := data |})
                (SSESession_writer s);
        SSESession_eventID := int_wrap (SSESession_eventID s + 1);
        SSESession_closed := SSESession_closed s |}, None).

Definition SSESession_sendError (id : any) (code : Z) (message : string)
    (data : any) (s : SSESession) : SSESession * error :=
  let errorResp :=
    {| Response_JSONRPC := JSONRPCVersion;
       Response_ID := id;
       Response_Result := NoPayload;
       Response_Error :=
         Some {| ErrorResponse_Code := code;
                 ErrorResponse_Message := message;
                 ErrorResponse_Data := data |} |} in
  (* Send error as a normal JSON-RPC response, not as an "error" event type *)
  SSESession_sendEvent EmptyString (DataResponse errorResp) s.

Definition SSESession_close (s : SSESession) : SSESession :=
  {| SSESession_ID := SSESession_ID s;
     SSESession_writer := SSESession_writer s;
     SSESession_eventID := SSESession_eventID s;
     SSESession_closed := true |}.

(** Sessions are shared through pointers (the registry, the sender of a
    request, the handler of the connection): they live in a heap, a
    pointer being an index into it. *)
Abbreviation loc := nat (only parsing).
Abbreviation Heap := (list SSESession) (only parsing).

Definition alloc (s : SSESession) (heap : Heap) : loc * Heap :=
  (length heap, heap ++ [s]).

(** Runs a method of the session [l] points to; a pointer to nothing is
    Go's nil dereference. *)
Definition at_session {A : Type} (l : loc) (f : SSESession -> SSESession * A)
    (fault : A) (heap : Heap) : Heap * A :=
  match heap !! l with
  | Some s => let '(s', a) := f s in (<[l := s']> heap, a)
  | None => (heap, fault)
  end.

Definition nil_dereference : error :=
  Some "invalid memory address or nil pointer dereference".

(** [SSEResponseSender] implements [ResponseSender] for SSE streams. *)
Record SSEResponseSender : Type := { session : loc }.

Definition SSEResponseSender_SendResponse (s : SSEResponseSender)
    (response : Response) (heap : Heap) : Heap * error :=
  (* Send as normal JSON-RPC message without event type *)
  at_session (session s) (SSESession_sendEvent EmptyString (DataResponse response))
    nil_dereference heap.

Definition SSEResponseSender_SendError (s : SSEResponseSender) (id : any)
    (code : Z) (message : string) (data : any) (heap : Heap) : Heap * error :=
  at_session (session s) (SSESession_sendError id code message data)
    nil_dereference heap.

#[export] Instance SSEResponseSender_ResponseSender
  : ResponseSender SSEResponseSender Heap :=
  {| SendResponse := SSEResponseSender_SendResponse;
     SendError := SSEResponseSender_SendError |}.

(** [HTTPTransport]: the registry maps a session id to a pointer.  The
    [*http.Server] it also holds is the listener, outside this model. *)
Record HTTPTransport : Type := {
  HTTPTransport_port : Z;
  HTTPTransport_sessions : gmap string loc;
  HTTPTransport_config : config.Config
}.

Definition NewHTTP (cfg : config.Config) : HTTPTransport :=
  {| HTTPTransport_port := config.HTTPPort cfg;
     HTTPTransport_sessions := ∅;
     HTTPTransport_config := cfg |}.

Definition with_sessions (sessions : gmap string loc) (t : HTTPTransport)
  : HTTPTransport :=
  {| HTTPTransport_port := HTTPTransport_port t;
     HTTPTransport_sessions := sessions;
     HTTPTransport_config := HTTPTransport_config t |}.

(** What a handler leaves as the HTTP response of its connection: the
    writer it was given, or the stream of the session it opened (whose
    [SSESession_writer] is that writer). *)
Inductive Served : Type :=
| Direct (w : ResponseWriter)
| Streaming (session : loc).

(** [session.close()] through a pointer. *)
Definition close_at (l : loc) (heap : Heap) : Heap :=
  match heap !! l with
  | Some s => <[l := SSESession_close s]> heap
  | None => heap
  end.

(** [Stop]: close all SSE sessions, then empty the registry. *)
Definition Stop (t : HTTPTransport) (heap : Heap) : HTTPTransport * Heap :=
  (with_sessions ∅ t,
   foldr close_at heap (snd <$> map_to_list (HTTPTransport_sessions t))).

Definition HTTPTransport_sendError (w : ResponseWriter) (id : any) (code : Z)
    (message : string) (data : any) : ResponseWriter :=
  let errorResp :=
    {| Response_JSONRPC := JSONRPCVersion;
       Response_ID := id;
       Response_Result := NoPayload;
       Response_Error :=
         Some {| ErrorResponse_Code := code;
                 ErrorResponse_Message := message;
                 ErrorResponse_Data := data |} |} in
  Write (WriteJSON errorResp)
    (WriteHeader 400
      (Header_Set "Content-Type" "application/json; charset=utf-8" w)).

(** The event id a stream starts at, from the [Last-Event-ID] header
    ([startSSEStream], "Check for Last-Event-ID for connection resumption"). *)
Definition initial_eventID (lastEventID : string) : Z :=
  if String.eqb lastEventID EmptyString then 0
  else
    match Atoi lastEventID with
    | Ok id => int_wrap (id + 1)
    | Err _ => 0
    end.

Definition startSSEStream (t : HTTPTransport) (w : ResponseWriter)
    (r : HTTPRequest) (clock : Clock) (heap : Heap)
  : HTTPTransport * Heap * (ResponseWriter + loc) :=
  (* Check if client supports SSE *)
  if negb (rw_Flusher w) then
    (t, heap, inl (http_Error "Streaming unsupported" 500 w))
  else
    (* Set SSE headers with UTF-8 encoding *)
    let w :=
      Header_Set "Access-Control-Allow-Origin" "*"
        (Header_Set "Connection" "keep-alive"
          (Header_Set "Cache-Control" "no-cache"
            (Header_Set "Content-Type" "text/event-stream; charset=utf-8" w))) in
    (* Check for Last-Event-ID for connection resumption *)
    let eventID := initial_eventID (Header_Get (req_Header r) "Last-Event-ID") in
    (* Check for existing session ID from Mcp-Session-Id header *)
    let sessionID :=
      let sessionID := Header_Get (req_Header r) "Mcp-Session-Id" in
      if String.eqb sessionID EmptyString then
        "session_" +:+ pretty (now_UnixNano clock)
      else sessionID in
    let '(session, heap) :=
      alloc {| SSESession_ID := sessionID;
               SSESession_writer := w;
               SSESession_eventID := eventID;
               SSESession_closed := false |} heap in
    (* Store session *)
    let t := with_sessions (<[sessionID := session]> (HTTPTransport_sessions t)) t in
    (* Set session ID header for client *)
    let '(heap, _) :=
      at_session session
        (fun s =>
           ({| SSESession_ID := SSESession_ID s;
               SSESession_writer :=
                 Header_Set "Mcp-Session-Id" sessionID (SSESession_writer s);
               SSESession_eventID := SSESession_eventID s;
               SSESession_closed := SSESession_closed s |}, tt)) tt heap in
    (* Send initial connection event *)
    let '(heap, _) :=
      at_session session
        (SSESession_sendEvent "connected"
           (DataConnected sessionID (now_RFC3339 clock)))
        nil_dereference heap in
    (t, heap, inr session).

Section HTTP.
Context `{!JSONDecoding}.
Context {TH RH PH : Type}.
Context `{!ToolHandler TH, !ResourceHandler RH, !PromptHandler PH}.

Definition handleJSONRequest (t : HTTPTransport) (ctx : Context)
    (server : server.Server TH RH PH) (w : ResponseWriter) (req : Request)
  : ResponseWriter :=
  (* Inject HTTP response sender into context *)
  let httpSender :=
    {| HTTPResponseSender_writer := w; HTTPResponseSender_sent := false |} in
  (* Process request *)
  let '(httpSender, err) :=
    server.HandleRequest server ctx (Some ptr_httpSender) req httpSender in
  let w := HTTPResponseSender_writer httpSender in
  match err with
  | Some e =>
      if negb (HTTPResponseSender_sent httpSender) then
        HTTPTransport_sendError w (Request_ID req) ErrorCodeInternalError
          "Internal error" (OfString e)
      else w
  | None =>
      (* If no response was sent, send a default error *)
      if negb (HTTPResponseSender_sent httpSender) then
        HTTPTransport_sendError w (Request_ID req) ErrorCodeInternalError
          "No response generated" Nil
      else w
  end.

Definition handleSSERequest (t : HTTPTransport) (ctx : Context)
    (server : server.Server TH RH PH) (w : ResponseWriter) (r : HTTPRequest)
    (req : Request) (clock : Clock) (heap : Heap)
  : HTTPTransport * Heap * Served :=
  match startSSEStream t w r clock heap with
  | (t, heap, inl w) => (t, heap, Direct w)
  | (t, heap, inr session) =>
      (* Inject SSE response sender and session ID into context *)
      let sseSender := {| transport.session := session |} in
      match server.HandleRequest server ctx (Some sseSender) req heap with
      | (heap, Some e) =>
          let '(heap, _) :=
            at_session session
              (SSESession_sendError (Request_ID req) ErrorCodeInternalError
                 "Internal error" (OfString e))
              nil_dereference heap in
          (t, heap, Streaming session)
      | (heap, None) => (t, heap, Streaming session)
      end
  end.

Definition handlePost (t : HTTPTransport) (ctx : Context)
    (server : server.Server TH RH PH) (w : ResponseWriter) (r : HTTPRequest)
    (clock : Clock) (heap : Heap) : HTTPTransport * Heap * Served :=
  (* Read request body *)
  match json_Decode_Request (req_Body r) with
  | Err e =>
      (t, heap,
       Direct (HTTPTransport_sendError w (OfInt (-1)) ErrorCodeParseError
                 "Parse error" (OfString e)))
  | Ok req =>
      (* Check Accept header to determine response type *)
      let acceptHeader := Header_Get (req_Header r) "Accept" in
      let wantsSSE := Contains acceptHeader "text/event-stream" in
      let wantsJSON := Contains acceptHeader "application/json" in
      if negb wantsJSON && negb wantsSSE then
        (t, heap,
         Direct (HTTPTransport_sendError w (Request_ID req) ErrorCodeInvalidRequest
                   "Accept header must include application/json and/or text/event-stream"
                   Nil))
      (* Validate request *)
      else if negb (String.eqb (Request_JSONRPC req) JSONRPCVersion) then
        (t, heap,
         Direct (HTTPTransport_sendError w (Request_ID req) ErrorCodeInvalidRequest
                   "Invalid JSON-RPC version" Nil))
      (* Handle notifications (no response expected) *)
      else if is_nil (Request_ID req) then
        (t, heap, Direct (WriteHeader 204 w))
      (* If client wants SSE and this is a request, start SSE stream *)
      else if wantsSSE && negb (is_nil (Request_ID req)) then
        handleSSERequest t ctx server w r req clock heap
      (* Handle regular JSON response *)
      else (t, heap, Direct (handleJSONRequest t ctx server w req))
  end.

End HTTP.

(** [handleGet], up to its wait for the context: open or resume a stream. *)
Definition handleGet_open (t : HTTPTransport) (w : ResponseWriter)
    (r : HTTPRequest) (clock : Clock) (heap : Heap)
  : HTTPTransport * Heap * Served :=
  match startSSEStream t w r clock heap with
  | (t, heap, inl w) => (t, heap, Direct w)
  | (t, heap, inr session) => (t, heap, Streaming session)
  end.

(** [handleGet], once the context is cancelled: clean up the session. *)
Definition handleGet_done (t : HTTPTransport) (session : loc) (heap : Heap)
  : HTTPTransport :=
  match heap !! session with
  | Some s => with_sessions (delete (SSESession_ID s) (HTTPTransport_sessions t)) t
  | None => t
  end.

(** The HTTP response a handler left behind. *)
Definition served_writer (heap : Heap) (x : Served) : option ResponseWriter :=
  match x with
  | Direct w => Some w
  | Streaming l => SSESession_writer <$> heap !! l
  end.

(** *** The text of an SSE frame *)

(** [strings.SplitSeq(dataStr, "\n")]: the pieces of the text between its
    newlines, one more than it has newlines. *)
Fixpoint Split_newline (text : string) : list string :=
  match text with
  | EmptyString => [EmptyString]
  | String c rest =>
      if Ascii.eqb c "010" then EmptyString :: Split_newline rest
      else
        match Split_newline rest with
        | piece :: pieces => String c piece :: pieces
        | [] => [String c EmptyString]
        end
  end.

(** The [Fprintf] calls of [sendEvent] for one event, in order: what a
    [WriteEvent] stands for on the wire.  [dataStr] is the text
    [json.Marshal] gave for the event's data; [%d] prints the id in
    decimal. *)
Definition frame (dataStr : string) (e : SSEEvent) : list string :=
  ["id: " +:+ pretty (event_id e) +:+ newline]
  ++ (if String.eqb (event_type e) EmptyString then []
      else ["event: " +:+ event_type e +:+ newline])
  ++ ((fun line => "data: " +:+ line +:+ newline) <$> Split_newline dataStr)
  ++ [newline].

(** *** Routing and middleware, as [Start] wires them *)

(** [corsMiddleware] and [securityMiddleware] set their headers and hand
    the request on to [next]; the warning the latter logs for an Origin
    from a host that is not local changes nothing of what is served. *)
Definition corsMiddleware {A : Type} (next : ResponseWriter -> A)
    (w : ResponseWriter) : A :=
  next
    (Header_Set "Access-Control-Max-Age" "86400"
      (Header_Set "Access-Control-Allow-Headers"
         "Content-Type, Accept, Last-Event-ID, Mcp-Session-Id"
        (Header_Set "Access-Control-Allow-Methods" "GET, POST, OPTIONS"
          (Header_Set "Access-Control-Allow-Origin" "*" w)))).

Definition securityMiddleware {A : Type} (next : ResponseWriter -> A)
    (w : ResponseWriter) : A :=
  next
    (Header_Set "X-XSS-Protection" "1; mode=block"
      (Header_Set "X-Frame-Options" "DENY"
        (Header_Set "X-Content-Type-Options" "nosniff" w))).

(** The two patterns [Start] registers with the mux; which one a request
    path falls under is [http.ServeMux]'s to say. *)
Inductive Pattern : Type :=
| pattern_mcp
| pattern_health.

(** The body of the health check: [{"status":"healthy"}] and the newline
    [Encode] ends with. *)
Definition healthy : string :=
  "{" +:+ quoted "status" +:+ ":" +:+ quoted "healthy" +:+ "}" +:+ newline.

Definition health_endpoint (w : ResponseWriter) : ResponseWriter :=
  Write (WriteText healthy)
    (WriteHeader 200
      (Header_Set "Content-Type" "application/json; charset=utf-8" w)).

Section Serve.
Context `{!JSONDecoding}.
Context {TH RH PH : Type}.
Context `{!ToolHandler TH, !ResourceHandler RH, !PromptHandler PH}.

(** The handler of [/mcp]: POST and GET requests, the CORS preflight, and
    a refusal of every other method.  For GET this is [handleGet] up to
    its wait for the context. *)
Definition mcp_endpoint (t : HTTPTransport) (ctx : Context)
    (server : server.Server TH RH PH) (method : string) (r : HTTPRequest)
    (clock : Clock) (heap : Heap) (w : ResponseWriter)
  : HTTPTransport * Heap * Served :=
  if String.eqb method "POST" then handlePost t ctx server w r clock heap
  else if String.eqb method "GET" then handleGet_open t w r clock heap
  else if String.eqb method "OPTIONS" then (t, heap, Direct (WriteHeader 200 w))
  else (t, heap, Direct (http_Error "Method not allowed" 405 w)).

(** The handler of the [http.Server]: the mux behind both middlewares. *)
Definition Handler (t : HTTPTransport) (ctx : Context)
    (server : server.Server TH RH PH) (pattern : Pattern) (method : string)
    (r : HTTPRequest) (clock : Clock) (heap : Heap) (w : ResponseWriter)
  : HTTPTransport * Heap * Served :=
  corsMiddleware
    (securityMiddleware
       (fun w =>
          match pattern with
          | pattern_mcp => mcp_endpoint t ctx server method r clock heap w
          | pattern_health => (t, heap, Direct (health_endpoint w))
          end)) w.

End Serve.

End transport.

(** ** Calls on one session, as a trace

    The three methods of [SSESession], so that a property can speak of
    every sequence of calls on one session. *)

Module trace.
Import mcp transport.

Inductive Call : Type :=
| CallSendEvent (eventType : string) (data : EventData)
| CallSendError (id : any) (code : Z) (message : string) (data : any)
| CallClose.

Definition is_send (c : Call) : bool :=
  match c with CallClose => false | _ => true end.

Definition run_call (c : Call) (s : SSESession) : SSESession * error :=
  match c with
  | CallSendEvent eventType data => SSESession_sendEvent eventType data s
  | CallSendError id code message data => SSESession_sendError id code message data s
  | CallClose => (SSESession_close s, None)
  end.

(** Runs the calls in order; the results are those of the calls, in order. *)
Fixpoint run_calls (cs : list Call) (s : SSESession) : SSESession * list error :=
  match cs with
  | [] => (s, [])
  | c :: rest =>
      let '(s1, e) := run_call c s in
      let '(s2, es) := run_calls rest s1 in
      (s2, e :: es)
  end.

(** The event ids on a connection, in the order the frames were written. *)
Definition event_id_of (x : Written) : option Z :=
  match x with WriteEvent e => Some (event_id e) | _ => None end.

Definition event_ids (w : ResponseWriter) : list Z :=
  omap event_id_of (rw_body w).

(** The request [r] with its [Last-Event-ID] header set to a text, or
    taken away. *)
Definition with_Last_Event_ID (v : option string) (r : HTTPRequest) : HTTPRequest :=
  {| req_Header :=
       match v with
       | Some text => <["Last-Event-ID" := text]> (req_Header r)
       | None => delete "Last-Event-ID" (req_Header r)
       end;
     req_Body := req_Body r |}.

End trace.

(** ** The envelopes a dispatch ends in *)

Module envelope.
Import mcp.

(** The envelope [sendResponse] builds around a result. *)
Definition of_result (id : any) (result : Payload) : Response :=
  {| Response_JSONRPC := JSONRPCVersion;
     Response_ID := id;
     Response_Result := result;
     Response_Error := None |}.

(** The envelope every [SendError] builds around an error. *)
Definition of_error (id : any) (code : Z) (message : string) (data : any)
  : Response :=
  {| Response_JSONRPC := JSONRPCVersion;
     Response_ID := id;
     Response_Result := NoPayload;
     Response_Error :=
       Some {| ErrorResponse_Code := code;
               ErrorResponse_Message := message;
               ErrorResponse_Data := data |} |}.

(** The error code of an envelope, if it is an error. *)
Definition code (r : Response) : option Z :=
  ErrorResponse_Code <$> Response_Error r.

(** What a ping is answered with. *)
Definition pong (id : any) : Response := of_result id (OfObject ∅).

(** The method names [HandleRequest] has a case for. *)
Definition routed : list string :=
  [ "initialize"; "tools/list"; "tools/call"; "resources/list";
    "resources/read"; "prompts/list"; "prompts/get"; "ping" ].

End envelope.

(** ** Fixtures: stand-ins for the environment, used by the examples *)

Module fixtures.
Import mcp.

(** A handler whose backend is down: every method reports an error. *)
Inductive Offline : Type := offline.

#[export] Instance Offline_ToolHandler : ToolHandler Offline :=
  {| ListTools := fun _ _ => Err "backend offline";
     CallTool := fun _ _ _ => Err "backend offline" |}.

#[export] Instance Offline_ResourceHandler : ResourceHandler Offline :=
  {| ListResources := fun _ _ => Err "backend offline";
     ReadResource := fun _ _ _ => Err "backend offline" |}.

#[export] Instance Offline_PromptHandler : PromptHandler Offline :=
  {| ListPrompts := fun _ _ => Err "backend offline";
     GetPrompt := fun _ _ _ => Err "backend offline" |}.

Definition offline_server : server.Server Offline Offline Offline :=
  {| server.toolHandler := offline;
     server.resourceHandler := offline;
     server.promptHandler := offline;
     server.serverInfo :=
       {| ServerInfo_Name := "Coffee Shop Server"; ServerInfo_Version := "1.0.0" |} |}.

(** The text functions on the values the examples use: strings free of
    characters JSON escapes, integers, booleans and nil. *)
Definition join (sep : string) (l : list string) : string :=
  match l with
  | [] => EmptyString
  | x :: rest => foldl (fun acc y => acc +:+ sep +:+ y) x rest
  end.

Definition Drink_text (d : handlers.Drink) : string :=
  "{" +:+ quoted "name" +:+ ":" +:+ quoted (handlers.Drink_Name d)
  +:+ "," +:+ quoted "price" +:+ ":" +:+ pretty (handlers.Drink_Price d)
  +:+ "," +:+ quoted "description" +:+ ":" +:+ quoted (handlers.Drink_Description d)
  +:+ "}".

#[export] Instance text_encoding : handlers.TextEncoding :=
  {| handlers.json_Marshal_names :=
       fun names => Ok ("{" +:+ quoted "names" +:+ ":["
                        +:+ join "," (quoted <$> names) +:+ "]}");
     handlers.json_Marshal_Drink := fun d => Ok (Drink_text d);
     handlers.json_Marshal_Drinks :=
       fun ds => Ok ("[" +:+ join "," (Drink_text <$> ds) +:+ "]");
     handlers.fmt_v :=
       fun v =>
         match v with
         | OfString s => s
         | OfInt n => pretty n
         | OfBool true => "true"
         | OfBool false => "false"
         | _ => "<nil>"
         end |}.

Definition coffee_server
  : server.Server handlers.Coffee handlers.Coffee handlers.Coffee :=
  {| server.toolHandler := handlers.NewCoffee;
     server.resourceHandler := handlers.NewCoffee;
     server.promptHandler := handlers.NewCoffee;
     server.serverInfo :=
       {| ServerInfo_Name := "Coffee Shop Server"; ServerInfo_Version := "1.0.0" |} |}.

(** The float64 values 1 and 7, as IEEE 754 binary64 mantissa and exponent. *)
Definition float64_1 : any := OfFloat64 (S754_finite false 4503599627370496 (-52)).
Definition float64_7 : any := OfFloat64 (S754_finite false 7881299347898368 (-50)).

(** Five input texts and what [encoding/json] makes of them. *)

(** [{"jsonrpc":"2.0","method":"ping","id":1}] *)
Definition ping_text : string :=
  "{" +:+ quoted "jsonrpc" +:+ ":" +:+ quoted "2.0" +:+ ","
  +:+ quoted "method" +:+ ":" +:+ quoted "ping" +:+ ","
  +:+ quoted "id" +:+ ":1}".

Definition ping_request : Request :=
  {| Request_JSONRPC := "2.0"; Request_Method := "ping";
     Request_ID := float64_1; Request_Params := Nil |}.

(** [{"jsonrpc":"2.0","method":"notifications/initialized"}] *)
Definition notification_text : string :=
  "{" +:+ quoted "jsonrpc" +:+ ":" +:+ quoted "2.0" +:+ ","
  +:+ quoted "method" +:+ ":" +:+ quoted "notifications/initialized" +:+ "}".

Definition notification : Request :=
  {| Request_JSONRPC := "2.0"; Request_Method := "notifications/initialized";
     Request_ID := Nil; Request_Params := Nil |}.

(** [{"jsonrpc":"1.0","method":"ping","id":1}] *)
Definition legacy_text : string :=
  "{" +:+ quoted "jsonrpc" +:+ ":" +:+ quoted "1.0" +:+ ","
  +:+ quoted "method" +:+ ":" +:+ quoted "ping" +:+ ","
  +:+ quoted "id" +:+ ":1}".

Definition legacy_request : Request :=
  {| Request_JSONRPC := "1.0"; Request_Method := "ping";
     Request_ID := float64_1; Request_Params := Nil |}.

(** [{"jsonrpc":2,"id":7}]: a JSON object, but [jsonrpc] is no string. *)
Definition ill_typed_text : string :=
  "{" +:+ quoted "jsonrpc" +:+ ":2," +:+ quoted "id" +:+ ":7}".

Definition ill_typed_object : gmap string any :=
  {[ "jsonrpc" := OfFloat64 (S754_finite false 4503599627370496 (-51));
     "id" := float64_7 ]}.

Definition ill_typed_error : string :=
  "json: cannot unmarshal number into Go struct field Request.jsonrpc of type string".

(** The fifth is the empty text; any other text stands for malformed
    input here. *)
Definition end_of_input : string := "unexpected end of JSON input".
Definition malformed : string :=
  "invalid character 'o' in literal null (expecting 'u')".

Definition decode_Request (text : string) : result Request :=
  if String.eqb text ping_text then Ok ping_request
  else if String.eqb text notification_text then Ok notification
  else if String.eqb text legacy_text then Ok legacy_request
  else if String.eqb text ill_typed_text then Err ill_typed_error
  else if String.eqb text EmptyString then Err end_of_input
  else Err malformed.

Definition decode_object (text : string) : result (gmap string any) :=
  if String.eqb text ping_text then
    Ok {[ "jsonrpc" := OfString "2.0"; "method" := OfString "ping";
          "id" := float64_1 ]}
  else if String.eqb text notification_text then
    Ok {[ "jsonrpc" := OfString "2.0";
          "method" := OfString "notifications/initialized" ]}
  else if String.eqb text legacy_text then
    Ok {[ "jsonrpc" := OfString "1.0"; "method" := OfString "ping";
          "id" := float64_1 ]}
  else if String.eqb text ill_typed_text then Ok ill_typed_object
  else if String.eqb text EmptyString then Err end_of_input
  else Err malformed.

#[export] Instance decoding : transport.JSONDecoding :=
  {| transport.json_Unmarshal_Request := decode_Request;
     transport.json_Unmarshal_object := decode_object;
     transport.json_Decode_Request := decode_Request |}.

(** A fresh connection of [net/http], whose writers can flush. *)
Definition fresh_writer : transport.ResponseWriter :=
  {| transport.rw_Header := ∅;
     transport.rw_status := None;
     transport.rw_body := [];
     transport.rw_Flusher := true |}.

Definition transport0 : transport.HTTPTransport := transport.NewHTTP config.New.

Definition clock0 : transport.Clock :=
  {| transport.now_UnixNano := 1761840000000000000;
     transport.now_RFC3339 := "2025-10-30T16:00:00Z" |}.

Definition post (accept : string) (body : string) : transport.HTTPRequest :=
  {| transport.req_Header := {[ "Accept" := accept ]};
     transport.req_Body := body |}.

(** A POST /mcp request that asks for an SSE stream and resumes one. *)
Definition post_resuming (lastEventID : string) (body : string)
  : transport.HTTPRequest :=
  {| transport.req_Header :=
       {[ "Accept" := "text/event-stream"; "Last-Event-ID" := lastEventID ]};
     transport.req_Body := body |}.

(** A GET /mcp request with a [Last-Event-ID] header. *)
Definition get (lastEventID : string) : transport.HTTPRequest :=
  {| transport.req_Header := {[ "Last-Event-ID" := lastEventID ]};
     transport.req_Body := EmptyString |}.

(** Requests as the decoder hands them to the transports. *)
Definition request (method : string) (id params : any) : Request :=
  {| Request_JSONRPC := "2.0"; Request_Method := method;
     Request_ID := id; Request_Params := params |}.

(** [{"name":"getDrinkInfo","arguments":{"name":"Espresso"}}] *)
Definition espresso_params : any :=
  OfMap {[ "name" := OfString "getDrinkInfo";
           "arguments" := OfMap {[ "name" := OfString "Espresso" ]} ]}.

(** [{"name":"getDrinkNames","arguments":"oops"}] and [{"arguments":"oops"}] *)
Definition oops_params : gmap string any :=
  {[ "name" := OfString "getDrinkNames"; "arguments" := OfString "oops" ]}.

Definition nameless_params : gmap string any :=
  {[ "arguments" := OfString "oops" ]}.

(** [{"name":"drinkDescription","arguments":{"drink_name":7}}] *)
Definition describe_params : gmap string any :=
  {[ "name" := OfString "drinkDescription";
     "arguments" := OfMap {[ "drink_name" := float64_7 ]} ]}.

(** A session in the middle of its life, five events sent. *)
Definition session5 : transport.SSESession :=
  {| transport.SSESession_ID := "session_1761840000000000000";
     transport.SSESession_writer := fresh_writer;
     transport.SSESession_eventID := 5;
     transport.SSESession_closed := false |}.

Definition two_sends : list trace.Call :=
  [ trace.CallSendEvent EmptyString (transport.DataResponse (envelope.pong float64_1));
    trace.CallSendError float64_7 (-32603) "Internal error" Nil ].

(** The coffee server at a time when its handler holds no drinks. *)
Definition empty_shop_server
  : server.Server handlers.Coffee handlers.Coffee handlers.Coffee :=
  {| server.toolHandler := {| handlers.drinks := [] |};
     server.resourceHandler := {| handlers.drinks := [] |};
     server.promptHandler := {| handlers.drinks := [] |};
     server.serverInfo :=
       {| ServerInfo_Name := "Coffee Shop Server"; ServerInfo_Version := "1.0.0" |} |}.

(** The carriage return of a line that ends in [\r\n]. *)
Definition carriage_return : string := String "013"%char EmptyString.

(** Standard input holding four lines, the first two ending in [\r\n] and
    the last one in nothing: the ping, a blank line, the notification,
    and [{"jsonrpc":2,"id":7}]. *)
Definition four_lines : string :=
  ping_text +:+ carriage_return +:+ newline
  +:+ carriage_return +:+ newline
  +:+ notification_text +:+ newline
  +:+ ill_typed_text.

(** A GET /mcp request that names its session. *)
Definition get_session (sessionID : string) : transport.HTTPRequest :=
  {| transport.req_Header := {[ "Mcp-Session-Id" := sessionID ]};
     transport.req_Body := EmptyString |}.

(** A transport whose registry holds [session5], the first session of the
    heap. *)
Definition registry5 : transport.HTTPTransport :=
  transport.with_sessions {[ "session_1761840000000000000" := 0%nat ]} transport0.

(** The handshake event a stream starts with at [clock0]. *)
Definition connected (id : Z) (sessionID : string) : transport.Written :=
  transport.WriteEvent
    {| transport.event_id := id;
       transport.event_type := "connected";
       transport.event_data :=
         transport.DataConnected sessionID "2025-10-30T16:00:00Z" |}.

End fixtures.


(** ** Proof steps used more than once *)

(** Case analysis on every condition, and on every scrutinee, of the goal. *)
Ltac case_conditions :=
  repeat match goal with
         | |- context [if ?b then _ else _] => destruct b
         end.

Ltac case_scrutinees :=
  repeat match goal with
         | |- context [match ?x with _ => _ end] => destruct x
         end.

(** Opens the request handlers of the dispatcher down to the sender calls. *)
Ltac unfold_handlers :=
  unfold server.handleInitialize, server.handleToolsList, server.handleToolsCall,
    server.handleResourcesList, server.handleResourcesRead,
    server.handlePromptsList, server.handlePromptsGet, server.handlePing,
    server.sendResponse, server.sendResponseDirect, server.sendError.

(** Opens a dispatch along the branch the equations in the context pick. *)
Ltac follow_branch :=
  unfold server.HandleRequest; cbv zeta;
  repeat match goal with
         | Heq : _ = _ |- _ => rewrite Heq; clear Heq
         end;
  unfold_handlers;
  repeat match goal with
         | Heq : _ = _ |- _ => rewrite Heq; clear Heq
         end;
  reflexivity.

Ltac settle_outcome :=
  first
    [ left; eexists; split; [intros; follow_branch | discriminate]
    | right; do 3 eexists; intros; follow_branch ].

(** * Properties *)

Import mcp handlers transport.

(** ** Senders *)

Section SenderFacts.

Lemma StdoutSender_SendError_prints (id : any) (c : Z) (message : string)
    (data : any) (out : transport.Stdout) :
  SendError transport.Build_StdoutSender id c message data out
  = (out ++ [envelope.of_error id c message data], None).
Proof. reflexivity. Qed.

Lemma HTTPResponseSender_SendError_writes (id : any) (c : Z) (message : string)
    (data : any) (h : transport.HTTPResponseSender) :
  SendError transport.ptr_httpSender id c message data h
  = SendResponse transport.ptr_httpSender (envelope.of_error id c message data) h.
Proof. reflexivity. Qed.

Lemma SSEResponseSender_SendError_pushes (s : transport.SSEResponseSender)
    (id : any) (c : Z) (message : string) (data : any) (heap : transport.Heap) :
  SendError s id c message data heap
  = SendResponse s (envelope.of_error id c message data) heap.
Proof. reflexivity. Qed.

Lemma responses_Write (x : transport.Written) (w : transport.ResponseWriter) :
  transport.responses (transport.Write x w)
  = transport.responses w ++ option_list (transport.response_of x).
Proof.
  unfold transport.responses, transport.Write; simpl.
  rewrite omap_app; simpl.
  by destruct (transport.response_of x).
Qed.

Lemma responses_WriteHeader (c : Z) (w : transport.ResponseWriter) :
  transport.responses (transport.WriteHeader c w) = transport.responses w.
Proof. reflexivity. Qed.

Lemma responses_Header_Set (k v : string) (w : transport.ResponseWriter) :
  transport.responses (transport.Header_Set k v w) = transport.responses w.
Proof. reflexivity. Qed.

End SenderFacts.

(** ** Dispatcher *)

Section DispatcherFacts.
Context {TH RH PH : Type}.
Context `{!ToolHandler TH, !ResourceHandler RH, !PromptHandler PH}.
Context {H W : Type} `{!ResponseSender H W}.

Implicit Types (s : server.Server TH RH PH) (ctx : Context) (req : Request).

(** Every dispatch with a sender ends in one call of one of its two
    methods, with the id of the request. *)
Lemma HandleRequest_calls_sender_once s ctx (sender : H) req (w : W) :
  (exists result,
     server.HandleRequest s ctx (Some sender) req w
     = SendResponse sender (envelope.of_result (Request_ID req) result) w)
  \/ (exists c message data,
     server.HandleRequest s ctx (Some sender) req w
     = SendError sender (Request_ID req) c message data w).
Proof.
  unfold server.HandleRequest.
  case_conditions; unfold_handlers; unfold envelope.of_result;
    case_scrutinees; eauto 6.
Qed.

Lemma HandleRequest_ping s ctx (sender : option H) req (w : W) :
  Request_Method req = "ping" ->
  server.HandleRequest s ctx sender req w
  = server.sendResponseDirect s sender (envelope.pong (Request_ID req)) w.
Proof.
  intros Hm. unfold server.HandleRequest. rewrite Hm. reflexivity.
Qed.

Lemma HandleRequest_prompts_get s ctx (sender : option H) req (w : W) :
  Request_Method req = "prompts/get" ->
  server.HandleRequest s ctx sender req w
  = server.handlePromptsGet s ctx sender (Request_ID req) req w.
Proof.
  intros Hm. unfold server.HandleRequest. rewrite Hm. reflexivity.
Qed.

End DispatcherFacts.

(** ** Transports *)

Section HeapFacts.

Lemma lookup_alloc (s : SSESession) (heap : Heap) :
  (heap ++ [s]) !! length heap = Some s.
Proof. by apply list_lookup_middle. Qed.

Lemma insert_alloc (s s' : SSESession) (heap : Heap) :
  <[length heap := s']> (heap ++ [s]) = heap ++ [s'].
Proof.
  rewrite insert_app_r_alt by lia.
  by rewrite Nat.sub_diag.
Qed.

Lemma sendEvent_open (eventType : string) (data : EventData) (s : SSESession) :
  SSESession_closed s = false ->
  SSESession_sendEvent eventType data s
  = ({| SSESession_ID := SSESession_ID s;
        SSESession_writer :=
          Write (WriteEvent {| event_id := SSESession_eventID s;
                               event_type := eventType;
                               event_data := data |}) (SSESession_writer s);
        SSESession_eventID := int_wrap (SSESession_eventID s + 1);
        SSESession_closed := false |}, None).
Proof. intros Hopen. unfold SSESession_sendEvent. by rewrite Hopen. Qed.

Lemma sendEvent_closed (eventType : string) (data : EventData) (s : SSESession) :
  SSESession_closed s = true ->
  SSESession_sendEvent eventType data s = (s, Some "session closed").
Proof. intros Hclosed. unfold SSESession_sendEvent. by rewrite Hclosed. Qed.

(** The session id [startSSEStream] gives a stream. *)
Lemma startSSEStream_opens (t : HTTPTransport) (w : ResponseWriter)
    (r : HTTPRequest) (clock : Clock) (heap : Heap) :
  rw_Flusher w = true ->
  exists t' sessionID s,
    startSSEStream t w r clock heap = (t', heap ++ [s], inr (length heap))
    /\ SSESession_closed s = false
    /\ SSESession_eventID s
       = int_wrap (initial_eventID (Header_Get (req_Header r) "Last-Event-ID") + 1)
    /\ rw_body (SSESession_writer s)
       = rw_body w
         ++ [WriteEvent
               {| event_id := initial_eventID (Header_Get (req_Header r) "Last-Event-ID");
                  event_type := "connected";
                  event_data := DataConnected sessionID (now_RFC3339 clock) |}].
Proof.
  intros Hflush. unfold startSSEStream. rewrite Hflush. simpl.
  unfold alloc, at_session.
  rewrite lookup_alloc, insert_alloc, lookup_alloc. simpl.
  rewrite insert_alloc.
  do 3 eexists. split; [reflexivity|]. simpl. auto.
Qed.

Lemma startSSEStream_reads_two_headers (t : HTTPTransport) (w : ResponseWriter)
    (r1 r2 : HTTPRequest) (clock : Clock) (heap : Heap) :
  initial_eventID (Header_Get (req_Header r1) "Last-Event-ID")
  = initial_eventID (Header_Get (req_Header r2) "Last-Event-ID") ->
  Header_Get (req_Header r1) "Mcp-Session-Id"
  = Header_Get (req_Header r2) "Mcp-Session-Id" ->
  startSSEStream t w r1 clock heap = startSSEStream t w r2 clock heap.
Proof.
  intros Hlast Hsession. unfold startSSEStream.
  by rewrite Hlast, Hsession.
Qed.

Lemma startSSEStream_refuses (t : HTTPTransport) (w : ResponseWriter)
    (r : HTTPRequest) (clock : Clock) (heap : Heap) :
  rw_Flusher w = false ->
  startSSEStream t w r clock heap
  = (t, heap, inl (http_Error "Streaming unsupported" 500 w)).
Proof. intros Hflush. unfold startSSEStream. by rewrite Hflush. Qed.

End HeapFacts.

Section TransportFacts.
Context {TH RH PH : Type}.
Context `{!ToolHandler TH, !ResourceHandler RH, !PromptHandler PH}.

Implicit Types (s : server.Server TH RH PH) (ctx : Context) (req : Request).

Lemma Start_loop_short `{!JSONDecoding} s ctx (data : string)
    (rest : list string) (out : Stdout) :
  Z.of_nat (String.length data) < MaxScanTokenSize ->
  Start_loop s ctx (data :: rest) out
  = if String.eqb (dropCR data) EmptyString then Start_loop s ctx rest out
    else Start_loop s ctx rest (handleMessage s ctx (dropCR data) out).1.
Proof.
  intros Hshort. cbn [Start_loop].
  rewrite (proj2 (Z.leb_gt _ _)) by done.
  destruct (String.eqb (dropCR data) EmptyString); [done|].
  by destruct (handleMessage s ctx (dropCR data) out).
Qed.

Lemma Start_loop_too_long `{!JSONDecoding} s ctx (data : string)
    (rest : list string) (out : Stdout) :
  MaxScanTokenSize <= Z.of_nat (String.length data) ->
  Start_loop s ctx (data :: rest) out = (out, Some ErrTooLong).
Proof.
  intros Hlong. cbn [Start_loop].
  by rewrite (proj2 (Z.leb_le _ _)).
Qed.


Lemma http_dispatch s ctx req (w : ResponseWriter) :
  exists resp,
    server.HandleRequest s ctx (Some ptr_httpSender) req
      {| HTTPResponseSender_writer := w; HTTPResponseSender_sent := false |}
    = ({| HTTPResponseSender_writer :=
            Write (WriteJSON resp)
              (WriteHeader 200
                (Header_Set "Content-Type" "application/json; charset=utf-8" w));
          HTTPResponseSender_sent := true |}, None)
    /\ Response_ID resp = Request_ID req.
Proof.
  destruct (HandleRequest_calls_sender_once s ctx ptr_httpSender req
              {| HTTPResponseSender_writer := w; HTTPResponseSender_sent := false |})
    as [[result ->] | (c & message & data & ->)];
    eexists; (split; [reflexivity|reflexivity]).
Qed.


Lemma handleJSONRequest_responds (t : HTTPTransport) s ctx req (w : ResponseWriter) :
  exists resp,
    handleJSONRequest t ctx s w req
    = Write (WriteJSON resp)
        (WriteHeader 200
          (Header_Set "Content-Type" "application/json; charset=utf-8" w))
    /\ Response_ID resp = Request_ID req.
Proof.
  destruct (http_dispatch s ctx req w) as (resp & Hd & Hid).
  exists resp. split; [|done].
  unfold handleJSONRequest. by rewrite Hd.
Qed.


End TransportFacts.

(** ** Claims about the dispatcher *)

Section DispatcherClaims.
Context {TH RH PH : Type}.
Context `{!ToolHandler TH, !ResourceHandler RH, !PromptHandler PH}.

Implicit Types (s : server.Server TH RH PH) (ctx : Context) (req : Request).

Lemma startSSEStream_session_is_open (t t' : HTTPTransport) (w : ResponseWriter)
    (r : HTTPRequest) (clock : Clock) (heap heap' : Heap) (l : loc) :
  startSSEStream t w r clock heap = (t', heap', inr l) ->
  exists sess,
    heap' !! l = Some sess
    /\ SSESession_closed sess = false
    /\ responses (SSESession_writer sess) = responses w.
Proof.
  intros Hstart.
  destruct (rw_Flusher w) eqn:Hflush.
  - destruct (startSSEStream_opens t w r clock heap Hflush)
      as (t1 & sid & sess & Hopens & Hopen & _ & Hbody).
    rewrite Hopens in Hstart. injection Hstart as <- <- <-.
    exists sess. split; [apply lookup_alloc|]. split; [done|].
    unfold responses. rewrite Hbody, omap_app. simpl. by rewrite app_nil_r.
  - rewrite startSSEStream_refuses in Hstart by done. discriminate.
Qed.

(** C2. Every ping request handed to the dispatcher is answered with
    success, whichever transport built the sender: on stdio the pong is
    printed, on HTTP it is written as the JSON body, on SSE it is pushed on
    the stream [startSSEStream] opened, and each time the dispatcher returns
    no error.  The pong's result is the empty object: its JSON document is
    [{"jsonrpc":"2.0","id":<id>,"result":{}}], with no [error] member. *)
Theorem ping_succeeds_on_every_transport s ctx req :
  Request_Method req = "ping" ->
  let pong := envelope.pong (Request_ID req) in
  (forall out : Stdout,
     server.HandleRequest s ctx (Some Build_StdoutSender) req out
     = (out ++ [pong], None))
  /\ (forall w : ResponseWriter,
     server.HandleRequest s ctx (Some ptr_httpSender) req
       {| HTTPResponseSender_writer := w; HTTPResponseSender_sent := false |}
     = ({| HTTPResponseSender_writer :=
             Write (WriteJSON pong)
               (WriteHeader 200
                 (Header_Set "Content-Type" "application/json; charset=utf-8" w));
           HTTPResponseSender_sent := true |}, None))
  /\ (forall (t t' : HTTPTransport) (w : ResponseWriter) (r : HTTPRequest)
        (clock : Clock) (heap heap' : Heap) (l : loc),
     startSSEStream t w r clock heap = (t', heap', inr l) ->
     exists heap'' w',
       server.HandleRequest s ctx (Some {| session := l |}) req heap'
       = (heap'', None)
       /\ served_writer heap'' (Streaming l) = Some w'
       /\ responses w' = responses w ++ [pong])
  /\ wire.Response_json pong
     = {[ "jsonrpc" := OfString "2.0";
          "id" := Request_ID req;
          "result" := OfMap ∅ ]}
  /\ wire.Response_json pong !! "result" = Some (OfMap ∅).
Proof.
  intros Hping pong.
  repeat split.
  - intros out. by rewrite HandleRequest_ping.
  - intros w. by rewrite HandleRequest_ping.
  - intros t t' w r clock heap heap' l Hstart.
    destruct (startSSEStream_session_is_open _ _ _ _ _ _ _ _ Hstart)
      as (sess & Hl & Hopen & Hresp).
    rewrite HandleRequest_ping by done. simpl.
    unfold SSEResponseSender_SendResponse, at_session. simpl.
    rewrite Hl, sendEvent_open by done.
    do 2 eexists. split; [reflexivity|]. unfold served_writer.
    rewrite list_lookup_insert_eq by (by eapply lookup_lt_Some).
    split; [reflexivity|]. cbn [SSESession_writer].
    rewrite responses_Write. simpl. by rewrite Hresp.
Qed.

(** C5. When the capability handler of a tools/call, resources/read or
    prompts/get request returns an error, the dispatcher sends an
    InvalidParams (-32602) error whose message ends with the handler's
    message; when the handler of a tools/list, resources/list or
    prompts/list request returns an error, it sends an InternalError
    (-32603) error (with the handler's message as data).  The id is the
    request's, and the sender is called once. *)
Theorem handler_errors_become_error_responses {H W : Type} `{!ResponseSender H W}
    s ctx (sender : H) req (w : W) (e : string) :
  let id := Request_ID req in
  (forall params,
     Request_Method req = "tools/call" ->
     server.parseToolCallParams s (Request_Params req) = Ok params ->
     CallTool (server.toolHandler s) ctx params = Err e ->
     server.HandleRequest s ctx (Some sender) req w
     = SendError sender id (-32602) ("Tool call failed: " +:+ e) Nil w)
  /\ (forall params,
     Request_Method req = "resources/read" ->
     server.parseResourceParams s (Request_Params req) = Ok params ->
     ReadResource (server.resourceHandler s) ctx params = Err e ->
     server.HandleRequest s ctx (Some sender) req w
     = SendError sender id (-32602) ("Resource read failed: " +:+ e) Nil w)
  /\ (forall params,
     Request_Method req = "prompts/get" ->
     server.parsePromptParams s (Request_Params req) = Ok params ->
     GetPrompt (server.promptHandler s) ctx params = Err e ->
     server.HandleRequest s ctx (Some sender) req w
     = SendError sender id (-32602) ("Prompt call failed: " +:+ e) Nil w)
  /\ (Request_Method req = "tools/list" ->
     ListTools (server.toolHandler s) ctx = Err e ->
     server.HandleRequest s ctx (Some sender) req w
     = SendError sender id (-32603) "Failed to list tools" (OfString e) w)
  /\ (Request_Method req = "resources/list" ->
     ListResources (server.resourceHandler s) ctx = Err e ->
     server.HandleRequest s ctx (Some sender) req w
     = SendError sender id (-32603) "Failed to list resources" (OfString e) w)
  /\ (Request_Method req = "prompts/list" ->
     ListPrompts (server.promptHandler s) ctx = Err e ->
     server.HandleRequest s ctx (Some sender) req w
     = SendError sender id (-32603) "Failed to list prompts" (OfString e) w).
Proof.
  intros id. unfold server.HandleRequest.
  repeat split.
  - intros params -> Hparse Hcall. simpl.
    unfold server.handleToolsCall. by rewrite Hparse, Hcall.
  - intros params -> Hparse Hcall. simpl.
    unfold server.handleResourcesRead. by rewrite Hparse, Hcall.
  - intros params -> Hparse Hcall. simpl.
    unfold server.handlePromptsGet. by rewrite Hparse, Hcall.
  - intros -> Hlist. simpl. unfold server.handleToolsList. by rewrite Hlist.
  - intros -> Hlist. simpl. unfold server.handleResourcesList. by rewrite Hlist.
  - intros -> Hlist. simpl. unfold server.handlePromptsList. by rewrite Hlist.
Qed.

(** C8, as amended.  For every tools/call or prompts/get request whose
    params object has a string [name] and an [arguments] member that is
    present but not a JSON object, parameter extraction succeeds, with that
    name and an empty arguments map: the wrong-typed value is dropped. *)
Theorem ill_typed_arguments_default_to_empty s (paramsMap : gmap string any)
    (name : string) (arguments : any) :
  paramsMap !! "name" = Some (OfString name) ->
  paramsMap !! "arguments" = Some arguments ->
  (forall argsMap, arguments <> OfMap argsMap) ->
  server.parseToolCallParams s (OfMap paramsMap)
  = Ok {| ToolCallParams_Name := name; ToolCallParams_Arguments := ∅ |}
  /\ server.parsePromptParams s (OfMap paramsMap)
     = Ok {| PromptParams_Name := name; PromptParams_Arguments := ∅ |}.
Proof.
  intros Hname Hargs Hnot.
  unfold server.parseToolCallParams, server.parsePromptParams,
    server.arguments_of, index_string.
  rewrite Hname, Hargs. simpl.
  destruct arguments; simpl; try done.
  by destruct (Hnot m).
Qed.

End DispatcherClaims.

(** ** Claims about the coffee handlers behind the dispatcher *)

Section CoffeeClaims.
Context {text : TextEncoding}.
Context {TH RH PH : Type}.
Context `{!ToolHandler TH, !ResourceHandler RH, !PromptHandler PH}.

(** C7. Any two tools/list requests to a server whose tool handler is the
    coffee handler are answered with the same list of tool descriptors,
    whatever the state of the handler at either request ([s1] and [s2] are
    the server at the first and at the second request: whichever drinks
    the handler holds by then), and whatever the ids, contexts and senders
    of the requests and whatever was sent before.  The list is the two
    descriptors [getDrinkNames] and [getDrinkInfo] written out below: it
    depends on nothing that an operation could change. *)
Theorem tools_list_is_stable {H1 W1 H2 W2 : Type}
    `{!ResponseSender H1 W1, !ResponseSender H2 W2}
    (s1 s2 : server.Server Coffee RH PH) (ctx1 ctx2 : Context)
    (req1 req2 : Request) (sender1 : H1) (sender2 : H2) (w1 : W1) (w2 : W2) :
  Request_Method req1 = "tools/list" ->
  Request_Method req2 = "tools/list" ->
  let tools :=
    [ {| Tool_Name := "getDrinkNames";
         Tool_Description := "Get the names of the drinks in the shop";
         Tool_InputSchema :=
           {| InputSchema_Type := "object";
              InputSchema_Properties := ∅;
              InputSchema_Required := [] |} |};
      {| Tool_Name := "getDrinkInfo";
         Tool_Description := "Get more info about the drink";
         Tool_InputSchema :=
           {| InputSchema_Type := "object";
              InputSchema_Properties :=
                {[ "name" := OfMap {[ "type" := OfString "string" ]} ]};
              InputSchema_Required := ["name"] |} |} ] in
  ListTools (server.toolHandler s1) ctx1 = Ok tools
  /\ ListTools (server.toolHandler s2) ctx2 = Ok tools
  /\ server.HandleRequest s1 ctx1 (Some sender1) req1 w1
     = SendResponse sender1
         (envelope.of_result (Request_ID req1) (OfTools tools)) w1
  /\ server.HandleRequest s2 ctx2 (Some sender2) req2 w2
     = SendResponse sender2
         (envelope.of_result (Request_ID req2) (OfTools tools)) w2.
Proof.
  intros Hm1 Hm2 tools.
  split; [reflexivity|]. split; [reflexivity|].
  unfold server.HandleRequest. rewrite Hm1, Hm2.
  split; reflexivity.
Qed.

(** C9. A prompts/get request for the prompt [drinkDescription] whose
    arguments hold no string under [drink_name] succeeds: [GetPrompt]
    returns one message, of the role [user], whose text is the prompt with
    the subject "coffee" in place of the drink ("... a detailed description
    of a coffee, including: ..."), and the dispatcher sends it as the
    result; yet [ListPrompts] declares the argument [drink_name] of that
    prompt as required. *)
Theorem drinkDescription_defaults_to_coffee {H W : Type} `{!ResponseSender H W}
    (s : server.Server TH RH Coffee) (ctx : Context) (sender : H)
    (req : Request) (w : W) (paramsMap : gmap string any) :
  Request_Method req = "prompts/get" ->
  Request_Params req = OfMap paramsMap ->
  paramsMap !! "name" = Some (OfString "drinkDescription") ->
  (forall drinkName,
     server.arguments_of paramsMap !! "drink_name" <> Some (OfString drinkName)) ->
  let params :=
    {| PromptParams_Name := "drinkDescription";
       PromptParams_Arguments := server.arguments_of paramsMap |} in
  let prompt :=
    {| PromptResponse_Messages :=
         [ {| PromptMessage_Role := "user";
              PromptMessage_Content :=
                {| MessageContent_Type := "text";
                   MessageContent_Text :=
                     "You are a coffee expert. Please provide a detailed description of a coffee, including:"
                     +:+ newline
                     +:+ newline
                     +:+ "1. The ingredients and preparation method" +:+ newline
                     +:+ "2. The flavor profile and tasting notes" +:+ newline
                     +:+ "3. The history or origin of this drink" +:+ newline
                     +:+ "4. Tips for enjoying it" +:+ newline
                     +:+ newline
                     +:+ "Be engaging and informative in your response." |} |} ] |} in
  GetPrompt (server.promptHandler s) ctx params = Ok prompt
  /\ server.HandleRequest s ctx (Some sender) req w
     = SendResponse sender
         (envelope.of_result (Request_ID req) (OfPromptResponse prompt)) w
  /\ exists prompts description,
       ListPrompts (server.promptHandler s) ctx = Ok prompts
       /\ {| Prompt_Name := "drinkDescription";
             Prompt_Description := description;
             Prompt_Arguments :=
               [ {| PromptArgument_Name := "drink_name";
                    PromptArgument_Description := "The name of the drink to describe";
                    PromptArgument_Required := true |} ] |} ∈ prompts.
Proof.
  intros Hmethod Hparams Hname Hlack params prompt.
  assert (Hdefault : index_string (server.arguments_of paramsMap) "drink_name" = None).
  { unfold index_string.
    destruct (server.arguments_of paramsMap !! "drink_name") as [[]|] eqn:Hd;
      simpl; try done.
    by destruct (Hlack s0). }
  assert (Hget : GetPrompt (server.promptHandler s) ctx params = Ok prompt).
  { simpl. unfold Coffee_GetPrompt, createDrinkDescriptionPrompt. simpl.
    by rewrite Hdefault. }
  split; [exact Hget|]. split.
  - rewrite HandleRequest_prompts_get by done.
    unfold server.handlePromptsGet, server.parsePromptParams, index_string.
    rewrite Hparams, Hname. cbv [default from_option id as_string].
    fold params. by rewrite Hget.
  - do 2 eexists. split; [reflexivity|].
    apply list_elem_of_In. right. left. reflexivity.
Qed.

End CoffeeClaims.

(** ** Claims about SSE sessions *)

Section SessionClaims.
Import trace.

Lemma int_wrap_in_range (z : Z) : MinInt <= z <= MaxInt -> int_wrap z = z.
Proof.
  unfold int_wrap, MinInt, MaxInt. intros Hz.
  rewrite Z.mod_small by lia. lia.
Qed.

Lemma Atoi_in_range (text : string) (n : Z) :
  Atoi text = Ok n -> MinInt <= n <= MaxInt.
Proof.
  unfold Atoi.
  destruct (match text with
            | String "+" rest => (false, rest)
            | String "-" rest => (true, rest)
            | _ => (false, text)
            end) as [neg body].
  destruct body; [discriminate|].
  destruct (digits _ 0) as [m|]; [|discriminate].
  destruct (_ && _) eqn:Hrange; [|discriminate].
  intros [= <-].
  apply andb_prop in Hrange as [Hlo Hhi].
  apply Z.leb_le in Hlo, Hhi. done.
Qed.

Lemma close_closed (s : SSESession) :
  SSESession_closed s = true -> SSESession_close s = s.
Proof. destruct s; simpl; by intros ->. Qed.

Lemma run_call_closed (c : Call) (s : SSESession) :
  SSESession_closed s = true ->
  run_call c s = (s, if is_send c then Some "session closed" else None).
Proof.
  intros Hclosed. destruct c; simpl.
  - by apply sendEvent_closed.
  - unfold SSESession_sendError. by apply sendEvent_closed.
  - by rewrite close_closed.
Qed.

(** C6. On a session marked closed, every later call of [sendEvent] (and
    of [sendError], which goes through it) returns the error "session
    closed" and leaves the session as it was: nothing is added to its
    stream and its event counter keeps its value, however many calls
    follow, and also when the call comes from the sender of a request
    that still points to the session. *)
Theorem closed_session_rejects_every_send (s : SSESession) :
  SSESession_closed s = true ->
  (forall eventType data,
     SSESession_sendEvent eventType data s = (s, Some "session closed"))
  /\ (forall cs : list Call,
     run_calls cs s
     = (s, (fun c => if is_send c then Some "session closed" else None) <$> cs))
  /\ (forall (heap : Heap) (l : loc),
     heap !! l = Some s ->
     (forall response,
        SendResponse {| session := l |} response heap
        = (heap, Some "session closed"))
     /\ (forall id c message data,
        SendError {| session := l |} id c message data heap
        = (heap, Some "session closed"))).
Proof.
  intros Hclosed. split; [|split].
  - intros eventType data. by apply sendEvent_closed.
  - induction cs as [|c rest IH]; simpl; [done|].
    by rewrite run_call_closed, IH.
  - intros heap l Hl. split.
    + intros response. simpl.
      unfold SSEResponseSender_SendResponse, at_session. simpl.
      rewrite Hl, sendEvent_closed by done.
      by rewrite list_insert_id.
    + intros id c message data. simpl.
      unfold SSEResponseSender_SendError, SSESession_sendError, at_session. simpl.
      rewrite Hl, sendEvent_closed by done.
      by rewrite list_insert_id.
Qed.

Lemma event_ids_Write_event (e : SSEEvent) (w : ResponseWriter) :
  event_ids (Write (WriteEvent e) w) = event_ids w ++ [event_id e].
Proof. unfold event_ids, Write; simpl. by rewrite omap_app. Qed.

Lemma run_send_open (c : Call) (s : SSESession) :
  is_send c = true ->
  SSESession_closed s = false ->
  exists eventType data,
    run_call c s
    = ({| SSESession_ID := SSESession_ID s;
          SSESession_writer :=
            Write (WriteEvent {| event_id := SSESession_eventID s;
                                 event_type := eventType;
                                 event_data := data |}) (SSESession_writer s);
          SSESession_eventID := int_wrap (SSESession_eventID s + 1);
          SSESession_closed := false |}, None).
Proof.
  intros Hsend Hopen. destruct c; simpl in *; [| |discriminate].
  - do 2 eexists. by apply sendEvent_open.
  - unfold SSESession_sendError. do 2 eexists. by apply sendEvent_open.
Qed.

Lemma run_calls_event_ids (cs : list Call) :
  forall s : SSESession,
    SSESession_closed s = false ->
    forallb is_send cs = true ->
    MinInt <= SSESession_eventID s ->
    SSESession_eventID s + Z.of_nat (length cs) <= MaxInt + 1 ->
    event_ids (SSESession_writer (run_calls cs s).1)
    = event_ids (SSESession_writer s)
      ++ seqZ (SSESession_eventID s) (Z.of_nat (length cs)).
Proof.
  induction cs as [|c rest IH]; intros s Hopen Hsends Hlo Hhi.
  - simpl. by rewrite app_nil_r.
  - simpl in Hsends. apply andb_prop in Hsends as [Hsend Hrest].
    destruct (run_send_open c s Hsend Hopen) as (eventType & data & Hrun).
    cbn [run_calls]. rewrite Hrun.
    destruct (run_calls rest _) as [s2 es] eqn:Hrest_run. cbn [fst].
    replace s2 with (run_calls rest
      {| SSESession_ID := SSESession_ID s;
         SSESession_writer :=
           Write (WriteEvent {| event_id := SSESession_eventID s;
                                event_type := eventType;
                                event_data := data |}) (SSESession_writer s);
         SSESession_eventID := int_wrap (SSESession_eventID s + 1);
         SSESession_closed := false |}).1 by (by rewrite Hrest_run).
    rewrite seqZ_cons by (simpl length; lia).
    destruct rest as [|c' rest'].
    + simpl. by rewrite event_ids_Write_event.
    + simpl length in *.
      rewrite IH; cbn [SSESession_writer SSESession_eventID SSESession_closed];
        try done.
      * rewrite int_wrap_in_range by (unfold MinInt, MaxInt in *; lia).
        rewrite event_ids_Write_event. cbn [event_id].
        rewrite <- app_assoc. simpl. repeat f_equal; lia.
      * rewrite int_wrap_in_range by (unfold MinInt, MaxInt in *; lia). lia.
      * rewrite int_wrap_in_range by (unfold MinInt, MaxInt in *; lia).
        simpl length. lia.
Qed.

Lemma initial_eventID_absent : initial_eventID EmptyString = 0.
Proof. reflexivity. Qed.

Lemma initial_eventID_resumed (text : string) (last : Z) :
  Atoi text = Ok last -> last < MaxInt -> initial_eventID text = last + 1.
Proof.
  intros Hatoi Hlast. unfold initial_eventID.
  destruct (String.eqb text EmptyString) eqn:Hempty.
  - apply String.eqb_eq in Hempty. subst. discriminate.
  - rewrite Hatoi. apply int_wrap_in_range.
    apply Atoi_in_range in Hatoi. lia.
Qed.

Lemma initial_eventID_malformed (text : string) :
  is_Err (Atoi text) = true -> initial_eventID text = 0.
Proof.
  intros Herr. unfold initial_eventID.
  destruct (String.eqb text EmptyString); [done|].
  by destruct (Atoi text).
Qed.

(** C3, as amended.  Within one SSESession, as long as the ids written stay
    at or below the largest Go [int], the event ids of consecutive
    [sendEvent] calls go up by exactly 1: the calls write the ids
    [eventID], [eventID + 1], ... in order.  The first event id of a
    stream (that of its handshake event) is 0 when no [Last-Event-ID]
    header was supplied, and [last + 1] when the header holds an integer
    [last] that [strconv.Atoi] accepts and that is below the largest [int];
    the counter then stands at that id plus 1. *)
Theorem event_ids_go_up_by_one :
  (forall (s : SSESession) (cs : list Call),
     SSESession_closed s = false ->
     forallb is_send cs = true ->
     MinInt <= SSESession_eventID s ->
     SSESession_eventID s + Z.of_nat (length cs) <= MaxInt + 1 ->
     event_ids (SSESession_writer (run_calls cs s).1)
     = event_ids (SSESession_writer s)
       ++ seqZ (SSESession_eventID s) (Z.of_nat (length cs)))
  /\ (forall (t : HTTPTransport) (w : ResponseWriter) (r : HTTPRequest)
        (clock : Clock) (heap : Heap) (first : Z),
     rw_Flusher w = true ->
     let lastEventID := Header_Get (req_Header r) "Last-Event-ID" in
     (lastEventID = EmptyString /\ first = 0
      \/ exists last,
           Atoi lastEventID = Ok last /\ last < MaxInt /\ first = last + 1) ->
     exists t' heap' l s,
       startSSEStream t w r clock heap = (t', heap', inr l)
       /\ heap' !! l = Some s
       /\ SSESession_closed s = false
       /\ event_ids (SSESession_writer s) = event_ids w ++ [first]
       /\ SSESession_eventID s = int_wrap (first + 1)).
Proof.
  split.
  - intros s cs. apply run_calls_event_ids.
  - intros t w r clock heap first Hflush lastEventID Hfirst.
    destruct (startSSEStream_opens t w r clock heap Hflush)
      as (t' & sid & s & Hstart & Hopen & Hcounter & Hbody).
    assert (Hinit : initial_eventID lastEventID = first).
    { destruct Hfirst as [[-> ->] | (last & Hatoi & Hlast & ->)].
      - apply initial_eventID_absent.
      - by apply initial_eventID_resumed. }
    fold lastEventID in Hcounter, Hbody. rewrite Hinit in Hcounter, Hbody.
    exists t', (heap ++ [s]), (length heap), s.
    split; [exact Hstart|]. split; [apply lookup_alloc|].
    split; [exact Hopen|]. split; [|exact Hcounter].
    unfold event_ids. rewrite Hbody, omap_app. reflexivity.
Qed.

(** C10. A GET /mcp request whose [Last-Event-ID] header is not empty and
    not accepted by [strconv.Atoi] is served exactly as the same request
    without that header: the malformed value is ignored.  On a connection
    that can stream, the stream is opened, its first event (the handshake)
    has id 0 and the counter moves on to 1. *)
Theorem malformed_Last_Event_ID_is_ignored (t : HTTPTransport)
    (w : ResponseWriter) (r : HTTPRequest) (clock : Clock) (heap : Heap)
    (text : string) :
  text <> EmptyString ->
  is_Err (Atoi text) = true ->
  handleGet_open t w (with_Last_Event_ID (Some text) r) clock heap
  = handleGet_open t w (with_Last_Event_ID None r) clock heap
  /\ (rw_Flusher w = true ->
      exists t' heap' l s,
        handleGet_open t w (with_Last_Event_ID (Some text) r) clock heap
        = (t', heap', Streaming l)
        /\ heap' !! l = Some s
        /\ SSESession_closed s = false
        /\ event_ids (SSESession_writer s) = event_ids w ++ [0]
        /\ SSESession_eventID s = 1).
Proof.
  intros Hnonempty Hmalformed.
  assert (Hlast : Header_Get (req_Header (with_Last_Event_ID (Some text) r))
                    "Last-Event-ID" = text).
  { unfold Header_Get. simpl. by rewrite lookup_insert_eq. }
  assert (Hnone : Header_Get (req_Header (with_Last_Event_ID None r))
                    "Last-Event-ID" = EmptyString).
  { unfold Header_Get. simpl. by rewrite lookup_delete_eq. }
  split.
  - unfold handleGet_open.
    rewrite (startSSEStream_reads_two_headers t w
               (with_Last_Event_ID (Some text) r) (with_Last_Event_ID None r));
      [reflexivity| |].
    + by rewrite Hlast, Hnone, initial_eventID_malformed.
    + unfold Header_Get. simpl.
      by rewrite lookup_insert_ne, lookup_delete_ne.
  - intros Hflush.
    destruct (startSSEStream_opens t w (with_Last_Event_ID (Some text) r)
                clock heap Hflush)
      as (t' & sid & s & Hstart & Hopen & Hcounter & Hbody).
    rewrite Hlast, initial_eventID_malformed in Hcounter, Hbody by done.
    exists t', (heap ++ [s]), (length heap), s.
    unfold handleGet_open. rewrite Hstart.
    split; [reflexivity|]. split; [apply lookup_alloc|].
    split; [exact Hopen|]. split; [|exact Hcounter].
    unfold event_ids. rewrite Hbody, omap_app. reflexivity.
Qed.

End SessionClaims.

(** ** Claims about the transports *)

Section TransportClaims.
Context {json : JSONDecoding}.
Context {TH RH PH : Type}.
Context `{!ToolHandler TH, !ResourceHandler RH, !PromptHandler PH}.

Implicit Types (s : server.Server TH RH PH) (ctx : Context) (req : Request).




End TransportClaims.

(** ** Further properties of the dispatcher and of the HTTP transport *)

Section FurtherProperties.
Context {TH RH PH : Type}.
Context `{!ToolHandler TH, !ResourceHandler RH, !PromptHandler PH}.

Implicit Types (s : server.Server TH RH PH) (ctx : Context) (req : Request).

(** A method the dispatcher has no case for is answered with
    MethodNotFound (-32601), the request's id, and a message naming the
    method. *)
Theorem unknown_method_is_not_found {H W : Type} `{!ResponseSender H W}
    s ctx (sender : H) req (w : W) :
  Request_Method req ∉ envelope.routed ->
  server.HandleRequest s ctx (Some sender) req w
  = SendError sender (Request_ID req) (-32601)
      ("Method " +:+ Request_Method req +:+ " not found") Nil w.
Proof.
  intros Hunknown. unfold envelope.routed in Hunknown.
  repeat match goal with
         | Hu : _ ∉ _ :: _ |- _ =>
             apply not_elem_of_cons in Hu as [?%String.eqb_neq Hu]
         end.
  unfold server.HandleRequest.
  repeat match goal with
         | Hne : String.eqb _ _ = false |- _ => rewrite Hne; clear Hne
         end.
  reflexivity.
Qed.

(** Without a sender in the context the dispatcher sends nothing and
    reports the fault, whatever the request. *)
Theorem missing_sender_is_reported {H W : Type} `{!ResponseSender H W}
    s ctx req (w : W) :
  server.HandleRequest s ctx (None : option H) req w
  = (w, Some "no response sender in context").
Proof.
  unfold server.HandleRequest.
  case_conditions; unfold_handlers; case_scrutinees; reflexivity.
Qed.

(** A params object without a string under the required key is refused,
    and so are params that are absent or no object: [name] is the key
    that tools/call and prompts/get require, whatever else the params
    hold, and [uri] the key that resources/read requires. *)
Theorem required_params_are_checked s (params : any) :
  ((forall paramsMap name,
      params = OfMap paramsMap -> paramsMap !! "name" <> Some (OfString name)) ->
   is_Err (server.parseToolCallParams s params) = true
   /\ is_Err (server.parsePromptParams s params) = true)
  /\ ((forall paramsMap uri,
         params = OfMap paramsMap -> paramsMap !! "uri" <> Some (OfString uri)) ->
      is_Err (server.parseResourceParams s params) = true).
Proof.
  unfold server.parseToolCallParams, server.parsePromptParams,
    server.parseResourceParams, index_string.
  split.
  - intros Hname. destruct params as [| | | | | |paramsMap]; try done.
    destruct (paramsMap !! "name") as [[]|] eqn:Hn; simpl; try done.
    by destruct (Hname paramsMap s0).
  - intros Huri. destruct params as [| | | | | |paramsMap]; try done.
    destruct (paramsMap !! "uri") as [[]|] eqn:Hu; simpl; try done.
    by destruct (Huri paramsMap s0).
Qed.

(** A line that decodes to a request whose version tag is not "2.0" is
    dropped by the stdio transport without a response, while the HTTP
    transport answers such a body (its Accept header being acceptable)
    with an InvalidRequest error carrying the request's id. *)
Theorem version_mismatch_by_transport `{!JSONDecoding} s ctx req :
  Request_JSONRPC req <> JSONRPCVersion ->
  (forall (line : string) (out : Stdout),
     json_Unmarshal_Request line = Ok req ->
     handleMessage s ctx line out = (out, None))
  /\ (forall (t : HTTPTransport) (w : ResponseWriter) (r : HTTPRequest)
        (clock : Clock) (heap : Heap),
     json_Decode_Request (req_Body r) = Ok req ->
     Contains (Header_Get (req_Header r) "Accept") "application/json"
     || Contains (Header_Get (req_Header r) "Accept") "text/event-stream" = true ->
     handlePost t ctx s w r clock heap
     = (t, heap,
        Direct (HTTPTransport_sendError w (Request_ID req) (-32600)
                  "Invalid JSON-RPC version" Nil))).
Proof.
  intros Hversion. apply String.eqb_neq in Hversion. split.
  - intros line out Hdecode. unfold handleMessage.
    by rewrite Hdecode, Hversion.
  - intros t w r clock heap Hdecode Haccept. unfold handlePost.
    rewrite Hdecode, Hversion.
    replace (negb (Contains (Header_Get (req_Header r) "Accept") "application/json")
             && negb (Contains (Header_Get (req_Header r) "Accept")
                        "text/event-stream"))
      with false; [reflexivity|].
    by destruct (Contains _ "application/json"), (Contains _ "text/event-stream").
Qed.

End FurtherProperties.

Section FurtherTransportProperties.

(** An [HTTPResponseSender] is single-use: once it has sent, a further
    response or error is refused and nothing is written. *)
Theorem HTTPResponseSender_sends_once (h : HTTPResponseSender) :
  HTTPResponseSender_sent h = true ->
  (forall response,
     SendResponse ptr_httpSender response h = (h, Some "response already sent"))
  /\ (forall id c message data,
     SendError ptr_httpSender id c message data h
     = (h, Some "response already sent")).
Proof.
  intros Hsent. split; intros; simpl;
    unfold HTTPResponseSender_SendError, HTTPResponseSender_SendResponse;
    by rewrite Hsent.
Qed.

Lemma close_close (s : SSESession) :
  SSESession_close (SSESession_close s) = SSESession_close s.
Proof. reflexivity. Qed.

Lemma close_at_lookup (l l' : loc) (heap : Heap) :
  close_at l heap !! l'
  = (if decide (l' = l) then SSESession_close else id) <$> heap !! l'.
Proof.
  unfold close_at.
  destruct (heap !! l) as [s|] eqn:Hl.
  - destruct (decide (l' = l)) as [->|Hne].
    + rewrite list_lookup_insert_eq by (by eapply lookup_lt_Some).
      by rewrite Hl.
    + rewrite list_lookup_insert_ne by done.
      by destruct (heap !! l').
  - destruct (decide (l' = l)) as [->|Hne].
    + by rewrite Hl.
    + by destruct (heap !! l').
Qed.

Lemma close_all_lookup (ls : list loc) (heap : Heap) (l : loc) :
  foldr close_at heap ls !! l
  = (if decide (l ∈ ls) then SSESession_close else id) <$> heap !! l.
Proof.
  induction ls as [|a ls IH]; cbn [foldr].
  - destruct (decide (l ∈ [])) as [Hin|_].
    + by apply not_elem_of_nil in Hin.
    + by destruct (heap !! l).
  - rewrite close_at_lookup, IH.
    destruct (heap !! l) as [s|]; cbn [fmap option_fmap option_map]; [|done].
    destruct (decide (l = a)) as [->|Hne].
    + rewrite (decide_True (P := a ∈ a :: ls)) by apply list_elem_of_here.
      by destruct (decide (a ∈ ls)).
    + destruct (decide (l ∈ ls)) as [Hin|Hnotin].
      * by rewrite decide_True by (by apply list_elem_of_further).
      * rewrite decide_False; [done|].
        by intros [?|?]%elem_of_cons.
Qed.

(** [Stop] marks every session of the registry closed, leaves every other
    session as it is, and empties the registry. *)
Theorem Stop_closes_registered_sessions (t : HTTPTransport) (heap : Heap) :
  HTTPTransport_sessions (Stop t heap).1 = ∅
  /\ (forall sessionID l s,
     HTTPTransport_sessions t !! sessionID = Some l ->
     heap !! l = Some s ->
     (Stop t heap).2 !! l = Some (SSESession_close s))
  /\ (forall l s,
     (forall sessionID, HTTPTransport_sessions t !! sessionID <> Some l) ->
     heap !! l = Some s ->
     (Stop t heap).2 !! l = Some s).
Proof.
  unfold Stop. cbn [fst snd]. split; [reflexivity|]. split.
  - intros sessionID l s Hreg Hl.
    rewrite close_all_lookup, Hl.
    rewrite decide_True; [done|].
    apply list_elem_of_fmap. exists (sessionID, l). split; [done|].
    by apply elem_of_map_to_list.
  - intros l s Hunreg Hl.
    rewrite close_all_lookup, Hl.
    rewrite decide_False; [done|].
    intros [[sessionID l'] [-> Hin]]%list_elem_of_fmap.
    apply elem_of_map_to_list in Hin. by destruct (Hunreg sessionID).
Qed.

End FurtherTransportProperties.

(** ** What a dispatch delivers, whatever the sender *)

Section DispatchOutcome.
Context {TH RH PH : Type}.
Context `{!ToolHandler TH, !ResourceHandler RH, !PromptHandler PH}.

Implicit Types (s : server.Server TH RH PH) (ctx : Context) (req : Request).

Lemma HandleRequest_outcome s ctx req :
  (exists result,
     (forall (H W : Type) (Sender : ResponseSender H W) (sender : H) (w : W),
        server.HandleRequest s ctx (Some sender) req w
        = SendResponse sender (envelope.of_result (Request_ID req) result) w)
     /\ result <> NoPayload)
  \/ (exists c message data,
     forall (H W : Type) (Sender : ResponseSender H W) (sender : H) (w : W),
       server.HandleRequest s ctx (Some sender) req w
       = SendError sender (Request_ID req) c message data w).
Proof.
  destruct (String.eqb (Request_Method req) "initialize") eqn:?;
    [settle_outcome|].
  destruct (String.eqb (Request_Method req) "tools/list") eqn:?;
    [destruct (ListTools (server.toolHandler s) ctx) eqn:?; settle_outcome|].
  destruct (String.eqb (Request_Method req) "tools/call") eqn:?;
    [destruct (server.parseToolCallParams s (Request_Params req)) as [params|] eqn:?;
     [destruct (CallTool (server.toolHandler s) ctx params) eqn:?|];
     settle_outcome|].
  destruct (String.eqb (Request_Method req) "resources/list") eqn:?;
    [destruct (ListResources (server.resourceHandler s) ctx) eqn:?; settle_outcome|].
  destruct (String.eqb (Request_Method req) "resources/read") eqn:?;
    [destruct (server.parseResourceParams s (Request_Params req)) as [params|] eqn:?;
     [destruct (ReadResource (server.resourceHandler s) ctx params) eqn:?|];
     settle_outcome|].
  destruct (String.eqb (Request_Method req) "prompts/list") eqn:?;
    [destruct (ListPrompts (server.promptHandler s) ctx) eqn:?; settle_outcome|].
  destruct (String.eqb (Request_Method req) "prompts/get") eqn:?;
    [destruct (server.parsePromptParams s (Request_Params req)) as [params|] eqn:?;
     [destruct (GetPrompt (server.promptHandler s) ctx params) eqn:?|];
     settle_outcome|].
  destruct (String.eqb (Request_Method req) "ping") eqn:?; settle_outcome.
Qed.

(** What a request is answered with does not depend on the sender: a
    dispatch ends in one call of the sender's [SendResponse] with a result
    that is not nil, or in one call of its [SendError], and which of the
    two, with which result or error and the request's id, is the same for
    every sender of every transport. *)
Theorem dispatch_outcome_is_the_same_for_every_sender s ctx req :
  (exists result,
     result <> NoPayload
     /\ forall (H W : Type) (Sender : ResponseSender H W) (sender : H) (w : W),
          server.HandleRequest s ctx (Some sender) req w
          = SendResponse sender (envelope.of_result (Request_ID req) result) w)
  \/ (exists c message data,
     forall (H W : Type) (Sender : ResponseSender H W) (sender : H) (w : W),
       server.HandleRequest s ctx (Some sender) req w
       = SendError sender (Request_ID req) c message data w).
Proof.
  destruct (HandleRequest_outcome s ctx req)
    as [(result & Hsend & Hresult) | (c & message & data & Hsend)].
  - left. by exists result.
  - right. by exists c, message, data.
Qed.

Lemma Payload_json_is_Some (p : Payload) :
  p <> NoPayload -> is_Some (wire.Payload_json p).
Proof. destruct p; simpl; try done; intros _; by eexists. Qed.

(** The JSON document of every envelope the dispatcher delivers (shown as
    printed on stdio) has the version tag "2.0", the id of the request,
    and exactly one of the members [result] and [error]. *)
Theorem delivered_envelope_has_result_or_error s ctx req (out : Stdout) :
  exists resp,
    server.HandleRequest s ctx (Some Build_StdoutSender) req out
    = (out ++ [resp], None)
    /\ wire.Response_json resp !! "jsonrpc" = Some (OfString "2.0")
    /\ wire.Response_json resp !! "id" = Some (Request_ID req)
    /\ (is_Some (wire.Response_json resp !! "result")
         /\ wire.Response_json resp !! "error" = None
        \/ wire.Response_json resp !! "result" = None
           /\ is_Some (wire.Response_json resp !! "error")).
Proof.
  destruct (HandleRequest_outcome s ctx req)
    as [(result & Hsend & Hresult) | (c & message & data & Hsend)].
  - exists (envelope.of_result (Request_ID req) result).
    rewrite Hsend. split; [reflexivity|].
    destruct (Payload_json_is_Some result Hresult) as [doc Hdoc].
    unfold wire.Response_json, envelope.of_result; simpl. rewrite Hdoc.
    unfold wire.member, wire.member_omitempty.
    split; [by simplify_map_eq|]. split; [by simplify_map_eq|].
    left. split; [|by simplify_map_eq].
    exists doc. by simplify_map_eq.
  - exists (envelope.of_error (Request_ID req) c message data).
    rewrite Hsend. split; [reflexivity|].
    unfold wire.Response_json, envelope.of_error; simpl.
    unfold wire.member, wire.member_omitempty.
    split; [by simplify_map_eq|]. split; [by simplify_map_eq|].
    right. split; [by simplify_map_eq|].
    eexists. by simplify_map_eq.
Qed.

Lemma handleJSONRequest_envelope (t : HTTPTransport) s ctx req
    (w : ResponseWriter) :
  exists resp,
    server.HandleRequest s ctx (Some Build_StdoutSender) req [] = ([resp], None)
    /\ handleJSONRequest t ctx s w req
       = Write (WriteJSON resp)
           (WriteHeader 200
             (Header_Set "Content-Type" "application/json; charset=utf-8" w))
    /\ Response_ID resp = Request_ID req.
Proof.
  destruct (HandleRequest_outcome s ctx req)
    as [(result & Hsend & _) | (c & message & data & Hsend)];
    [ exists (envelope.of_result (Request_ID req) result)
    | exists (envelope.of_error (Request_ID req) c message data) ];
    unfold handleJSONRequest; by rewrite !Hsend.
Qed.

(** A request dispatched for a JSON answer is answered exactly once, with
    the envelope the stdio transport would print for it: one JSON body is
    added, as [application/json] and with status 200 also when the
    envelope is a JSON-RPC error (a status written earlier stays); the
    "Internal error" and "No response generated" fallbacks of
    [handleJSONRequest] are never sent. *)
Theorem json_request_is_answered_once (t : HTTPTransport) s ctx req
    (w : ResponseWriter) :
  exists resp,
    server.HandleRequest s ctx (Some Build_StdoutSender) req [] = ([resp], None)
    /\ Response_ID resp = Request_ID req
    /\ rw_body (handleJSONRequest t ctx s w req) = rw_body w ++ [WriteJSON resp]
    /\ rw_status (handleJSONRequest t ctx s w req)
       = Some (default 200 (rw_status w))
    /\ rw_Header (handleJSONRequest t ctx s w req)
       = <["Content-Type" := "application/json; charset=utf-8"]> (rw_Header w).
Proof.
  destruct (handleJSONRequest_envelope t s ctx req w) as (resp & Hstd & -> & Hid).
  exists resp. simpl. repeat split; try done. by destruct (rw_status w).
Qed.

End DispatchOutcome.

(** ** Streams and the registry of sessions *)

Section Streams.

Implicit Types (t : HTTPTransport) (w : ResponseWriter) (r : HTTPRequest).
Implicit Types (clock : Clock) (heap : Heap).

Lemma with_sessions_id t : with_sessions (HTTPTransport_sessions t) t = t.
Proof. by destruct t. Qed.

(** All that [startSSEStream] does on a connection that can flush. *)
Lemma startSSEStream_streams t w r clock heap :
  rw_Flusher w = true ->
  exists s,
    startSSEStream t w r clock heap
    = (with_sessions (<[SSESession_ID s := length heap]> (HTTPTransport_sessions t)) t,
       heap ++ [s], inr (length heap))
    /\ SSESession_ID s
       = (if String.eqb (Header_Get (req_Header r) "Mcp-Session-Id") EmptyString
          then "session_" +:+ pretty (now_UnixNano clock)
          else Header_Get (req_Header r) "Mcp-Session-Id")
    /\ SSESession_closed s = false
    /\ SSESession_eventID s
       = int_wrap (initial_eventID (Header_Get (req_Header r) "Last-Event-ID") + 1)
    /\ SSESession_writer s
       = Write
           (WriteEvent
              {| event_id := initial_eventID (Header_Get (req_Header r) "Last-Event-ID");
                 event_type := "connected";
                 event_data := DataConnected (SSESession_ID s) (now_RFC3339 clock) |})
           (Header_Set "Mcp-Session-Id" (SSESession_ID s)
             (Header_Set "Access-Control-Allow-Origin" "*"
               (Header_Set "Connection" "keep-alive"
                 (Header_Set "Cache-Control" "no-cache"
                   (Header_Set "Content-Type" "text/event-stream; charset=utf-8" w))))).
Proof.
  intros Hflush. unfold startSSEStream. rewrite Hflush. simpl.
  unfold alloc, at_session.
  rewrite lookup_alloc, insert_alloc, lookup_alloc. simpl.
  rewrite insert_alloc.
  eexists {| SSESession_ID := _; SSESession_writer := _;
             SSESession_eventID := _; SSESession_closed := _ |}.
  split; [reflexivity|]. simpl. auto.
Qed.

(** A stream that is opened is registered under its id: the id is the
    client's [Mcp-Session-Id] header when that is not empty and
    [session_<nanoseconds>] otherwise; the registry maps it to the new,
    open session, which is the only change to the registry and to the
    sessions there are; and the response announces the same id in its
    [Mcp-Session-Id] header, as an event stream. *)
Theorem stream_is_registered_under_its_id t w r clock heap :
  rw_Flusher w = true ->
  exists t' s,
    startSSEStream t w r clock heap = (t', heap ++ [s], inr (length heap))
    /\ SSESession_ID s
       = (if String.eqb (Header_Get (req_Header r) "Mcp-Session-Id") EmptyString
          then "session_" +:+ pretty (now_UnixNano clock)
          else Header_Get (req_Header r) "Mcp-Session-Id")
    /\ SSESession_closed s = false
    /\ HTTPTransport_sessions t' !! SSESession_ID s = Some (length heap)
    /\ (forall sessionID,
          sessionID <> SSESession_ID s ->
          HTTPTransport_sessions t' !! sessionID
          = HTTPTransport_sessions t !! sessionID)
    /\ rw_Header (SSESession_writer s) !! "Mcp-Session-Id" = Some (SSESession_ID s)
    /\ rw_Header (SSESession_writer s) !! "Content-Type"
       = Some "text/event-stream; charset=utf-8".
Proof.
  intros Hflush.
  destruct (startSSEStream_streams t w r clock heap Hflush)
    as (s & Hstart & Hid & Hopen & _ & Hwriter).
  eexists _, s. split; [exact Hstart|].
  split; [exact Hid|]. split; [exact Hopen|]. simpl.
  split; [by rewrite lookup_insert_eq|].
  split; [intros sessionID Hne; by rewrite lookup_insert_ne|].
  rewrite Hwriter. simpl.
  split; [by rewrite lookup_insert_eq|].
  by rewrite !lookup_insert_ne, lookup_insert_eq by done.
Qed.

(** When the stream of a GET ends, [handleGet] takes its id out of the
    registry and does not close the session: the registry is the one from
    before the stream was opened, less that id, so that an older entry
    under the same id is gone as well; if the id was not in use when the
    stream was opened, the registry is back to what it was. *)
Theorem ended_stream_is_unregistered t w r clock heap :
  rw_Flusher w = true ->
  exists t' s,
    handleGet_open t w r clock heap = (t', heap ++ [s], Streaming (length heap))
    /\ HTTPTransport_sessions (handleGet_done t' (length heap) (heap ++ [s]))
       = delete (SSESession_ID s) (HTTPTransport_sessions t)
    /\ (HTTPTransport_sessions t !! SSESession_ID s = None ->
        handleGet_done t' (length heap) (heap ++ [s]) = t)
    /\ SSESession_closed s = false.
Proof.
  intros Hflush.
  destruct (startSSEStream_streams t w r clock heap Hflush)
    as (s & Hstart & _ & Hopen & _).
  eexists _, s. unfold handleGet_open. rewrite Hstart.
  split; [reflexivity|].
  unfold handleGet_done. rewrite lookup_alloc. simpl.
  split; [apply delete_insert_eq|]. split; [|exact Hopen].
  intros Hfresh. unfold with_sessions. simpl.
  rewrite delete_insert_eq, delete_id by done. by destruct t.
Qed.

(** A session id can be taken twice.  When a second stream is opened under
    the id of a first one that is still running, the registry forgets the
    first: [Stop] then closes the second stream and leaves the first one
    open. *)
Theorem reused_session_id_escapes_Stop t w1 w2 r1 r2 clock1 clock2 heap :
  rw_Flusher w1 = true ->
  rw_Flusher w2 = true ->
  Header_Get (req_Header r1) "Mcp-Session-Id" <> EmptyString ->
  Header_Get (req_Header r2) "Mcp-Session-Id"
  = Header_Get (req_Header r1) "Mcp-Session-Id" ->
  (forall sessionID l,
     HTTPTransport_sessions t !! sessionID = Some l -> (l < length heap)%nat) ->
  exists t1 s1 t2 s2,
    handleGet_open t w1 r1 clock1 heap
    = (t1, heap ++ [s1], Streaming (length heap))
    /\ handleGet_open t1 w2 r2 clock2 (heap ++ [s1])
       = (t2, (heap ++ [s1]) ++ [s2], Streaming (length (heap ++ [s1])))
    /\ SSESession_closed s1 = false
    /\ (Stop t2 ((heap ++ [s1]) ++ [s2])).2 !! length heap = Some s1
    /\ (Stop t2 ((heap ++ [s1]) ++ [s2])).2 !! length (heap ++ [s1])
       = Some (SSESession_close s2).
Proof.
  intros Hflush1 Hflush2 Hgiven Hsame Hvalid.
  destruct (startSSEStream_streams t w1 r1 clock1 heap Hflush1)
    as (s1 & Hstart1 & Hid1 & Hopen1 & _).
  set (t1 := with_sessions
               (<[SSESession_ID s1 := length heap]> (HTTPTransport_sessions t)) t)
    in *.
  destruct (startSSEStream_streams t1 w2 r2 clock2 (heap ++ [s1]) Hflush2)
    as (s2 & Hstart2 & Hid2 & _).
  assert (Hid : SSESession_ID s2 = SSESession_ID s1).
  { rewrite Hid1, Hid2, Hsame.
    by destruct (String.eqb_spec (Header_Get (req_Header r1) "Mcp-Session-Id")
                   EmptyString). }
  exists t1, s1. eexists _, s2.
  unfold handleGet_open. rewrite Hstart1, Hstart2.
  split; [reflexivity|]. split; [reflexivity|]. split; [exact Hopen1|].
  unfold Stop. cbn [snd]. rewrite !close_all_lookup.
  cbn [HTTPTransport_sessions with_sessions t1].
  rewrite Hid, insert_insert_eq.
  split.
  - rewrite lookup_app_l by (rewrite length_app; simpl; lia).
    rewrite lookup_alloc. cbn [fmap option_fmap option_map].
    rewrite decide_False; [done|].
    intros [[sessionID l] [Hl Hin]]%list_elem_of_fmap.
    apply elem_of_map_to_list in Hin. simpl in Hl. subst l.
    apply lookup_insert_Some in Hin as [[_ Hlen]|[_ Hin]].
    + rewrite length_app in Hlen. simpl in Hlen. lia.
    + apply Hvalid in Hin. lia.
  - rewrite lookup_alloc. cbn [fmap option_fmap option_map].
    rewrite decide_True; [done|].
    apply list_elem_of_fmap. exists (SSESession_ID s1, length (heap ++ [s1])).
    split; [done|]. apply elem_of_map_to_list. apply lookup_insert_eq.
Qed.

End Streams.

Section StreamsAndDispatch.
Context {TH RH PH : Type}.
Context `{!ToolHandler TH, !ResourceHandler RH, !PromptHandler PH}.

Implicit Types (s : server.Server TH RH PH) (ctx : Context) (req : Request).
Implicit Types (t : HTTPTransport) (w : ResponseWriter) (r : HTTPRequest).
Implicit Types (clock : Clock) (heap : Heap).

Lemma closed_session_dispatch s ctx req heap (l : loc) (sess : SSESession) :
  heap !! l = Some sess ->
  SSESession_closed sess = true ->
  server.HandleRequest s ctx (Some {| session := l |}) req heap
  = (heap, Some "session closed").
Proof.
  intros Hl Hclosed.
  destruct (HandleRequest_outcome s ctx req)
    as [(result & -> & _) | (c & message & data & ->)]; simpl;
    unfold SSEResponseSender_SendResponse, SSEResponseSender_SendError,
      SSESession_sendError, at_session; simpl;
    rewrite Hl, sendEvent_closed by done;
    by rewrite list_insert_id.
Qed.

(** A request that is still being handled for a stream when the transport
    stops gets no answer: once [Stop] has run, the dispatcher's send on a
    registered session fails with "session closed", and nothing is written
    to any session. *)
Theorem dispatch_after_Stop_is_refused s ctx req t heap (sessionID : string)
    (l : loc) (sess : SSESession) :
  HTTPTransport_sessions t !! sessionID = Some l ->
  heap !! l = Some sess ->
  server.HandleRequest s ctx (Some {| session := l |}) req (Stop t heap).2
  = ((Stop t heap).2, Some "session closed").
Proof.
  intros Hreg Hl.
  apply closed_session_dispatch with (sess := SSESession_close sess); [|done].
  unfold Stop. cbn [snd]. rewrite close_all_lookup, Hl.
  rewrite decide_True; [done|].
  apply list_elem_of_fmap. exists (sessionID, l). split; [done|].
  by apply elem_of_map_to_list.
Qed.

End StreamsAndDispatch.

(** ** What the HTTP server serves *)

Section Routes.
Context `{!JSONDecoding}.
Context {TH RH PH : Type}.
Context `{!ToolHandler TH, !ResourceHandler RH, !PromptHandler PH}.

Implicit Types (s : server.Server TH RH PH) (ctx : Context) (req : Request).
Implicit Types (t : HTTPTransport) (w : ResponseWriter) (r : HTTPRequest).
Implicit Types (clock : Clock) (heap : Heap).

(** A request answered on a stream of its own: the handshake, then the
    envelope the dispatcher delivers for the request. *)
Lemma handleSSERequest_streams t s ctx req w r clock heap :
  rw_Flusher w = true ->
  exists (s0 : SSESession) resp,
    startSSEStream t w r clock heap
    = (with_sessions (<[SSESession_ID s0 := length heap]> (HTTPTransport_sessions t)) t,
       heap ++ [s0], inr (length heap))
    /\ handleSSERequest t ctx s w r req clock heap
       = (with_sessions (<[SSESession_ID s0 := length heap]> (HTTPTransport_sessions t)) t,
          heap ++ [{| SSESession_ID := SSESession_ID s0;
                      SSESession_writer :=
                        Write (WriteEvent {| event_id := SSESession_eventID s0;
                                             event_type := EmptyString;
                                             event_data := DataResponse resp |})
                              (SSESession_writer s0);
                      SSESession_eventID := int_wrap (SSESession_eventID s0 + 1);
                      SSESession_closed := false |}],
          Streaming (length heap))
    /\ server.HandleRequest s ctx (Some Build_StdoutSender) req [] = ([resp], None)
    /\ Response_ID resp = Request_ID req.
Proof.
  intros Hflush.
  destruct (startSSEStream_streams t w r clock heap Hflush)
    as (s0 & Hstart & _ & Hopen & _).
  exists s0.
  destruct (HandleRequest_outcome s ctx req)
    as [(result & Hsend & _) | (c & message & data & Hsend)];
    [ exists (envelope.of_result (Request_ID req) result)
    | exists (envelope.of_error (Request_ID req) c message data) ];
    (split; [exact Hstart|]);
    (split; [|by rewrite Hsend]);
    unfold handleSSERequest; rewrite Hstart, Hsend; simpl;
    unfold SSEResponseSender_SendResponse, SSEResponseSender_SendError,
      SSESession_sendError, at_session; simpl;
    rewrite lookup_alloc, sendEvent_open by done;
    by rewrite insert_alloc.
Qed.

Lemma events_keep_the_header (events : list SSEEvent) w :
  rw_Header (foldl (fun w e => Write (WriteEvent e) w) w events) = rw_Header w.
Proof.
  revert w. induction events as [|e events IH]; intros w; [done|].
  simpl. by rewrite IH.
Qed.

(** The responses [/mcp] can leave behind, whatever the request. *)
Lemma mcp_endpoint_cases (P : HTTPTransport * Heap * Served -> Prop)
    t ctx s (method : string) r clock heap w :
  (forall (x : Written) (code : Z),
     P (t, heap,
        Direct (Write x
                 (WriteHeader code
                   (Header_Set "Content-Type" "application/json; charset=utf-8" w))))) ->
  (forall code : Z, P (t, heap, Direct (WriteHeader code w))) ->
  (forall (msg : string) (code : Z), P (t, heap, Direct (http_Error msg code w))) ->
  (forall (sess : SSESession) (events : list SSEEvent),
     SSESession_closed sess = false ->
     SSESession_writer sess
     = foldl (fun w e => Write (WriteEvent e) w)
         (Header_Set "Mcp-Session-Id" (SSESession_ID sess)
           (Header_Set "Access-Control-Allow-Origin" "*"
             (Header_Set "Connection" "keep-alive"
               (Header_Set "Cache-Control" "no-cache"
                 (Header_Set "Content-Type" "text/event-stream; charset=utf-8" w)))))
         events ->
     P (with_sessions
          (<[SSESession_ID sess := length heap]> (HTTPTransport_sessions t)) t,
        heap ++ [sess], Streaming (length heap))) ->
  P (mcp_endpoint t ctx s method r clock heap w).
Proof.
  intros Hjson Hstatus Herror Hstream.
  unfold mcp_endpoint.
  destruct (String.eqb method "POST").
  - unfold handlePost.
    destruct (json_Decode_Request (req_Body r)) as [req|e]; [|apply Hjson].
    cbv zeta.
    destruct (negb _ && negb _); [apply Hjson|].
    destruct (negb (String.eqb _ _)); [apply Hjson|].
    destruct (is_nil (Request_ID req)); [apply Hstatus|].
    destruct (_ && _).
    + destruct (rw_Flusher w) eqn:Hflush.
      * destruct (handleSSERequest_streams t s ctx req w r clock heap Hflush)
          as (s0 & resp & Hstart & -> & _).
        destruct (startSSEStream_streams t w r clock heap Hflush)
          as (s0' & Hstart' & _ & _ & _ & Hwriter).
        rewrite Hstart in Hstart'. injection Hstart' as _ Heq.
        apply app_inj_tail in Heq as [_ <-].
        match goal with
        | |- P (_, _ ++ [?x], _) => eapply (Hstream x [_; _]); [done|]
        end.
        simpl. by rewrite Hwriter.
      * unfold handleSSERequest.
        rewrite startSSEStream_refuses by done. apply Herror.
    + destruct (handleJSONRequest_responds t s ctx req w) as (resp & -> & _).
      apply Hjson.
  - destruct (String.eqb method "GET").
    + unfold handleGet_open. destruct (rw_Flusher w) eqn:Hflush.
      * destruct (startSSEStream_streams t w r clock heap Hflush)
          as (s0 & -> & _ & Hopen & _ & Hwriter).
        eapply (Hstream _ [_]); [done|]. simpl. by rewrite Hwriter.
      * rewrite startSSEStream_refuses by done. apply Herror.
    + destruct (String.eqb method "OPTIONS"); [apply Hstatus | apply Herror].
Qed.

(** The responses of the server, behind both middlewares. *)
Lemma Handler_cases (P : HTTPTransport * Heap * Served -> Prop)
    t ctx s (pattern : Pattern) (method : string) r clock heap w :
  let w0 := corsMiddleware (securityMiddleware (fun w => w)) w in
  (forall (x : Written) (code : Z),
     P (t, heap,
        Direct (Write x
                 (WriteHeader code
                   (Header_Set "Content-Type" "application/json; charset=utf-8" w0))))) ->
  (forall code : Z, P (t, heap, Direct (WriteHeader code w0))) ->
  (forall (msg : string) (code : Z), P (t, heap, Direct (http_Error msg code w0))) ->
  (forall (sess : SSESession) (events : list SSEEvent),
     SSESession_closed sess = false ->
     SSESession_writer sess
     = foldl (fun w e => Write (WriteEvent e) w)
         (Header_Set "Mcp-Session-Id" (SSESession_ID sess)
           (Header_Set "Access-Control-Allow-Origin" "*"
             (Header_Set "Connection" "keep-alive"
               (Header_Set "Cache-Control" "no-cache"
                 (Header_Set "Content-Type" "text/event-stream; charset=utf-8" w0)))))
         events ->
     P (with_sessions
          (<[SSESession_ID sess := length heap]> (HTTPTransport_sessions t)) t,
        heap ++ [sess], Streaming (length heap))) ->
  P (Handler t ctx s pattern method r clock heap w).
Proof.
  intros w0 Hjson Hstatus Herror Hstream.
  destruct pattern.
  - by apply (mcp_endpoint_cases P t ctx s method r clock heap w0).
  - apply Hjson.
Qed.

(** Every response under [/mcp] and [/health] carries the headers of both
    middlewares, whatever the method and the request: the four CORS
    headers (any origin allowed) and the three security headers.  No
    handler takes one of them away; the handlers that write
    [Access-Control-Allow-Origin] or [X-Content-Type-Options] themselves
    write the same value. *)
Theorem middleware_headers_are_on_every_response
    t ctx s (pattern : Pattern) (method : string) r clock heap w :
  exists t' heap' served w',
    Handler t ctx s pattern method r clock heap w = (t', heap', served)
    /\ served_writer heap' served = Some w'
    /\ rw_Header w' !! "Access-Control-Allow-Origin" = Some "*"
    /\ rw_Header w' !! "Access-Control-Allow-Methods" = Some "GET, POST, OPTIONS"
    /\ rw_Header w' !! "Access-Control-Allow-Headers"
       = Some "Content-Type, Accept, Last-Event-ID, Mcp-Session-Id"
    /\ rw_Header w' !! "Access-Control-Max-Age" = Some "86400"
    /\ rw_Header w' !! "X-Content-Type-Options" = Some "nosniff"
    /\ rw_Header w' !! "X-Frame-Options" = Some "DENY"
    /\ rw_Header w' !! "X-XSS-Protection" = Some "1; mode=block".
Proof.
  apply (Handler_cases
           (fun out =>
              exists t' heap' served w',
                out = (t', heap', served)
                /\ served_writer heap' served = Some w'
                /\ rw_Header w' !! "Access-Control-Allow-Origin" = Some "*"
                /\ rw_Header w' !! "Access-Control-Allow-Methods"
                   = Some "GET, POST, OPTIONS"
                /\ rw_Header w' !! "Access-Control-Allow-Headers"
                   = Some "Content-Type, Accept, Last-Event-ID, Mcp-Session-Id"
                /\ rw_Header w' !! "Access-Control-Max-Age" = Some "86400"
                /\ rw_Header w' !! "X-Content-Type-Options" = Some "nosniff"
                /\ rw_Header w' !! "X-Frame-Options" = Some "DENY"
                /\ rw_Header w' !! "X-XSS-Protection" = Some "1; mode=block")).
  - intros x code. do 4 eexists. split; [reflexivity|]. split; [reflexivity|].
    simpl. repeat split; by simplify_map_eq.
  - intros code. do 4 eexists. split; [reflexivity|]. split; [reflexivity|].
    simpl. repeat split; by simplify_map_eq.
  - intros msg code. do 4 eexists. split; [reflexivity|]. split; [reflexivity|].
    simpl. repeat split; by simplify_map_eq.
  - intros sess events Hopen Hwriter.
    do 4 eexists. split; [reflexivity|].
    split; [simpl; by rewrite lookup_alloc|].
    cbn [fmap option_fmap option_map]. rewrite Hwriter, events_keep_the_header.
    simpl. repeat split; by simplify_map_eq.
Qed.

(** No request reaches the stream of another client: whatever is served,
    every session there was is left exactly as it was (nothing written to
    it, not closed), and either no session is added and the registry is
    left as it was, or one open session is added and the registry is the
    old one with the id of that session pointing to it: every other entry
    stays, and no entry is added besides. *)
Theorem request_leaves_other_sessions_alone
    t ctx s (pattern : Pattern) (method : string) r clock heap w :
  exists t' new served,
    Handler t ctx s pattern method r clock heap w = (t', heap ++ new, served)
    /\ (length new <= 1)%nat
    /\ (forall l sess, heap !! l = Some sess -> (heap ++ new) !! l = Some sess)
    /\ (forall sessionID l,
          HTTPTransport_sessions t' !! sessionID = Some l ->
          HTTPTransport_sessions t !! sessionID = Some l
          \/ l = length heap
             /\ exists sess,
                  new = [sess] /\ SSESession_ID sess = sessionID
                  /\ SSESession_closed sess = false)
    /\ (new = [] /\ HTTPTransport_sessions t' = HTTPTransport_sessions t
        \/ exists sess,
             new = [sess]
             /\ SSESession_closed sess = false
             /\ HTTPTransport_sessions t'
                = <[SSESession_ID sess := length heap]> (HTTPTransport_sessions t))
    /\ (forall sessionID l,
          HTTPTransport_sessions t !! sessionID = Some l ->
          HTTPTransport_sessions t' !! sessionID = Some l
          \/ exists sess,
               new = [sess] /\ SSESession_ID sess = sessionID
               /\ HTTPTransport_sessions t' !! sessionID = Some (length heap))
    /\ HTTPTransport_port t' = HTTPTransport_port t
    /\ HTTPTransport_config t' = HTTPTransport_config t.
Proof.
  apply (Handler_cases
           (fun out =>
              exists t' new served,
                out = (t', heap ++ new, served)
                /\ (length new <= 1)%nat
                /\ (forall l sess,
                      heap !! l = Some sess -> (heap ++ new) !! l = Some sess)
                /\ (forall sessionID l,
                      HTTPTransport_sessions t' !! sessionID = Some l ->
                      HTTPTransport_sessions t !! sessionID = Some l
                      \/ l = length heap
                         /\ exists sess,
                              new = [sess] /\ SSESession_ID sess = sessionID
                              /\ SSESession_closed sess = false)
                /\ (new = [] /\ HTTPTransport_sessions t' = HTTPTransport_sessions t
                    \/ exists sess,
                         new = [sess]
                         /\ SSESession_closed sess = false
                         /\ HTTPTransport_sessions t'
                            = <[SSESession_ID sess := length heap]>
                                (HTTPTransport_sessions t))
                /\ (forall sessionID l,
                      HTTPTransport_sessions t !! sessionID = Some l ->
                      HTTPTransport_sessions t' !! sessionID = Some l
                      \/ exists sess,
                           new = [sess] /\ SSESession_ID sess = sessionID
                           /\ HTTPTransport_sessions t' !! sessionID
                              = Some (length heap))
                /\ HTTPTransport_port t' = HTTPTransport_port t
                /\ HTTPTransport_config t' = HTTPTransport_config t)).
  1-3: intros; eexists t, [], _; rewrite app_nil_r;
       (split; [reflexivity|]); (split; [simpl; lia|]); auto 10.
  intros sess events Hopen Hwriter.
  eexists _, [sess], _. split; [reflexivity|]. split; [simpl; lia|].
  split; [intros l s0 Hl; by apply lookup_app_l_Some|].
  cbn [HTTPTransport_sessions with_sessions].
  split; [|split; [|split; [|done]]].
  - intros sessionID l [[<- <-]|[_ Hl]]%lookup_insert_Some; [right|by left].
    split; [done|]. by exists sess.
  - right. by exists sess.
  - intros sessionID l Hl.
    destruct (decide (SSESession_ID sess = sessionID)) as [<-|Hne].
    + right. exists sess. by rewrite lookup_insert_eq.
    + left. by rewrite lookup_insert_ne.
Qed.

(** The Accept header picks the form of the answer to a request, and the
    event stream wins when both forms are named.  The answer is the
    envelope stdio would print: as the second event of a new stream, after
    the handshake and with the next event id and no event type, the stream
    staying registered and open afterwards; or as the JSON body. *)
Theorem accept_header_picks_the_answer_format t s ctx w r clock heap req :
  json_Decode_Request (req_Body r) = Ok req ->
  Request_JSONRPC req = "2.0" ->
  is_nil (Request_ID req) = false ->
  exists resp,
    server.HandleRequest s ctx (Some Build_StdoutSender) req [] = ([resp], None)
    /\ (Contains (Header_Get (req_Header r) "Accept") "text/event-stream" = true ->
        rw_Flusher w = true ->
        exists t' (sess : SSESession),
          handlePost t ctx s w r clock heap
          = (t', heap ++ [sess], Streaming (length heap))
          /\ rw_Header (SSESession_writer sess) !! "Content-Type"
             = Some "text/event-stream; charset=utf-8"
          /\ rw_body (SSESession_writer sess)
             = rw_body w
               ++ [WriteEvent
                     {| event_id :=
                          initial_eventID (Header_Get (req_Header r) "Last-Event-ID");
                        event_type := "connected";
                        event_data :=
                          DataConnected (SSESession_ID sess) (now_RFC3339 clock) |};
                   WriteEvent
                     {| event_id :=
                          int_wrap
                            (initial_eventID (Header_Get (req_Header r) "Last-Event-ID")
                             + 1);
                        event_type := EmptyString;
                        event_data := DataResponse resp |}]
          /\ HTTPTransport_sessions t' !! SSESession_ID sess = Some (length heap)
          /\ SSESession_closed sess = false)
    /\ (Contains (Header_Get (req_Header r) "Accept") "text/event-stream" = false ->
        Contains (Header_Get (req_Header r) "Accept") "application/json" = true ->
        exists w',
          handlePost t ctx s w r clock heap = (t, heap, Direct w')
          /\ rw_Header w' !! "Content-Type" = Some "application/json; charset=utf-8"
          /\ rw_body w' = rw_body w ++ [WriteJSON resp]).
Proof.
  intros Hdecode Hversion Hid.
  destruct (handleJSONRequest_envelope t s ctx req w) as (resp & Hstd & Hjson & _).
  exists resp. split; [exact Hstd|]. split.
  - intros Hsse Hflush.
    destruct (handleSSERequest_streams t s ctx req w r clock heap Hflush)
      as (s0 & resp' & Hstart & Hpost & Hstd' & _).
    rewrite Hstd in Hstd'. injection Hstd' as <-.
    destruct (startSSEStream_streams t w r clock heap Hflush)
      as (s0' & Hstart' & _ & _ & Hevent & Hwriter).
    rewrite Hstart in Hstart'. injection Hstart' as _ Heq.
    apply app_inj_tail in Heq as [_ <-].
    unfold handlePost. rewrite Hdecode. cbv zeta.
    rewrite Hsse, Hversion, Hid, andb_false_r. simpl. rewrite Hpost.
    do 2 eexists. split; [reflexivity|]. simpl.
    rewrite Hwriter, Hevent. simpl.
    split; [by simplify_map_eq|]. split; [by rewrite <- app_assoc|].
    split; [by rewrite lookup_insert_eq|done].
  - intros Hsse Hwants.
    unfold handlePost. rewrite Hdecode. cbv zeta.
    rewrite Hsse, Hwants, Hversion, Hid. simpl. rewrite Hjson.
    eexists. split; [reflexivity|]. simpl.
    split; [by rewrite lookup_insert_eq|done].
Qed.

(** Only POST is dispatched.  Under [/mcp] any other method leaves no
    JSON-RPC response behind, whatever its body says: OPTIONS is answered
    with 200 and no body, a method other than GET, POST and OPTIONS with
    405 and the text "Method not allowed", both without touching the
    transport; a GET writes at most the handshake of a stream. *)
Theorem only_POST_is_dispatched t ctx s (method : string) r clock heap w :
  method <> "POST" ->
  exists t' heap' served w',
    Handler t ctx s pattern_mcp method r clock heap w = (t', heap', served)
    /\ served_writer heap' served = Some w'
    /\ responses w' = responses w
    /\ (method = "OPTIONS" ->
        t' = t /\ heap' = heap
        /\ rw_body w' = rw_body w
        /\ rw_status w' = Some (default 200 (rw_status w)))
    /\ (method <> "GET" -> method <> "OPTIONS" ->
        t' = t /\ heap' = heap
        /\ rw_body w' = rw_body w ++ [WriteText ("Method not allowed" +:+ newline)]
        /\ rw_status w' = Some (default 405 (rw_status w))
        /\ rw_Header w' !! "Content-Type" = Some "text/plain; charset=utf-8").
Proof.
  intros Hpost.
  unfold Handler, corsMiddleware, securityMiddleware, mcp_endpoint.
  destruct (String.eqb_spec method "POST") as [|_]; [done|].
  destruct (String.eqb_spec method "GET") as [->|Hget].
  - unfold handleGet_open.
    match goal with
    | |- context [startSSEStream t ?w0 r clock heap] =>
        destruct (rw_Flusher w) eqn:Hflush;
        [ destruct (startSSEStream_streams t w0 r clock heap Hflush)
            as (s0 & -> & _ & _ & _ & Hwriter)
        | rewrite (startSSEStream_refuses t w0 r clock heap Hflush) ]
    end.
    + do 4 eexists. split; [reflexivity|].
      split; [simpl; by rewrite lookup_alloc|].
      cbn [fmap option_fmap option_map]. rewrite Hwriter.
      rewrite responses_Write. simpl. rewrite app_nil_r.
      split; [reflexivity|]. split; [discriminate|done].
    + do 4 eexists. split; [reflexivity|]. split; [reflexivity|].
      split; [|split; [discriminate|done]].
      unfold http_Error. rewrite responses_Write. simpl. by rewrite app_nil_r.
  - destruct (String.eqb_spec method "OPTIONS") as [->|Hoptions].
    + do 4 eexists. split; [reflexivity|]. split; [reflexivity|].
      split; [reflexivity|]. split; [|done].
      intros _. simpl. by destruct (rw_status w).
    + do 4 eexists. split; [reflexivity|]. split; [reflexivity|].
      split; [|split; [done|]].
      * unfold http_Error. rewrite responses_Write. simpl. by rewrite app_nil_r.
      * intros _ _. simpl.
        split; [done|]. split; [done|]. split; [done|].
        split; [by destruct (rw_status w)|by simplify_map_eq].
Qed.

(** The HTTP status of the answer to a POST tells the transport's own
    refusals from everything else: 400 for a body that does not decode, an
    Accept header naming neither form and a wrong version tag; 204 for a
    notification; 500 when a stream is asked for on a connection that
    cannot flush; and 200 for every request that is dispatched, also when
    the dispatcher answers it with a JSON-RPC error. *)
Theorem http_status_tells_refusals_apart t s ctx w r clock heap :
  rw_status w = None ->
  exists t' heap' served w',
    handlePost t ctx s w r clock heap = (t', heap', served)
    /\ served_writer heap' served = Some w'
    /\ rw_status w'
       = Some
           match json_Decode_Request (req_Body r) with
           | Err _ => 400
           | Ok req =>
               if negb (Contains (Header_Get (req_Header r) "Accept") "application/json")
                  && negb (Contains (Header_Get (req_Header r) "Accept")
                             "text/event-stream")
               then 400
               else if negb (String.eqb (Request_JSONRPC req) "2.0") then 400
               else if is_nil (Request_ID req) then 204
               else if Contains (Header_Get (req_Header r) "Accept") "text/event-stream"
                       && negb (rw_Flusher w)
               then 500
               else 200
           end.
Proof.
  intros Hstatus. unfold handlePost.
  destruct (json_Decode_Request (req_Body r)) as [req|e].
  2: { do 4 eexists. split; [reflexivity|]. split; [reflexivity|].
       simpl. by rewrite Hstatus. }
  cbv zeta.
  destruct (negb _ && negb _).
  { do 4 eexists. split; [reflexivity|]. split; [reflexivity|].
    simpl. by rewrite Hstatus. }
  change (String.eqb (Request_JSONRPC req) JSONRPCVersion)
    with (String.eqb (Request_JSONRPC req) "2.0").
  destruct (negb (String.eqb _ _)).
  { do 4 eexists. split; [reflexivity|]. split; [reflexivity|].
    simpl. by rewrite Hstatus. }
  destruct (is_nil (Request_ID req)).
  { do 4 eexists. split; [reflexivity|]. split; [reflexivity|].
    simpl. by rewrite Hstatus. }
  destruct (Contains (Header_Get (req_Header r) "Accept") "text/event-stream").
  - destruct (rw_Flusher w) eqn:Hflush; simpl.
    + destruct (handleSSERequest_streams t s ctx req w r clock heap Hflush)
        as (s0 & resp & Hstart & -> & _).
      destruct (startSSEStream_streams t w r clock heap Hflush)
        as (s0' & Hstart' & _ & _ & _ & Hwriter).
      rewrite Hstart in Hstart'. injection Hstart' as _ Heq.
      apply app_inj_tail in Heq as [_ <-].
      do 4 eexists. split; [reflexivity|].
      split; [simpl; by rewrite lookup_alloc|].
      simpl. rewrite Hwriter. simpl. by rewrite Hstatus.
    + unfold handleSSERequest. rewrite startSSEStream_refuses by done.
      do 4 eexists. split; [reflexivity|]. split; [reflexivity|].
      simpl. by rewrite Hstatus.
  - simpl.
    destruct (handleJSONRequest_responds t s ctx req w) as (resp & -> & _).
    do 4 eexists. split; [reflexivity|]. split; [reflexivity|].
    simpl. by rewrite Hstatus.
Qed.

End Routes.

(** ** The stdio loop *)

Section StdioLoop.
Context `{!JSONDecoding}.
Context {TH RH PH : Type}.
Context `{!ToolHandler TH, !ResourceHandler RH, !PromptHandler PH}.

Implicit Types (s : server.Server TH RH PH) (ctx : Context) (req : Request).

Lemma handleMessage_appends s ctx (line : string) (out : Stdout) :
  handleMessage s ctx line out = (out ++ (handleMessage s ctx line []).1, None)
  /\ (length (handleMessage s ctx line []).1 <= 1)%nat.
Proof.
  unfold handleMessage, sendParseError.
  destruct (json_Unmarshal_Request line) as [req|e]; [|simpl; split; [done|lia]].
  destruct (negb _); [simpl; rewrite app_nil_r; split; [done|lia]|].
  destruct (is_nil _); [simpl; rewrite app_nil_r; split; [done|lia]|].
  destruct (HandleRequest_outcome s ctx req)
    as [(result & Hsend & _) | (c & message & data & Hsend)];
    rewrite !Hsend; simpl; split; (done || lia).
Qed.

Lemma Start_loop_cons_short s ctx (data : string) (rest : list string)
    (out : Stdout) :
  Z.of_nat (String.length data) < MaxScanTokenSize ->
  Start_loop s ctx (data :: rest) out
  = Start_loop s ctx rest
      (out ++ if String.eqb (dropCR data) EmptyString then []
              else (handleMessage s ctx (dropCR data) []).1).
Proof.
  intros Hshort. rewrite Start_loop_short by done.
  destruct (String.eqb (dropCR data) EmptyString); [by rewrite app_nil_r|].
  by destruct (handleMessage_appends s ctx (dropCR data) out) as [-> _].
Qed.

Lemma Start_loop_concat s ctx (lines : list string) (out : Stdout) :
  Forall (fun data => Z.of_nat (String.length data) < MaxScanTokenSize) lines ->
  Start_loop s ctx lines out
  = (out ++ concat ((fun data =>
                       if String.eqb (dropCR data) EmptyString then []
                       else (handleMessage s ctx (dropCR data) []).1) <$> lines),
     None).
Proof.
  intros Hshort. revert out.
  induction Hshort as [|data lines Hdata _ IH]; intros out.
  - simpl. by rewrite app_nil_r.
  - rewrite Start_loop_cons_short, IH by done.
    by rewrite fmap_cons, concat_cons, app_assoc.
Qed.

Lemma Start_loop_gives_up s ctx (pre post : list string) (long : string)
    (out : Stdout) :
  Forall (fun data => Z.of_nat (String.length data) < MaxScanTokenSize) pre ->
  MaxScanTokenSize <= Z.of_nat (String.length long) ->
  Start_loop s ctx (pre ++ long :: post) out
  = (out ++ concat ((fun data =>
                       if String.eqb (dropCR data) EmptyString then []
                       else (handleMessage s ctx (dropCR data) []).1) <$> pre),
     Some ErrTooLong).
Proof.
  intros Hshort Hlong. revert out.
  induction Hshort as [|data lines Hdata _ IH]; intros out.
  - simpl app. rewrite Start_loop_too_long by done.
    simpl. by rewrite app_nil_r.
  - rewrite <- app_comm_cons, Start_loop_cons_short, IH by done.
    by rewrite fmap_cons, concat_cons, app_assoc.
Qed.

Lemma Start_loop_app s ctx (lines1 lines2 : list string) (out : Stdout) :
  Start_loop s ctx (lines1 ++ lines2) out
  = match Start_loop s ctx lines1 out with
    | (out1, None) => Start_loop s ctx lines2 out1
    | failed => failed
    end.
Proof.
  revert out. induction lines1 as [|data lines1 IH]; intros out; [done|].
  rewrite <- app_comm_cons. cbn [Start_loop].
  destruct (MaxScanTokenSize <=? Z.of_nat (String.length data)); [done|].
  destruct (String.eqb (dropCR data) EmptyString); [apply IH|].
  destruct (handleMessage s ctx (dropCR data) out). apply IH.
Qed.

(** The stdio transport answers line by line.  As long as every line of
    the input has fewer than 65536 bytes, what it prints is what it prints
    for each line alone, in the order of the lines: nothing for a line
    that is empty once its line ending is taken off, and what
    [handleMessage] prints for any other, at most one response, which
    depends on no earlier line; and [Start] returns no error when the
    input ends.  At the first line of 65536 bytes or more it stops with
    the scanner's error, having answered the lines before that one and
    none after it.  Reading the input in two parts gives what reading it
    in one piece gives. *)
Theorem stdio_answers_line_by_line s ctx (input : string) :
  let short := fun data => Z.of_nat (String.length data) < 65536 in
  let answer :=
    fun data =>
      if String.eqb (dropCR data) EmptyString then []
      else (handleMessage s ctx (dropCR data) []).1 in
  (Forall short (ScanLines input) ->
   Start s ctx input = (concat (answer <$> ScanLines input), None))
  /\ (forall pre long post,
        ScanLines input = pre ++ long :: post ->
        Forall short pre ->
        ~ short long ->
        Start s ctx input
        = (concat (answer <$> pre), Some "bufio.Scanner: token too long"))
  /\ (forall data, (length (answer data) <= 1)%nat)
  /\ (forall lines1 lines2 out,
        Start_loop s ctx (lines1 ++ lines2) out
        = match Start_loop s ctx lines1 out with
          | (out1, None) => Start_loop s ctx lines2 out1
          | failed => failed
          end).
Proof.
  intros short answer. split; [|split; [|split]].
  - intros Hshort. unfold Start.
    rewrite Start_loop_concat by exact Hshort. reflexivity.
  - intros pre long post Hlines Hshort Hlong.
    unfold Start. rewrite Hlines.
    rewrite Start_loop_gives_up; [reflexivity|exact Hshort|].
    unfold short in Hlong. change MaxScanTokenSize with 65536. lia.
  - intros data. unfold answer.
    destruct (String.eqb (dropCR data) EmptyString); [simpl; lia|].
    exact (proj2 (handleMessage_appends s ctx (dropCR data) [])).
  - apply Start_loop_app.
Qed.

End StdioLoop.

(** ** The coffee shop handlers *)

Section CoffeeShop.
Context {text : TextEncoding}.

Implicit Types (c : Coffee) (ctx : Context).

Lemma getDrinkInfo_range_first (pre post : list Drink) (d : Drink) (name : string) :
  Drink_Name d = name ->
  (forall d', d' ∈ pre -> Drink_Name d' <> name) ->
  getDrinkInfo_range (pre ++ d :: post) name
  = match json_Marshal_Drink d with
    | Ok drinkJSON => Ok (text_content drinkJSON)
    | Err e => Err ("failed to marshal drink info: " +:+ e)
    end.
Proof.
  intros Hname Hpre. induction pre as [|d' pre IH]; simpl.
  - apply String.eqb_eq in Hname. rewrite Hname.
    by destruct (json_Marshal_Drink d).
  - rewrite (proj2 (String.eqb_neq _ _)) by (apply Hpre; left).
    apply IH. intros d'' Hin. apply Hpre. by right.
Qed.

Lemma getDrinkInfo_range_none (ds : list Drink) (name : string) :
  (forall d, d ∈ ds -> Drink_Name d <> name) ->
  getDrinkInfo_range ds name = Err ("drink not found: " +:+ name).
Proof.
  intros Hnone. induction ds as [|d ds IH]; simpl; [done|].
  rewrite (proj2 (String.eqb_neq _ _)) by (apply Hnone; left).
  apply IH. intros d' Hin. apply Hnone. by right.
Qed.

(** [getDrinkInfo] looks a drink up by its exact name, on any menu: when no
    drink has that name the call fails with "drink not found: <name>", and
    otherwise the answer is one content item of the type [text] holding
    the JSON text of the first drink on the menu with that name, a drink
    further down with the same name never being reached. *)
Theorem getDrinkInfo_finds_the_first_exact_match c ctx (args : gmap string any)
    (name : string) :
  ctx_Err ctx = None ->
  args !! "name" = Some (OfString name) ->
  ((forall d, d ∈ drinks c -> Drink_Name d <> name) ->
   CallTool c ctx {| ToolCallParams_Name := "getDrinkInfo";
                     ToolCallParams_Arguments := args |}
   = Err ("drink not found: " +:+ name))
  /\ (forall pre d post,
        drinks c = pre ++ d :: post ->
        Drink_Name d = name ->
        (forall d', d' ∈ pre -> Drink_Name d' <> name) ->
        CallTool c ctx {| ToolCallParams_Name := "getDrinkInfo";
                          ToolCallParams_Arguments := args |}
        = match json_Marshal_Drink d with
          | Ok drinkJSON =>
              Ok {| ToolResponse_Content :=
                      [ {| ContentItem_Type := "text";
                           ContentItem_Text := drinkJSON |} ] |}
          | Err e => Err ("failed to marshal drink info: " +:+ e)
          end).
Proof.
  intros Hctx Hargs.
  assert (Hcall : CallTool c ctx {| ToolCallParams_Name := "getDrinkInfo";
                                    ToolCallParams_Arguments := args |}
                  = getDrinkInfo_range (drinks c) name).
  { cbn [CallTool Coffee_ToolHandler]. unfold Coffee_CallTool, getDrinkInfo.
    cbn [ToolCallParams_Name ToolCallParams_Arguments].
    unfold index_string. by rewrite Hctx, Hargs. }
  rewrite Hcall. split.
  - apply getDrinkInfo_range_none.
  - intros pre d post -> Hname Hpre. by apply getDrinkInfo_range_first.
Qed.

(** What the shop lists is what it serves.  A prompt can be got exactly
    when [ListPrompts] lists its name; a tool whose name [ListTools] does
    not list is refused with "tool <name> not found", and a resource whose
    URI [ListResources] does not list with "resource not found: <uri>";
    and the resource read is returned under the URI that was asked for. *)
Theorem catalog_matches_what_is_served c ctx :
  (forall params : PromptParams,
     (exists prompts,
        ListPrompts c ctx = Ok prompts
        /\ PromptParams_Name params ∈ Prompt_Name <$> prompts)
     <-> exists response, GetPrompt c ctx params = Ok response)
  /\ (forall (params : ToolCallParams) tools,
        ListTools c ctx = Ok tools ->
        ToolCallParams_Name params ∉ Tool_Name <$> tools ->
        CallTool c ctx params
        = Err ("tool " +:+ ToolCallParams_Name params +:+ " not found"))
  /\ (forall (params : ResourceParams) resources,
        ListResources c ctx = Ok resources ->
        ResourceParams_URI params ∉ Resource_URI <$> resources ->
        ReadResource c ctx params
        = Err ("resource not found: " +:+ ResourceParams_URI params))
  /\ (forall (params : ResourceParams) response,
        ReadResource c ctx params = Ok response ->
        ResourceContent_URI <$> ResourceResponse_Contents response
        = [ResourceParams_URI params]).
Proof.
  split; [|split; [|split]].
  - intros params. cbn [ListPrompts GetPrompt Coffee_PromptHandler].
    unfold Coffee_ListPrompts, Coffee_GetPrompt. split.
    + intros (prompts & [= <-] & Hin). simpl in Hin.
      repeat match goal with
             | Hu : _ ∈ _ :: _ |- _ => apply elem_of_cons in Hu as [->|Hu]
             end; [by eexists | by eexists |].
      by apply elem_of_nil in Hin.
    + intros [response Hget]. eexists. split; [reflexivity|]. simpl.
      destruct (String.eqb_spec (PromptParams_Name params) "drinkRecommendation")
        as [->|_]; [set_solver|].
      destruct (String.eqb_spec (PromptParams_Name params) "drinkDescription")
        as [->|_]; [set_solver|done].
  - intros params tools [= <-] Hnot. simpl in Hnot.
    cbn [CallTool Coffee_ToolHandler]. unfold Coffee_CallTool.
    destruct (String.eqb_spec (ToolCallParams_Name params) "getDrinkNames")
      as [Heq|_]; [rewrite Heq in Hnot; set_solver|].
    destruct (String.eqb_spec (ToolCallParams_Name params) "getDrinkInfo")
      as [Heq|_]; [rewrite Heq in Hnot; set_solver|done].
  - intros params resources [= <-] Hnot. simpl in Hnot.
    cbn [ReadResource Coffee_ResourceHandler]. unfold Coffee_ReadResource.
    destruct (String.eqb_spec (ResourceParams_URI params) "menu://app")
      as [Heq|_]; [rewrite Heq in Hnot; set_solver|done].
  - intros params response.
    cbn [ReadResource Coffee_ResourceHandler].
    unfold Coffee_ReadResource, getMenuResource.
    destruct (String.eqb_spec (ResourceParams_URI params) "menu://app")
      as [->|_]; [|done].
    destruct (json_Marshal_Drinks (drinks c)); [|done].
    by intros [= <-].
Qed.

(** The two tools treat a request whose context is done differently, and
    the dispatcher passes the difference on: [getDrinkNames] is answered
    with a result, one content item of the type [text] whose text is the
    object [{"error": "Request cancelled"}]; [getDrinkInfo] is answered
    with the JSON-RPC error -32602 and the context's error after "Tool
    call failed: ". *)
Theorem cancelled_tool_calls_differ {H W : Type} `{!ResponseSender H W}
    (s : server.Server Coffee Coffee Coffee) ctx (sender : H) (req : Request)
    (w : W) (paramsMap : gmap string any) (e : string) :
  Request_Method req = "tools/call" ->
  Request_Params req = OfMap paramsMap ->
  ctx_Err ctx = Some e ->
  (paramsMap !! "name" = Some (OfString "getDrinkNames") ->
   server.HandleRequest s ctx (Some sender) req w
   = SendResponse sender
       (envelope.of_result (Request_ID req)
          (OfToolResponse
             {| ToolResponse_Content :=
                  [ {| ContentItem_Type := "text";
                       ContentItem_Text :=
                         "{" +:+ String "034" "error" +:+ String "034" ": "
                         +:+ String "034" "Request cancelled"
                         +:+ String "034" "}" |} ] |})) w)
  /\ (paramsMap !! "name" = Some (OfString "getDrinkInfo") ->
      server.HandleRequest s ctx (Some sender) req w
      = SendError sender (Request_ID req) (-32602)
          ("Tool call failed: " +:+ e) Nil w).
Proof.
  intros Hmethod Hparams Hctx.
  assert (Hroute : server.HandleRequest s ctx (Some sender) req w
                   = server.handleToolsCall s ctx (Some sender) (Request_ID req) req w).
  { unfold server.HandleRequest. by rewrite Hmethod. }
  rewrite Hroute. unfold server.handleToolsCall, server.parseToolCallParams.
  rewrite Hparams. unfold index_string.
  split; intros ->; cbn [default from_option id as_string];
    cbn [CallTool Coffee_ToolHandler]; unfold Coffee_CallTool;
    cbn [ToolCallParams_Name String.eqb Ascii.eqb Bool.eqb];
    unfold getDrinkNames, getDrinkInfo, ctx_Done; rewrite Hctx; reflexivity.
Qed.

End CoffeeShop.

(** ** Event ids and frames, as text *)

Section PrintedEvents.

Lemma digit_pretty_N_char (x : N) :
  (x < 10)%N -> digit (pretty_N_char x) = Some (Z.of_N x).
Proof.
  intros Hx.
  assert (x = 0 \/ x = 1 \/ x = 2 \/ x = 3 \/ x = 4 \/ x = 5
          \/ x = 6 \/ x = 7 \/ x = 8 \/ x = 9)%N as Hcases by lia.
  repeat (destruct Hcases as [->|Hcases]; [reflexivity|]).
  by subst.
Qed.

Lemma digits_pretty_N_go (x : N) (text : string) :
  digits (pretty_N_go x text) 0 = digits text (Z.of_N x).
Proof.
  revert text. induction (N.lt_wf_0 x) as [x _ IH]. intros text.
  destruct (decide (x = 0)%N) as [->|Hx]; [by rewrite pretty_N_go_0|].
  rewrite pretty_N_go_step by lia.
  rewrite IH by (apply N.div_lt; lia).
  cbn [digits]. rewrite digit_pretty_N_char by (apply N.mod_lt; lia).
  f_equal. pose proof (N.div_mod x 10 ltac:(lia)) as Hdiv.
  revert Hdiv. generalize (x `div` 10)%N (x `mod` 10)%N. lia.
Qed.

Lemma pretty_N_go_head (x : N) (text : string) :
  (0 < x)%N ->
  exists c rest, pretty_N_go x text = String c rest /\ is_Some (digit c).
Proof.
  revert text. induction (N.lt_wf_0 x) as [x _ IH]. intros text Hx.
  rewrite pretty_N_go_step by done.
  destruct (decide (x `div` 10 = 0)%N) as [->|Hdiv].
  - rewrite pretty_N_go_0. eexists _, _. split; [done|].
    rewrite digit_pretty_N_char by (apply N.mod_lt; lia). by eexists.
  - apply IH; [apply N.div_lt; lia | by apply N.neq_0_lt_0].
Qed.

Lemma Atoi_unsigned (c : ascii) (rest : string) :
  is_Some (digit c) ->
  Atoi (String c rest)
  = match digits (String c rest) 0 with
    | None => Err "invalid syntax"
    | Some n =>
        if (MinInt <=? n) && (n <=? MaxInt) then Ok n
        else Err "value out of range"
    end.
Proof.
  destruct c as [[] [] [] [] [] [] [] []]; intros [d Hd];
    try (vm_compute in Hd; discriminate Hd); reflexivity.
Qed.

Lemma Atoi_minus (body : string) :
  Atoi (String "-" body)
  = match body with
    | EmptyString => Err "invalid syntax"
    | _ =>
        match digits body 0 with
        | None => Err "invalid syntax"
        | Some n =>
            if (MinInt <=? - n) && (- n <=? MaxInt) then Ok (- n)
            else Err "value out of range"
        end
    end.
Proof. reflexivity. Qed.

Lemma Atoi_pretty (z : Z) :
  MinInt <= z <= MaxInt -> Atoi (pretty z) = Ok z.
Proof.
  intros Hrange. destruct z as [|p|p]; [reflexivity| |].
  - unfold pretty, pretty_Z, pretty, pretty_positive, pretty, pretty_N.
    rewrite decide_False by done.
    destruct (pretty_N_go_head (N.pos p) EmptyString) as (c & rest & Heq & Hd);
      [lia|].
    pose proof (digits_pretty_N_go (N.pos p) EmptyString) as Hdigits.
    rewrite Heq in *. rewrite Atoi_unsigned, Hdigits by done.
    cbn [digits Z.of_N].
    by rewrite (proj2 (Z.leb_le _ _)), (proj2 (Z.leb_le _ _)) by lia.
  - unfold pretty, pretty_Z, pretty, pretty_positive, pretty, pretty_N.
    rewrite decide_False by done.
    destruct (pretty_N_go_head (N.pos p) EmptyString) as (c & rest & Heq & Hd);
      [lia|].
    pose proof (digits_pretty_N_go (N.pos p) EmptyString) as Hdigits.
    rewrite Heq in *.
    change ("-" +:+ String c rest) with (String "-" (String c rest)).
    rewrite Atoi_minus, Hdigits.
    cbn [digits Z.of_N].
    by rewrite (proj2 (Z.leb_le _ _)), (proj2 (Z.leb_le _ _)) by lia.
Qed.

(** The event ids the server prints are ids it takes back.  [sendEvent]
    prints the id of an event in decimal on the first line of its frame;
    [strconv.Atoi] reads that text back as the same number, so a client
    that returns the id of the last event it saw as [Last-Event-ID] is
    resumed at the id after it. *)
Theorem printed_event_id_resumes_at_the_next (dataStr : string) (e : SSEEvent) :
  MinInt <= event_id e < MaxInt ->
  exists printed,
    head (frame dataStr e) = Some ("id: " +:+ printed +:+ newline)
    /\ Atoi printed = Ok (event_id e)
    /\ initial_eventID printed = event_id e + 1.
Proof.
  intros Hrange. exists (pretty (event_id e)).
  split; [reflexivity|].
  assert (Hatoi : Atoi (pretty (event_id e)) = Ok (event_id e))
    by (apply Atoi_pretty; lia).
  split; [exact Hatoi|].
  apply initial_eventID_resumed; [exact Hatoi|lia].
Qed.

Lemma Split_newline_not_nil (text : string) : Split_newline text <> [].
Proof.
  destruct text as [|c rest]; simpl; [done|].
  destruct (Ascii.eqb c "010"); [done|].
  by destruct (Split_newline rest).
Qed.

Lemma Split_newline_join (text : string) :
  String.concat newline (Split_newline text) = text.
Proof.
  induction text as [|c rest IH]; [reflexivity|].
  pose proof (Split_newline_not_nil rest) as Hne.
  cbn [Split_newline].
  destruct (Ascii.eqb_spec c "010") as [->|_].
  - destruct (Split_newline rest) as [|piece pieces]; [done|].
    change (String.concat newline (EmptyString :: piece :: pieces))
      with (newline +:+ String.concat newline (piece :: pieces)).
    by rewrite IH.
  - destruct (Split_newline rest) as [|piece [|piece' pieces]]; [done| |].
    + simpl in *. by rewrite IH.
    + change (String.concat newline (String c piece :: piece' :: pieces))
        with (String c (String.concat newline (piece :: piece' :: pieces))).
      by rewrite IH.
Qed.

Lemma Split_newline_pieces (text : string) :
  Forall (fun piece => Contains piece newline = false) (Split_newline text).
Proof.
  induction text as [|c rest IH]; [by repeat constructor|].
  pose proof (Split_newline_not_nil rest) as Hne.
  cbn [Split_newline].
  destruct (Ascii.eqb_spec c "010") as [->|Hc].
  - constructor; [reflexivity|exact IH].
  - destruct (Split_newline rest) as [|piece pieces]; [done|].
    apply Forall_cons in IH as [Hpiece Hpieces].
    constructor; [|exact Hpieces].
    cbn [Contains String.prefix newline].
    destruct (ascii_dec "010" c) as [<-|_]; [done|]. exact Hpiece.
Qed.

(** A frame carries the JSON text of its data intact, also when the text
    has line breaks: the data lines hold the pieces of the text between
    its newlines, none of which holds a newline itself, so that no frame
    ends before its closing blank line, and joining the pieces with
    newlines, as a client does, gives the text back. *)
Theorem data_lines_carry_the_text_intact (dataStr : string) (e : SSEEvent) :
  exists pieces,
    frame dataStr e
    = ["id: " +:+ pretty (event_id e) +:+ newline]
      ++ (if String.eqb (event_type e) EmptyString then []
          else ["event: " +:+ event_type e +:+ newline])
      ++ ((fun piece => "data: " +:+ piece +:+ newline) <$> pieces)
      ++ [newline]
    /\ pieces <> []
    /\ Forall (fun piece => Contains piece newline = false) pieces
    /\ String.concat newline pieces = dataStr.
Proof.
  exists (Split_newline dataStr).
  split; [reflexivity|].
  split; [apply Split_newline_not_nil|].
  split; [apply Split_newline_pieces | apply Split_newline_join].
Qed.

End PrintedEvents.

(** ** Configuration and start-up *)

Section Configuration.
Variable Duration_String : Z -> string.

(** Of the three flags, [ParseFlags] checks the port and the request
    timeout and nothing else: the configuration is accepted exactly when
    the port is between 1 and 65535 and the timeout is positive, whatever
    the transport type says (also for stdio, which has no use for the
    port); the port is checked first, and its message names the value. *)
Theorem ParseFlags_checks_port_and_timeout_only (transportType : string)
    (port requestTimeout : Z) :
  ((config.ParseFlags Duration_String transportType port requestTimeout).2 = None
   <-> 1 <= port <= 65535 /\ 0 < requestTimeout)
  /\ (port < 1 \/ 65535 < port ->
      (config.ParseFlags Duration_String transportType port requestTimeout).2
      = Some ("invalid port: " +:+ pretty port +:+ " (must be 1-65535)"))
  /\ (1 <= port <= 65535 -> requestTimeout <= 0 ->
      (config.ParseFlags Duration_String transportType port requestTimeout).2
      = Some ("invalid request timeout: " +:+ Duration_String requestTimeout
              +:+ " (must be positive)"))
  /\ config.TransportType
       (config.ParseFlags Duration_String transportType port requestTimeout).1
     = transportType
  /\ HTTPTransport_port
       (NewHTTP (config.ParseFlags Duration_String transportType port requestTimeout).1)
     = port.
Proof.
  unfold config.ParseFlags, config.Validate. cbn [fst snd].
  cbn [config.HTTPPort config.RequestTimeout].
  destruct (Z.ltb_spec port 1); cbn [orb].
  { repeat split; try done; try lia; intros [? ?]; lia. }
  destruct (Z.ltb_spec 65535 port).
  { repeat split; try done; try lia; intros [? ?]; lia. }
  destruct (Z.leb_spec requestTimeout 0).
  { repeat split; try done; try lia; intros [? ?]; lia. }
  repeat split; try done; lia.
Qed.

End Configuration.

Section StartUp.
Context {TH RH PH : Type}.
Context `{!ToolHandler TH, !ResourceHandler RH, !PromptHandler PH}.

(** [server.New] builds a server exactly when the configuration and the
    three handlers are all given.  The server it builds answers
    [initialize] with the protocol version 2025-03-26, the name and the
    version of the configuration, and the three capabilities [tools],
    [resources] and [prompts], each with [listChanged] set. *)
Theorem initialize_reports_the_configuration {H W : Type} `{!ResponseSender H W}
    (cfg : option config.Config) (th : option TH) (rh : option RH)
    (ph : option PH) :
  (is_Err (server.New cfg th rh ph) = false
   <-> is_Some cfg /\ is_Some th /\ is_Some rh /\ is_Some ph)
  /\ (forall (s : server.Server TH RH PH) (c : config.Config) (ctx : Context)
        (sender : H) (req : Request) (w : W),
        server.New cfg th rh ph = Ok s ->
        cfg = Some c ->
        Request_Method req = "initialize" ->
        exists info doc,
          server.HandleRequest s ctx (Some sender) req w
          = SendResponse sender
              (envelope.of_result (Request_ID req) (OfInitializeResponse info)) w
          /\ wire.Payload_json (OfInitializeResponse info) = Some (OfMap doc)
          /\ doc !! "protocolVersion" = Some (OfString "2025-03-26")
          /\ doc !! "serverInfo"
             = Some (OfMap {[ "name" := OfString (config.ServerName c);
                              "version" := OfString (config.ServerVersion c) ]})
          /\ doc !! "capabilities"
             = Some (OfMap {[ "tools" := OfMap {[ "listChanged" := OfBool true ]};
                              "resources" := OfMap {[ "listChanged" := OfBool true ]};
                              "prompts" := OfMap {[ "listChanged" := OfBool true ]} ]})).
Proof.
  split.
  - destruct cfg, th, rh, ph; simpl; split; try done;
      intros (? & ? & ? & ?);
      repeat match goal with
             | Hnone : is_Some None |- _ => by destruct Hnone
             end.
  - intros s c ctx sender req w Hnew -> Hmethod.
    destruct th as [t|], rh as [r|], ph as [p|]; try discriminate Hnew.
    injection Hnew as <-.
    eexists _, _. split.
    { unfold server.HandleRequest. rewrite Hmethod. reflexivity. }
    split; [reflexivity|].
    unfold wire.member. cbn [InitializeResponse_ProtocolVersion
      InitializeResponse_ServerInfo InitializeResponse_Capabilities
      server.serverInfo ServerInfo_Name ServerInfo_Version].
    split; [by simplify_map_eq|]. split; [|by simplify_map_eq].
    rewrite lookup_insert_ne, lookup_insert_ne, lookup_insert_eq by done.
    reflexivity.
Qed.

End StartUp.

(** * Examples: the claims at concrete inputs *)

Module examples.
Import trace fixtures.



(** C2 at the fixtures: the ping with id 1 dispatched on stdio. *)
Lemma ping_witness :
  Request_Method ping_request = "ping"
  /\ server.HandleRequest coffee_server Background (Some Build_StdoutSender)
       ping_request []
     = ([envelope.pong float64_1], None)
  /\ wire.Response_json (envelope.pong float64_1) !! "result" = Some (OfMap ∅).
Proof.
  pose proof (ping_succeeds_on_every_transport coffee_server Background
                ping_request eq_refl) as (Hstdio & _ & _ & _ & Hresult).
  split; [reflexivity|]. split; [apply (Hstdio [])|exact Hresult].
Defined.

(** C3 at the fixtures: two sends on a session whose counter is 5 write the
    ids 5 and 6; a stream resumed with [Last-Event-ID: 41] starts at 42. *)
Lemma event_ids_witness :
  event_ids (SSESession_writer (run_calls two_sends session5).1) = [5; 6]
  /\ exists t' heap' l s,
       startSSEStream transport0 fresh_writer (get "41") clock0 []
       = (t', heap', inr l)
       /\ heap' !! l = Some s
       /\ SSESession_closed s = false
       /\ event_ids (SSESession_writer s) = event_ids fresh_writer ++ [42]
       /\ SSESession_eventID s = int_wrap (42 + 1).
Proof.
  destruct event_ids_go_up_by_one as [Hsends Hfirst].
  split.
  - apply (Hsends session5 two_sends eq_refl eq_refl).
    + unfold MinInt. simpl. lia.
    + unfold MaxInt. simpl. lia.
  - apply (Hfirst transport0 fresh_writer (get "41") clock0 [] 42 eq_refl).
    right. exists 41. split; [reflexivity|]. split; [reflexivity|reflexivity].
Defined.

(** C3 as stated fails at the largest [int].  A stream resumed with
    [Last-Event-ID: 9223372036854775807] starts at -9223372036854775808,
    not at that integer plus one; resumed with
    [Last-Event-ID: 9223372036854775806] by a posted ping that asks for
    SSE, its first two events (the handshake and the answer to the ping)
    carry the ids 9223372036854775807 and -9223372036854775808, which do
    not go up by 1. *)
Lemma event_id_wraps_around :
  Atoi "9223372036854775807" = Ok 9223372036854775807
  /\ (exists t' heap' l s,
        startSSEStream transport0 fresh_writer (get "9223372036854775807")
          clock0 [] = (t', heap', inr l)
        /\ heap' !! l = Some s
        /\ event_ids (SSESession_writer s) = [-9223372036854775808])
  /\ (exists t' heap' l w',
        handlePost transport0 Background coffee_server fresh_writer
          (post_resuming "9223372036854775806" ping_text) clock0 []
        = (t', heap', Streaming l)
        /\ served_writer heap' (Streaming l) = Some w'
        /\ event_ids w' = [9223372036854775807; -9223372036854775808]
        /\ responses w' = [envelope.pong float64_1]).
Proof.
  split; [reflexivity|]. split.
  - do 4 eexists. split; [vm_compute; reflexivity|].
    split; [reflexivity|reflexivity].
  - do 4 eexists. split; [vm_compute; reflexivity|].
    split; [reflexivity|]. split; reflexivity.
Qed.



(** C5 at the fixtures: the coffee handler does not know the drink
    "Espresso", and the handler that is offline cannot list its tools. *)
Lemma handler_errors_witness :
  server.HandleRequest coffee_server Background (Some Build_StdoutSender)
    (request "tools/call" float64_7 espresso_params) []
  = ([ envelope.of_error float64_7 (-32602)
         "Tool call failed: drink not found: Espresso" Nil ], None)
  /\ server.HandleRequest offline_server Background (Some Build_StdoutSender)
       (request "tools/list" float64_1 Nil) []
     = ([ envelope.of_error float64_1 (-32603) "Failed to list tools"
            (OfString "backend offline") ], None).
Proof.
  pose proof (handler_errors_become_error_responses coffee_server Background
                Build_StdoutSender
                (request "tools/call" float64_7 espresso_params) []
                "drink not found: Espresso") as (Hcall & _).
  pose proof (handler_errors_become_error_responses offline_server Background
                Build_StdoutSender (request "tools/list" float64_1 Nil) []
                "backend offline") as (_ & _ & _ & Hlist & _).
  split.
  - exact (Hcall {| ToolCallParams_Name := "getDrinkInfo";
                    ToolCallParams_Arguments := {[ "name" := OfString "Espresso" ]} |}
             eq_refl eq_refl eq_refl).
  - exact (Hlist eq_refl eq_refl).
Defined.

(** C6 at the fixtures: the session once closed turns both sends down and
    stays as it is. *)
Lemma closed_session_witness :
  SSESession_closed (SSESession_close session5) = true
  /\ run_calls two_sends (SSESession_close session5)
     = (SSESession_close session5, [Some "session closed"; Some "session closed"]).
Proof.
  split; [reflexivity|].
  apply (proj1 (proj2 (closed_session_rejects_every_send
                         (SSESession_close session5) eq_refl)) two_sends).
Defined.

(** C7 at the fixtures: two tools/list requests with different ids, the
    first on stdio, the second over HTTP under a cancelled context and at
    a time when the handler holds no drinks. *)
Lemma tools_list_witness :
  exists tools,
    server.HandleRequest coffee_server Background (Some Build_StdoutSender)
      (request "tools/list" float64_1 Nil) [envelope.pong float64_7]
    = ([envelope.pong float64_7; envelope.of_result float64_1 (OfTools tools)],
       None)
    /\ responses
         (HTTPResponseSender_writer
            (server.HandleRequest empty_shop_server Canceled (Some ptr_httpSender)
               (request "tools/list" (OfString "again") Nil)
               {| HTTPResponseSender_writer := fresh_writer;
                  HTTPResponseSender_sent := false |}).1)
       = [envelope.of_result (OfString "again") (OfTools tools)]
    /\ Tool_Name <$> tools = ["getDrinkNames"; "getDrinkInfo"]
    /\ Tool_Description <$> tools
       = ["Get the names of the drinks in the shop"; "Get more info about the drink"].
Proof.
  destruct (tools_list_is_stable coffee_server empty_shop_server
              Background Canceled
              (request "tools/list" float64_1 Nil)
              (request "tools/list" (OfString "again") Nil)
              Build_StdoutSender ptr_httpSender
              [envelope.pong float64_7]
              {| HTTPResponseSender_writer := fresh_writer;
                 HTTPResponseSender_sent := false |} eq_refl eq_refl)
    as (_ & _ & Hfirst & Hsecond).
  eexists. split; [exact Hfirst|]. split; [|split; reflexivity].
  rewrite Hsecond. reflexivity.
Defined.

(** C8 at the fixtures: [{"name":"getDrinkNames","arguments":"oops"}]. *)
Lemma ill_typed_arguments_witness :
  server.parseToolCallParams coffee_server (OfMap oops_params)
  = Ok {| ToolCallParams_Name := "getDrinkNames"; ToolCallParams_Arguments := ∅ |}
  /\ server.parsePromptParams coffee_server (OfMap oops_params)
     = Ok {| PromptParams_Name := "getDrinkNames"; PromptParams_Arguments := ∅ |}.
Proof.
  apply (ill_typed_arguments_default_to_empty coffee_server oops_params
           "getDrinkNames" (OfString "oops") eq_refl eq_refl).
  discriminate.
Defined.

(** C8 as stated fails when the params object has no name: for
    [{"arguments":"oops"}] the [arguments] member is present and no JSON
    object, yet extraction fails, and a tools/call request with these
    params is answered with InvalidParams. *)
Lemma nameless_params_are_rejected :
  nameless_params !! "arguments" = Some (OfString "oops")
  /\ server.parseToolCallParams coffee_server (OfMap nameless_params)
     = Err "name parameter is required and must be a string"
  /\ server.parsePromptParams coffee_server (OfMap nameless_params)
     = Err "name parameter is required and must be a string"
  /\ server.HandleRequest coffee_server Background (Some Build_StdoutSender)
       (request "tools/call" float64_1 (OfMap nameless_params)) []
     = ([ envelope.of_error float64_1 (-32602) "Invalid tool call parameters"
            (OfString "name parameter is required and must be a string") ], None).
Proof. repeat split; reflexivity. Qed.

(** C9 at the fixtures: [drink_name] holds the number 7, not a string. *)
Lemma drinkDescription_witness :
  server.HandleRequest coffee_server Background (Some Build_StdoutSender)
    (request "prompts/get" float64_1 (OfMap describe_params)) []
  = ([ envelope.of_result float64_1
         (OfPromptResponse
            {| PromptResponse_Messages :=
                 [ {| PromptMessage_Role := "user";
                      PromptMessage_Content :=
                        {| MessageContent_Type := "text";
                           MessageContent_Text :=
                             "You are a coffee expert. Please provide a detailed description of a coffee, including:"
                             +:+ newline
                             +:+ newline
                             +:+ "1. The ingredients and preparation method"
                             +:+ newline
                             +:+ "2. The flavor profile and tasting notes"
                             +:+ newline
                             +:+ "3. The history or origin of this drink"
                             +:+ newline
                             +:+ "4. Tips for enjoying it" +:+ newline
                             +:+ newline
                             +:+ "Be engaging and informative in your response."
                        |} |} ] |}) ], None).
Proof.
  refine (proj1 (proj2
            (drinkDescription_defaults_to_coffee coffee_server Background
               Build_StdoutSender
               (request "prompts/get" float64_1 (OfMap describe_params)) []
               describe_params eq_refl eq_refl eq_refl _))).
  intros drinkName. vm_compute. discriminate.
Defined.

(** C10 at the fixtures: [Last-Event-ID: abc]. *)
Lemma malformed_Last_Event_ID_witness :
  handleGet_open transport0 fresh_writer
    (with_Last_Event_ID (Some "abc") (get "41")) clock0 []
  = handleGet_open transport0 fresh_writer
      (with_Last_Event_ID None (get "41")) clock0 []
  /\ exists t' heap' l s,
       handleGet_open transport0 fresh_writer
         (with_Last_Event_ID (Some "abc") (get "41")) clock0 []
       = (t', heap', Streaming l)
       /\ heap' !! l = Some s
       /\ SSESession_closed s = false
       /\ event_ids (SSESession_writer s) = event_ids fresh_writer ++ [0]
       /\ SSESession_eventID s = 1.
Proof.
  assert (Hne : "abc" <> EmptyString) by discriminate.
  destruct (malformed_Last_Event_ID_is_ignored transport0 fresh_writer (get "41")
              clock0 [] "abc" Hne eq_refl) as [Hsame Hopens].
  split; [exact Hsame|]. exact (Hopens eq_refl).
Defined.

(** A request for the method [notifications/initialized], dispatched. *)
Lemma unknown_method_witness :
  server.HandleRequest coffee_server Background (Some Build_StdoutSender)
    (request "notifications/initialized" float64_1 Nil) []
  = ([ envelope.of_error float64_1 (-32601)
         "Method notifications/initialized not found" Nil ], None).
Proof.
  refine (unknown_method_is_not_found coffee_server Background Build_StdoutSender
            (request "notifications/initialized" float64_1 Nil) [] _).
  apply (bool_decide_unpack _). reflexivity.
Defined.

(** Params [{"uri":"menu://app"}] hold a uri and no name; params
    [{"arguments":"oops"}] hold no uri. *)
Lemma required_params_witness :
  is_Err (server.parseToolCallParams coffee_server
            (OfMap {[ "uri" := OfString "menu://app" ]})) = true
  /\ is_Err (server.parsePromptParams coffee_server
               (OfMap {[ "uri" := OfString "menu://app" ]})) = true
  /\ is_Err (server.parseResourceParams coffee_server (OfMap nameless_params)) = true.
Proof.
  destruct (required_params_are_checked coffee_server
              (OfMap {[ "uri" := OfString "menu://app" ]})) as [Hname _].
  destruct (required_params_are_checked coffee_server (OfMap nameless_params))
    as [_ Huri].
  split; [|split].
  - apply Hname. intros paramsMap name [= <-]. vm_compute. discriminate.
  - apply Hname. intros paramsMap name [= <-]. vm_compute. discriminate.
  - apply Huri. intros paramsMap uri [= <-]. vm_compute. discriminate.
Defined.

(** A second response through the sender of one HTTP request. *)
Lemma sends_once_witness :
  SendResponse ptr_httpSender (envelope.pong float64_7)
    (SendResponse ptr_httpSender (envelope.pong float64_1)
       {| HTTPResponseSender_writer := fresh_writer;
          HTTPResponseSender_sent := false |}).1
  = ((SendResponse ptr_httpSender (envelope.pong float64_1)
        {| HTTPResponseSender_writer := fresh_writer;
           HTTPResponseSender_sent := false |}).1,
     Some "response already sent").
Proof.
  assert (Hsent : HTTPResponseSender_sent
                    (SendResponse ptr_httpSender (envelope.pong float64_1)
                       {| HTTPResponseSender_writer := fresh_writer;
                          HTTPResponseSender_sent := false |}).1 = true)
    by reflexivity.
  apply (proj1 (HTTPResponseSender_sends_once _ Hsent)).
Defined.

(** A ping tagged with version 1.0, on stdio and posted over HTTP. *)
Lemma version_mismatch_witness :
  handleMessage coffee_server Background legacy_text [] = ([], None)
  /\ handlePost transport0 Background coffee_server fresh_writer
       (post "application/json" legacy_text) clock0 []
     = (transport0, [],
        Direct (HTTPTransport_sendError fresh_writer float64_1 (-32600)
                  "Invalid JSON-RPC version" Nil)).
Proof.
  assert (Hversion : Request_JSONRPC legacy_request <> JSONRPCVersion)
    by discriminate.
  destruct (version_mismatch_by_transport coffee_server Background
              legacy_request Hversion) as [Hstdio Hhttp].
  split.
  - exact (Hstdio legacy_text [] eq_refl).
  - exact (Hhttp transport0 fresh_writer (post "application/json" legacy_text)
             clock0 [] eq_refl eq_refl).
Defined.

(** A stream opened by a GET that names no session, on an empty transport. *)
Lemma stream_is_registered_witness :
  exists t' s,
    startSSEStream transport0 fresh_writer (get "41") clock0 [] = (t', [s], inr 0%nat)
    /\ SSESession_ID s = "session_1761840000000000000"
    /\ HTTPTransport_sessions t' !! "session_1761840000000000000" = Some 0%nat
    /\ rw_Header (SSESession_writer s) !! "Mcp-Session-Id"
       = Some "session_1761840000000000000".
Proof.
  destruct (stream_is_registered_under_its_id transport0 fresh_writer (get "41")
              clock0 [] eq_refl)
    as (t' & s & Hstart & Hid & _ & Hreg & _ & Hheader & _).
  assert (Hsession : SSESession_ID s = "session_1761840000000000000")
    by (rewrite Hid; reflexivity).
  rewrite Hsession in Hreg, Hheader.
  exists t', s. repeat split; assumption.
Defined.

(** The same stream, opened and ended: the registry is empty again. *)
Lemma ended_stream_witness :
  exists t' s,
    handleGet_open transport0 fresh_writer (get "41") clock0 []
    = (t', [s], Streaming 0%nat)
    /\ handleGet_done t' 0%nat [s] = transport0
    /\ SSESession_closed s = false.
Proof.
  destruct (ended_stream_is_unregistered transport0 fresh_writer (get "41")
              clock0 [] eq_refl)
    as (t' & s & Hopen & _ & Hdone & Hnot_closed).
  exists t', s.
  split; [exact Hopen|]. split; [|exact Hnot_closed].
  apply Hdone. apply lookup_empty.
Defined.

(** Two streams opened under the id [shared]: [Stop] leaves the first open. *)
Lemma reused_session_id_witness :
  exists t1 s1 t2 s2,
    handleGet_open transport0 fresh_writer (get_session "shared") clock0 []
    = (t1, [s1], Streaming 0%nat)
    /\ handleGet_open t1 fresh_writer (get_session "shared") clock0 [s1]
       = (t2, [s1; s2], Streaming 1%nat)
    /\ SSESession_closed s1 = false
    /\ (Stop t2 [s1; s2]).2 !! 0%nat = Some s1
    /\ (Stop t2 [s1; s2]).2 !! 1%nat = Some (SSESession_close s2).
Proof.
  assert (Hgiven : Header_Get (req_Header (get_session "shared")) "Mcp-Session-Id"
                   <> EmptyString) by (vm_compute; discriminate).
  assert (Hvalid : forall (sessionID : string) (l : nat),
             HTTPTransport_sessions transport0 !! sessionID = Some l ->
             (l < length ([] : list SSESession))%nat).
  { intros sessionID l Hl.
    change (HTTPTransport_sessions transport0) with (∅ : gmap string nat) in Hl.
    by rewrite lookup_empty in Hl. }
  exact (reused_session_id_escapes_Stop transport0 fresh_writer fresh_writer
           (get_session "shared") (get_session "shared") clock0 clock0 []
           eq_refl eq_refl Hgiven eq_refl Hvalid).
Defined.

(** A ping dispatched for [session5] after the transport has stopped. *)
Lemma dispatch_after_Stop_witness :
  server.HandleRequest coffee_server Background (Some {| session := 0%nat |})
    ping_request (Stop registry5 [session5]).2
  = ((Stop registry5 [session5]).2, Some "session closed").
Proof.
  assert (Hreg : HTTPTransport_sessions registry5 !! "session_1761840000000000000"
                 = Some 0%nat) by reflexivity.
  exact (dispatch_after_Stop_is_refused coffee_server Background ping_request
           registry5 [session5] "session_1761840000000000000" 0%nat session5
           Hreg eq_refl).
Defined.

(** The ping with id 1, posted with both forms named: the pong is the
    second event of the stream, with id 1. *)
Lemma accept_header_witness :
  exists t' sess,
    handlePost transport0 Background coffee_server fresh_writer
      (post "application/json, text/event-stream" ping_text) clock0 []
    = (t', [sess], Streaming 0%nat)
    /\ rw_body (SSESession_writer sess)
       = [ connected 0 (SSESession_ID sess);
           WriteEvent {| event_id := 1;
                         event_type := EmptyString;
                         event_data := DataResponse (envelope.pong float64_1) |} ].
Proof.
  assert (Hdecode : json_Decode_Request
                      (req_Body (post "application/json, text/event-stream" ping_text))
                    = Ok ping_request) by reflexivity.
  destruct (accept_header_picks_the_answer_format transport0 coffee_server
              Background fresh_writer
              (post "application/json, text/event-stream" ping_text) clock0 []
              ping_request Hdecode eq_refl eq_refl)
    as (resp & Hstdio & Hsse & _).
  injection Hstdio as <-.
  destruct (Hsse eq_refl eq_refl) as (t' & sess & Hpost & _ & Hbody & _).
  exists t', sess. split; [exact Hpost | exact Hbody].
Defined.

(** A DELETE on [/mcp]: 405, and nothing dispatched. *)
Lemma only_POST_witness :
  exists t' heap' served w',
    Handler transport0 Background coffee_server pattern_mcp "DELETE"
      (post "application/json" ping_text) clock0 [] fresh_writer
    = (t', heap', served)
    /\ served_writer heap' served = Some w'
    /\ responses w' = []
    /\ rw_status w' = Some 405.
Proof.
  assert (Hmethod : "DELETE" <> "POST") by discriminate.
  destruct (only_POST_is_dispatched transport0 Background coffee_server "DELETE"
              (post "application/json" ping_text) clock0 [] fresh_writer Hmethod)
    as (t' & heap' & served & w' & Hserved & Hwriter & Hresponses & _ & Hother).
  exists t', heap', served, w'.
  split; [exact Hserved|]. split; [exact Hwriter|]. split; [exact Hresponses|].
  destruct Hother as (_ & _ & _ & Hstatus & _); [discriminate..|].
  exact Hstatus.
Defined.

(** The shop's menu: a Mocha is found, a Cortado is not. *)
Lemma getDrinkInfo_witness :
  CallTool NewCoffee Background
    {| ToolCallParams_Name := "getDrinkInfo";
       ToolCallParams_Arguments := {[ "name" := OfString "Mocha" ]} |}
  = Ok {| ToolResponse_Content :=
            [ {| ContentItem_Type := "text";
                 ContentItem_Text :=
                   "{" +:+ quoted "name" +:+ ":" +:+ quoted "Mocha" +:+ ","
                   +:+ quoted "price" +:+ ":6,"
                   +:+ quoted "description" +:+ ":"
                   +:+ quoted "A mocha is a coffee drink made with espresso and chocolate."
                   +:+ "}" |} ] |}
  /\ CallTool NewCoffee Background
       {| ToolCallParams_Name := "getDrinkInfo";
          ToolCallParams_Arguments := {[ "name" := OfString "Cortado" ]} |}
     = Err "drink not found: Cortado".
Proof.
  assert (Hmocha : ({[ "name" := OfString "Mocha" ]} : gmap string any) !! "name"
                   = Some (OfString "Mocha")) by reflexivity.
  assert (Hcortado : ({[ "name" := OfString "Cortado" ]} : gmap string any) !! "name"
                     = Some (OfString "Cortado")) by reflexivity.
  split.
  - refine (proj2 (getDrinkInfo_finds_the_first_exact_match NewCoffee Background
                     {[ "name" := OfString "Mocha" ]} "Mocha" eq_refl Hmocha)
              [ {| Drink_Name := "Latte"; Drink_Price := 5;
                   Drink_Description :=
                     "A latte is a coffee drink made with espresso and steamed milk." |} ]
              {| Drink_Name := "Mocha"; Drink_Price := 6;
                 Drink_Description :=
                   "A mocha is a coffee drink made with espresso and chocolate." |}
              [ {| Drink_Name := "Flat White"; Drink_Price := 7;
                   Drink_Description :=
                     "A flat white is a coffee drink made with espresso and steamed milk." |} ]
              eq_refl eq_refl _).
    intros d Hin.
    apply list_elem_of_singleton in Hin as ->. discriminate.
  - apply (getDrinkInfo_finds_the_first_exact_match NewCoffee Background
             {[ "name" := OfString "Cortado" ]} "Cortado" eq_refl Hcortado).
    intros d Hin. simpl in Hin.
    repeat (apply elem_of_cons in Hin as [->|Hin]; [discriminate|]).
    by apply elem_of_nil in Hin.
Defined.

(** The two tools called on stdio with a context that was cancelled. *)
Lemma cancelled_tool_calls_witness :
  server.HandleRequest coffee_server Canceled (Some Build_StdoutSender)
    (request "tools/call" float64_1 (OfMap oops_params)) []
  = ([ envelope.of_result float64_1
         (OfToolResponse
            {| ToolResponse_Content :=
                 [ {| ContentItem_Type := "text";
                      ContentItem_Text :=
                        "{" +:+ String "034" "error" +:+ String "034" ": "
                        +:+ String "034" "Request cancelled"
                        +:+ String "034" "}" |} ] |}) ], None)
  /\ server.HandleRequest coffee_server Canceled (Some Build_StdoutSender)
       (request "tools/call" float64_1 espresso_params) []
     = ([envelope.of_error float64_1 (-32602) "Tool call failed: context canceled" Nil],
        None).
Proof.
  assert (Hnames : oops_params !! "name" = Some (OfString "getDrinkNames"))
    by reflexivity.
  assert (Hinfo : ({[ "name" := OfString "getDrinkInfo";
                      "arguments" := OfMap {[ "name" := OfString "Espresso" ]} ]}
                    : gmap string any) !! "name"
                  = Some (OfString "getDrinkInfo")) by reflexivity.
  split.
  - exact (proj1 (cancelled_tool_calls_differ coffee_server Canceled
                    Build_StdoutSender
                    (request "tools/call" float64_1 (OfMap oops_params)) []
                    oops_params "context canceled" eq_refl eq_refl eq_refl)
             Hnames).
  - exact (proj2 (cancelled_tool_calls_differ coffee_server Canceled
                    Build_StdoutSender
                    (request "tools/call" float64_1 espresso_params) [] _
                    "context canceled" eq_refl eq_refl eq_refl) Hinfo).
Defined.

(** The event with id 41: a client that returns 41 is resumed at 42. *)
Lemma printed_event_id_witness :
  exists printed,
    head (frame "{}" {| event_id := 41; event_type := EmptyString;
                        event_data := DataResponse (envelope.pong float64_1) |})
    = Some ("id: " +:+ printed +:+ newline)
    /\ Atoi printed = Ok 41
    /\ initial_eventID printed = 42.
Proof.
  assert (Hrange : MinInt <= 41 < MaxInt) by (unfold MinInt, MaxInt; lia).
  exact (printed_event_id_resumes_at_the_next "{}"
           {| event_id := 41; event_type := EmptyString;
              event_data := DataResponse (envelope.pong float64_1) |} Hrange).
Defined.

(** The ping posted with the Accept header [*/*]: refused with 400. *)
Lemma http_status_witness :
  exists t' heap' served w',
    handlePost transport0 Background coffee_server fresh_writer
      (post "*/*" ping_text) clock0 []
    = (t', heap', served)
    /\ served_writer heap' served = Some w'
    /\ rw_status w' = Some 400.
Proof.
  exact (http_status_tells_refusals_apart transport0 coffee_server Background
           fresh_writer (post "*/*" ping_text) clock0 [] eq_refl).
Defined.

(** Standard input with four lines: the ping is answered with the pong,
    the blank line and the notification with nothing, and the last line,
    which no newline ends, with a parse error. *)
Lemma stdio_loop_witness :
  ScanLines four_lines
  = [ ping_text +:+ carriage_return; carriage_return; notification_text;
      ill_typed_text ]
  /\ Start coffee_server Background four_lines
     = ([ envelope.pong float64_1;
          envelope.of_error float64_7 (-32700) "Parse error"
            (OfString ill_typed_error) ], None).
Proof.
  split; [reflexivity|].
  refine (proj1 (stdio_answers_line_by_line coffee_server Background four_lines) _).
  repeat constructor.
Defined.

End examples.
